(** * binance_fix_api: the client-side FIX layer, embedded in Rocq

    The Go packages [fix] (client.go, crypto.go, the call/waiter file, the
    market-data subscription file) and [handlers] (execution_report.go, the
    trade decoder, the enum tables) are translated function by function.
    A Go [(v, err)] result is a [result]; the receiver [*Client] is passed
    and returned explicitly; a [select] is the list of its ready cases.

    The quickfix session engine is a collaborator of the code, not part of
    it: its [FieldMap], [RepeatingGroup] and field readers are modelled in
    [Module quickfix] after the library's behaviour, and what depends on the
    machine is a parameter: float, decimal and time parsing are the
    interface [Runtime]; the Ed25519 primitive, Unicode case mapping and
    the outcome of a transmission are variables of the sections that use
    them; a reading of the clock is an argument. *)

From Stdlib Require Import ZArith List Ascii String Bool Lia.
From Stdlib Require Import Decimal DecimalString DecimalNat DecimalPos.
From stdpp Require Import base option list gmap strings.

Local Open Scope Z_scope.

(** ** Errors and results *)

(** Tags are Go [int]s ([type Tag int]). *)
Abbreviation Tag := Z.

(** The error values the code can hand back.  [errorString s] is
    [errors.New(s)]: the error whose message is exactly [s]. *)
Inductive error : Type :=
  | errorString (text : string)
  | ConditionallyRequiredFieldMissing (t : Tag)
  | IncorrectDataFormatForValue (t : Tag)
  | RepeatingGroupFieldsError (t : Tag)
  | NumError (func : string) (num : string) (range : bool)
  | ParseError (layout : string) (value : string)
  | Canceled
  | DeadlineExceeded
  | SendError (text : string).

Inductive result (A : Type) : Type :=
  | Ok (a : A)
  | Err (e : error).
Arguments Ok {A} a.
Arguments Err {A} e.

#[global] Instance result_ret : MRet result := fun A a => Ok a.
#[global] Instance result_bind : MBind result := fun A B k r =>
  match r with
  | Ok a => k a
  | Err e => Err e
  end.

Definition is_err {A} (r : result A) : bool :=
  match r with Ok _ => false | Err _ => true end.

Definition errors_New (text : string) : error := errorString text.

(** ** What the code takes from the Go runtime *)

Class Runtime : Type := {
  (** [float64] and the literal [0] *)
  float64 : Type;
  float64_zero : float64;
  (** [strconv.ParseFloat(s, 64)] *)
  ParseFloat : string → result float64;
  (** [decimal.Decimal], read by [FIXDecimal.Read], and [InexactFloat64] *)
  Decimal : Type;
  FIXDecimal_Read : string → option Decimal;
  InexactFloat64 : Decimal → float64;
  (** [time.Time], its zero value, [FIXUTCTimestamp.Read], [time.Parse],
      the millisecond rendering of a sending time, and [UnixNano] *)
  Time : Type;
  Time_zero : Time;
  FIXUTCTimestamp_Read : string → option Time;
  time_Parse : string → string → result Time;
  FIXUTCTimestamp_Write : Time → string;
  UnixNano : Time → Z
}.

(** ** strconv *)

Module strconv.

Definition MaxInt64 : Z := 9223372036854775807.
Definition MinInt64 : Z := -9223372036854775808.

Definition digit_of (a : ascii) : option Z :=
  let n := Z.of_N (N_of_ascii a) in
  if (48 <=? n) && (n <=? 57) then Some (n - 48) else None.

(** The value of a run of decimal digits, [None] when a byte is not a
    digit. *)
Fixpoint digits_value (s : string) (acc : Z) : option Z :=
  match s with
  | EmptyString => Some acc
  | String a s' =>
      match digit_of a with
      | Some d => digits_value s' (acc * 10 + d)
      | None => None
      end
  end.

Definition MaxUint64 : Z := 18446744073709551615.

(** The digit loop of [strconv.ParseUint(s, 10, 64)], byte by byte from
    the left, [n] the value read so far.  A byte that is not a digit is a
    syntax error, with value 0.  Digits that no longer fit a uint64 are a
    range error, with value [MaxUint64]: it is returned where the value
    overflows ([n >= cutoff], or [n*10 + d] beyond the maximum), whatever
    bytes follow.  The flag is [false] for [ErrSyntax], [true] for
    [ErrRange]. *)
Fixpoint ParseUint_loop (s : string) (n : Z) : Z * option bool :=
  match s with
  | EmptyString => (n, None)
  | String c s' =>
      match digit_of c with
      | None => (0, Some false)
      | Some d =>
          if MaxUint64 / 10 + 1 <=? n then (MaxUint64, Some true)
          else
            let n1 := n * 10 + d in
            if MaxUint64 <? n1 then (MaxUint64, Some true)
            else ParseUint_loop s' n1
      end
  end.

Definition ParseUint (s : string) : Z * option bool :=
  match s with
  | EmptyString => (0, Some false)
  | _ => ParseUint_loop s 0
  end.

(** [strconv.ParseInt(s, 10, 64)]: an optional sign, then [ParseUint] on
    the rest.  A syntax error is returned with value 0; a range error of
    [ParseUint], or a value beyond the int64 bound of its sign, is returned
    as a range error with the nearest bound. *)
Definition ParseInt2 (s : string) : Z * option error :=
  let syntax := (0, Some (NumError "ParseInt" s false)) in
  let range := Some (NumError "ParseInt" s true) in
  match s with
  | EmptyString => syntax
  | String a rest =>
      let '(neg, ds) :=
        if Ascii.eqb a "+" then (false, rest)
        else if Ascii.eqb a "-" then (true, rest)
        else (false, s) in
      match ParseUint ds with
      | (_, Some false) => syntax
      | (un, _) =>
          if negb neg && (2 ^ 63 <=? un) then (MaxInt64, range)
          else if neg && (2 ^ 63 <? un) then (MinInt64, range)
          else (if neg then - un else un, None)
      end
  end.

Definition ParseInt (s : string) : result Z :=
  match ParseInt2 s with
  | (v, None) => Ok v
  | (_, Some e) => Err e
  end.

(** [strconv.Itoa] on a length, and [%d] of an int64. *)
Definition Itoa (n : nat) : string := NilZero.string_of_uint (Nat.to_uint n).
Definition FormatInt (z : Z) : string := NilZero.string_of_int (Z.to_int z).

End strconv.

(** ** The quickfix library: field maps, messages, repeating groups *)

Module quickfix.

Record TagValue : Type := { tv_tag : Tag; tv_value : string }.

(** A [field] is a [[]TagValue] that is never empty: [Set] writes one
    element, [SetGroup] the counter followed by the entries.  [f[0]] is
    its first component. *)
Abbreviation field := (TagValue * list TagValue)%type.

Definition field_list (f : field) : list TagValue := f.1 :: f.2.

(** [FieldMap.tagLookup] *)
Abbreviation FieldMap := (gmap Z field).

Record Message : Type := { Header : FieldMap; Body : FieldMap }.

Definition NewMessage : Message := {| Header := ∅; Body := ∅ |}.

Definition Has (m : FieldMap) (t : Tag) : bool :=
  match m !! t with Some _ => true | None => false end.

(** [FieldMap.GetField(tag, parser)]: a missing tag and a value the
    parser refuses are the two errors. *)
Definition GetField {A} (m : FieldMap) (t : Tag)
    (read : string → option A) : result A :=
  match m !! t with
  | None => Err (ConditionallyRequiredFieldMissing t)
  | Some f =>
      match read (tv_value f.1) with
      | Some v => Ok v
      | None => Err (IncorrectDataFormatForValue t)
      end
  end.

(** [FIXString.Read] accepts every value. *)
Definition FIXString_Read (s : string) : option string := Some s.

Definition GetString (m : FieldMap) (t : Tag) : result string :=
  GetField m t FIXString_Read.

(** [FieldMap.Set] of a single-valued field. *)
Definition Set_ (m : FieldMap) (t : Tag) (v : string) : FieldMap :=
  <[t := ({| tv_tag := t; tv_value := v |}, [])]> m.

Definition Header_Set (msg : Message) (t : Tag) (v : string) : Message :=
  {| Header := Set_ (Header msg) t v; Body := Body msg |}.

Definition Body_Set (msg : Message) (t : Tag) (v : string) : Message :=
  {| Header := Header msg; Body := Set_ (Body msg) t v |}.

(** *** Repeating groups *)

(** Go's [int] is 64 bits wide here; arithmetic on it wraps. *)
Definition wrap64 (z : Z) : Z := (z + 2 ^ 63) mod 2 ^ 64 - 2 ^ 63.

Fixpoint parseUInt_loop (d : string) (n : Z) : option Z :=
  match d with
  | EmptyString => Some n
  | String a d' =>
      match strconv.digit_of a with
      | None => None
      | Some k => parseUInt_loop d' (wrap64 (n * 10 + k))
      end
  end.

Definition parseUInt (d : string) : option Z :=
  match d with
  | EmptyString => None
  | _ => parseUInt_loop d 0
  end.

(** The library's own [atoi] for counters: an optional minus sign, then
    digits only.  (On an empty value the library would index out of range;
    that is a failure here.) *)
Definition atoi (d : string) : option Z :=
  match d with
  | EmptyString => None
  | String a d' =>
      if Ascii.eqb a "-" then n ← parseUInt d'; Some (wrap64 (- n))
      else parseUInt d
  end.

(** A repeating group whose template is made of plain [GroupElement]s:
    the counter tag, the template tags in order, the entries so far. *)
Record RepeatingGroup : Type := {
  rg_tag : Tag;
  template : list Tag;
  groups : list FieldMap
}.

Definition NewRepeatingGroup (t : Tag) (tpl : list Tag) : RepeatingGroup :=
  {| rg_tag := t; template := tpl; groups := [] |}.

(** [Add] appends an empty entry and returns a pointer to it: here the
    updated group and the position of the new entry. *)
Definition Add (rg : RepeatingGroup) : RepeatingGroup * nat :=
  ({| rg_tag := rg_tag rg; template := template rg;
      groups := groups rg ++ [∅] |},
   length (groups rg)).

(** [group.Set(f)] through the pointer [Add] returned. *)
Definition Group_Set (rg : RepeatingGroup) (i : nat) (t : Tag) (v : string)
    : RepeatingGroup :=
  {| rg_tag := rg_tag rg; template := template rg;
     groups := alter (λ g, Set_ g t v) i (groups rg) |}.

(** The tags of an entry in writing order: those of the template first, in
    template order, then the others. *)
Definition sortedTags (tpl : list Tag) (g : FieldMap) : list Tag :=
  filter (λ t, Has g t = true) tpl
  ++ filter (λ t, t ∉ tpl) (map fst (map_to_list g)).

Definition Group_Write (tpl : list Tag) (g : FieldMap) : list TagValue :=
  flat_map (λ t, match g !! t with
                 | Some f => field_list f
                 | None => []
                 end) (sortedTags tpl g).

(** [RepeatingGroup.Write]: the counter, then every entry's fields. *)
Definition RepeatingGroup_Write (rg : RepeatingGroup) : field :=
  ({| tv_tag := rg_tag rg;
      tv_value := strconv.Itoa (length (groups rg)) |},
   flat_map (Group_Write (template rg)) (groups rg)).

Definition SetGroup (m : FieldMap) (rg : RepeatingGroup) : FieldMap :=
  <[rg_tag rg := RepeatingGroup_Write rg]> m.

Definition Body_SetGroup (msg : Message) (rg : RepeatingGroup) : Message :=
  {| Header := Header msg; Body := SetGroup (Body msg) rg |}.

Definition isDelimiter (tpl : list Tag) (t : Tag) : bool :=
  match tpl with
  | t0 :: _ => bool_decide (t = t0)
  | [] => false
  end.

(** The loop of [RepeatingGroup.Read]: a tag outside the template ends the
    group; the delimiter (first template tag) opens a new entry; any other
    template tag goes to the entry being filled.  [started] is false while
    the entry being filled is the scratch one that is not part of the
    result. *)
Fixpoint read_entries (tpl : list Tag) (tv : list TagValue)
    (done_ : list FieldMap) (started : bool) (cur : FieldMap)
    : list FieldMap :=
  let finish := if started then done_ ++ [cur] else done_ in
  match tv with
  | [] => finish
  | x :: tv' =>
      if bool_decide (tv_tag x ∈ tpl) then
        if isDelimiter tpl (tv_tag x) then
          read_entries tpl tv' finish true (<[tv_tag x := (x, [])]> ∅)
        else
          read_entries tpl tv' done_ started (<[tv_tag x := (x, [])]> cur)
      else finish
  end.

Definition RepeatingGroup_Read (rg : RepeatingGroup) (f : field)
    : result RepeatingGroup :=
  match atoi (tv_value f.1) with
  | None => Err (IncorrectDataFormatForValue (rg_tag rg))
  | Some expectedGroupSize =>
      if expectedGroupSize =? 0 then Ok rg
      else
        let gs := groups rg ++ read_entries (template rg) f.2 [] false ∅ in
        if Z.of_nat (length gs) =? expectedGroupSize then
          Ok {| rg_tag := rg_tag rg; template := template rg; groups := gs |}
        else Err (RepeatingGroupFieldsError (rg_tag rg))
  end.

Definition GetGroup (m : FieldMap) (rg : RepeatingGroup)
    : result RepeatingGroup :=
  match m !! rg_tag rg with
  | None => Err (ConditionallyRequiredFieldMissing (rg_tag rg))
  | Some f => RepeatingGroup_Read rg f
  end.

(** The field [Set] stores for a tag and a value. *)
Definition single (t : Tag) (v : string) : field :=
  ({| tv_tag := t; tv_value := v |}, []).

(** Tags of the standard fields the code names through [field.*Field]. *)
Definition tagBeginString : Tag := 8.
Definition tagClOrdID : Tag := 11.
Definition tagCumQty : Tag := 14.
Definition tagLastPx : Tag := 31.
Definition tagLastQty : Tag := 32.
Definition tagMsgType : Tag := 35.
Definition tagOrderID : Tag := 37.
Definition tagOrderQty : Tag := 38.
Definition tagOrdStatus : Tag := 39.
Definition tagOrdType : Tag := 40.
Definition tagPrice : Tag := 44.
Definition tagSenderCompID : Tag := 49.
Definition tagSendingTime : Tag := 52.
Definition tagSide : Tag := 54.
Definition tagSymbol : Tag := 55.
Definition tagTargetCompID : Tag := 56.
Definition tagText : Tag := 58.
Definition tagTimeInForce : Tag := 59.
Definition tagTransactTime : Tag := 60.
Definition tagMaxFloor : Tag := 111.
Definition tagNoRelatedSym : Tag := 146.
Definition tagHeadline : Tag := 148.
Definition tagMDReqID : Tag := 262.
Definition tagSubscriptionRequestType : Tag := 263.
Definition tagMarketDepth : Tag := 264.
Definition tagNoMDEntryTypes : Tag := 267.
Definition tagMDEntryType : Tag := 269.

End quickfix.

(** The constants of [github.com/quickfixgo/enum] the code uses. *)
Module enum.
Definition MsgType_LOGON : string := "A".
Definition MsgType_MARKET_DATA_REQUEST : string := "V".
Definition OrdStatus_NEW : string := "0".
Definition OrdStatus_PARTIALLY_FILLED : string := "1".
Definition OrdStatus_FILLED : string := "2".
Definition OrdStatus_CANCELED : string := "4".
Definition OrdStatus_PENDING_CANCEL : string := "6".
Definition OrdStatus_REJECTED : string := "8".
Definition OrdStatus_PENDING_NEW : string := "A".
Definition OrdStatus_EXPIRED : string := "C".
Definition TimeInForce_GOOD_TILL_CANCEL : string := "1".
Definition TimeInForce_IMMEDIATE_OR_CANCEL : string := "3".
Definition TimeInForce_FILL_OR_KILL : string := "4".
Definition OrdType_MARKET : string := "1".
Definition OrdType_LIMIT : string := "2".
Definition OrdType_STOP : string := "3".
Definition OrdType_STOP_LIMIT : string := "4".
Definition Side_BUY : string := "1".
Definition Side_SELL : string := "2".
Definition SubscriptionRequestType_SNAPSHOT_PLUS_UPDATES : string := "1".
Definition SubscriptionRequestType_DISABLE_PREVIOUS_SNAPSHOT_PLUS_UPDATE_REQUEST
  : string := "2".
Definition MDEntryType_TRADE : string := "2".
Definition MsgType_EXECUTION_REPORT : string := "8".
Definition MsgType_MARKET_DATA_SNAPSHOT_FULL_REFRESH : string := "W".
Definition MsgType_MARKET_DATA_INCREMENTAL_REFRESH : string := "X".
End enum.

(** ** Package handlers: enum tables *)

Module handlers.
Import quickfix.

(** [type OrderStatus string] and its constants; the zero value of each of
    these types is the empty string. *)
Definition OrderStatus : Type := string.
Definition OrderStatusNew : OrderStatus := "NEW".
Definition OrderStatusPartiallyFilled : OrderStatus := "PARTIALLY_FILLED".
Definition OrderStatusFilled : OrderStatus := "FILLED".
Definition OrderStatusCanceled : OrderStatus := "CANCELED".
Definition OrderStatusPendingCancel : OrderStatus := "PENDING_CANCEL".
Definition OrderStatusRejected : OrderStatus := "REJECTED".
Definition OrderStatusPendingNew : OrderStatus := "PENDING_NEW".
Definition OrderStatusExpired : OrderStatus := "EXPIRED".

Definition TimeInForce : Type := string.
Definition TimeInForceGTC : TimeInForce := "GOOD_TILL_CANCEL".
Definition TimeInForceIOC : TimeInForce := "IMMEDIATE_OR_CANCEL".
Definition TimeInForceFOK : TimeInForce := "FILL_OR_KILL".

Definition OrderType : Type := string.
Definition OrderTypeMarket : OrderType := "MARKET".
Definition OrderTypeLimit : OrderType := "LIMIT".
Definition OrderTypeStop : OrderType := "STOP".
Definition OrderTypeStopLimit : OrderType := "STOP_LIMIT".

Definition SideType : Type := string.
Definition SideTypeBuy : SideType := "BUY".
Definition SideTypeSell : SideType := "SELL".

Definition zero_string : string := "".

(** Indexing a Go map whose values are strings: a missing key gives the
    zero value. *)
Definition index_map (m : gmap string string) (k : string) : string :=
  default zero_string (m !! k).

Definition mappedOrderStatus : gmap string string :=
  list_to_map
    [ (enum.OrdStatus_NEW, OrderStatusNew);
      (enum.OrdStatus_PARTIALLY_FILLED, OrderStatusPartiallyFilled);
      (enum.OrdStatus_FILLED, OrderStatusFilled);
      (enum.OrdStatus_CANCELED, OrderStatusCanceled);
      (enum.OrdStatus_PENDING_CANCEL, OrderStatusPendingCancel);
      (enum.OrdStatus_REJECTED, OrderStatusRejected);
      (enum.OrdStatus_PENDING_NEW, OrderStatusPendingNew);
      (enum.OrdStatus_EXPIRED, OrderStatusExpired) ].

Definition mappedTimeInForce : gmap string string :=
  list_to_map
    [ (enum.TimeInForce_GOOD_TILL_CANCEL, TimeInForceGTC);
      (enum.TimeInForce_IMMEDIATE_OR_CANCEL, TimeInForceIOC);
      (enum.TimeInForce_FILL_OR_KILL, TimeInForceFOK) ].

Definition mappedOrderType : gmap string string :=
  list_to_map
    [ (enum.OrdType_MARKET, OrderTypeMarket);
      (enum.OrdType_LIMIT, OrderTypeLimit);
      (enum.OrdType_STOP, OrderTypeStop);
      (enum.OrdType_STOP_LIMIT, OrderTypeStopLimit) ].

Definition mappedSideType : gmap string string :=
  list_to_map
    [ (enum.Side_BUY, SideTypeBuy);
      (enum.Side_SELL, SideTypeSell) ].

(** ** Package handlers: execution_report.go *)

Section Decoders.
Context `{RT : Runtime}.

Definition utcTimestampMicrosFmt : string := "20060102-15:04:05.000000".
Definition tagCumQuoteQty : Tag := 381.
Definition tagOrderCreationTime : Tag := 6635.
Definition tagWorkingTime : Tag := 636.

Record Order : Type := {
  Symbol : string;
  OrderID : Z;
  ClientOrderID : string;
  Price : float64;
  OrderQty : float64;
  CumQty : float64;
  CumQuoteQty : float64;
  Status : OrderStatus;
  Order_TimeInForce : TimeInForce;
  Type_ : OrderType;
  Side : SideType;
  IcebergQuantity : float64;
  TransactTime : Time;
  OrderCreationTime : Time;
  WorkingTime : Time
}.

(** A [field.XField] read with [msg.Body.Get(&f)], by the Go type of its
    value. *)
Definition Get_string (msg : Message) (t : Tag) : result string :=
  GetField (Body msg) t FIXString_Read.
Definition Get_decimal (msg : Message) (t : Tag) : result Decimal :=
  GetField (Body msg) t FIXDecimal_Read.
Definition Get_time (msg : Message) (t : Tag) : result Time :=
  GetField (Body msg) t FIXUTCTimestamp_Read.

Definition getText (msg : Message) : result string :=
  if Has (Body msg) tagText then Get_string msg tagText else Ok zero_string.

Definition getSymbol (msg : Message) : result string :=
  Get_string msg tagSymbol.

Definition getOrderID (msg : Message) : result Z :=
  f ← (if Has (Body msg) tagOrderID then Get_string msg tagOrderID
       else Ok zero_string);
  strconv.ParseInt f.

Definition getClientOrderID (msg : Message) : result string :=
  if Has (Body msg) tagClOrdID then Get_string msg tagClOrdID
  else Ok zero_string.

Definition getOrderStatus (msg : Message) : result OrderStatus :=
  f ← Get_string msg tagOrdStatus;
  Ok (index_map mappedOrderStatus f).

Definition getOrdType (msg : Message) : result OrderType :=
  f ← Get_string msg tagOrdType;
  Ok (index_map mappedOrderType f).

Definition getSide (msg : Message) : result SideType :=
  f ← Get_string msg tagSide;
  Ok (index_map mappedSideType f).

Definition getTimeInForce (msg : Message) : result TimeInForce :=
  if Has (Body msg) tagTimeInForce then
    f ← Get_string msg tagTimeInForce;
    Ok (index_map mappedTimeInForce f)
  else Ok zero_string.

Definition getPrice (msg : Message) : result float64 :=
  if Has (Body msg) tagPrice then
    f ← Get_decimal msg tagPrice;
    Ok (InexactFloat64 f)
  else Ok float64_zero.

Definition getOrderQty (msg : Message) : result float64 :=
  if Has (Body msg) tagOrderQty then
    f ← Get_decimal msg tagOrderQty;
    Ok (InexactFloat64 f)
  else Ok float64_zero.

Definition getCumQty (msg : Message) : result float64 :=
  if Has (Body msg) tagCumQty then
    f ← Get_decimal msg tagCumQty;
    Ok (InexactFloat64 f)
  else Ok float64_zero.

Definition getCumQuoteQty (msg : Message) : result float64 :=
  if Has (Body msg) tagCumQuoteQty then
    str ← GetString (Body msg) tagCumQuoteQty;
    ParseFloat str
  else Ok float64_zero.

Definition getMaxFloor (msg : Message) : result float64 :=
  if Has (Body msg) tagMaxFloor then
    f ← Get_decimal msg tagMaxFloor;
    Ok (InexactFloat64 f)
  else Ok float64_zero.

Definition getTransactTime (msg : Message) : result Time :=
  if Has (Body msg) tagTransactTime then Get_time msg tagTransactTime
  else Ok Time_zero.

Definition getOrderCreationTime (msg : Message) : result Time :=
  if Has (Body msg) tagOrderCreationTime then
    str ← GetString (Body msg) tagOrderCreationTime;
    time_Parse utcTimestampMicrosFmt str
  else Ok Time_zero.

Definition getWorkingTime (msg : Message) : result Time :=
  if Has (Body msg) tagWorkingTime then
    str ← GetString (Body msg) tagWorkingTime;
    time_Parse utcTimestampMicrosFmt str
  else Ok Time_zero.

(** [DecodeExecutionReport]: the status first, the rejection check next,
    then the fourteen remaining fields in the order of the source; the
    first getter that fails ends the decoding with its error. *)
Definition DecodeExecutionReport (msg : Message) : result Order :=
  status ← getOrderStatus msg;
  _ ← (if decide (status = OrderStatusRejected) then
         reason ← getText msg;
         if decide (reason = zero_string) then Ok ()
         else Err (errors_New reason)
       else Ok ());
  symbol ← getSymbol msg;
  orderID ← getOrderID msg;
  clientOrderID ← getClientOrderID msg;
  price ← getPrice msg;
  orderQty ← getOrderQty msg;
  cumQty ← getCumQty msg;
  cumQuoteQty ← getCumQuoteQty msg;
  timeInForce ← getTimeInForce msg;
  orderType ← getOrdType msg;
  side ← getSide msg;
  maxFloor ← getMaxFloor msg;
  transactTime ← getTransactTime msg;
  orderCreationTime ← getOrderCreationTime msg;
  workingTime ← getWorkingTime msg;
  Ok {| Symbol := symbol;
        OrderID := orderID;
        ClientOrderID := clientOrderID;
        Price := price;
        OrderQty := orderQty;
        CumQty := cumQty;
        CumQuoteQty := cumQuoteQty;
        Status := status;
        Order_TimeInForce := timeInForce;
        Type_ := orderType;
        Side := side;
        IcebergQuantity := maxFloor;
        TransactTime := transactTime;
        OrderCreationTime := orderCreationTime;
        WorkingTime := workingTime |}.

(** The rejection check of [DecodeExecutionReport] (lines 45-53) on its
    own, as the statements below name it. *)
Definition rejection_check (msg : Message) (status : OrderStatus)
    : result unit :=
  if decide (status = OrderStatusRejected) then
    reason ← getText msg;
    if decide (reason = zero_string) then Ok ()
    else Err (errors_New reason)
  else Ok ().

(** ** Package handlers: the trade stream decoder *)

Record Trade : Type := {
  Trade_Symbol : string;
  TradeID : Z;
  Trade_Price : float64;
  Quantity : float64;
  TradeTime : Time;
  BuyerOrderID : Z;
  SellerOrderID : Z;
  IsBuyerMaker : bool
}.

Definition getTradeSymbol (msg : Message) : result string :=
  Get_string msg tagSymbol.

Definition getTradeID (msg : Message) : result Z :=
  if Has (Body msg) 1003 then
    str ← GetString (Body msg) 1003;
    strconv.ParseInt str
  else if Has (Body msg) 571 then
    str ← GetString (Body msg) 571;
    strconv.ParseInt str
  else Err (errors_New "trade ID not found").

Definition getTradePrice (msg : Message) : result float64 :=
  if Has (Body msg) 270 then
    str ← GetString (Body msg) 270;
    ParseFloat str
  else if Has (Body msg) tagLastPx then
    f ← Get_decimal msg tagLastPx;
    Ok (InexactFloat64 f)
  else Err (errors_New "trade price not found").

Definition getTradeQuantity (msg : Message) : result float64 :=
  if Has (Body msg) 271 then
    str ← GetString (Body msg) 271;
    ParseFloat str
  else if Has (Body msg) tagLastQty then
    f ← Get_decimal msg tagLastQty;
    Ok (InexactFloat64 f)
  else Err (errors_New "trade quantity not found").

Definition getTradeTime (msg : Message) : result Time :=
  if Has (Body msg) tagTransactTime then Get_time msg tagTransactTime
  else Err (errors_New "trade time not found").

(** The three venue-specific getters are kept as Go pairs, because their
    caller drops the error and keeps the value. *)
Definition getBuyerOrderID (msg : Message) : Z * option error :=
  if Has (Body msg) 6010 then
    match GetString (Body msg) 6010 with
    | Err e => (0, Some e)
    | Ok str => strconv.ParseInt2 str
    end
  else (0, None).

Definition getSellerOrderID (msg : Message) : Z * option error :=
  if Has (Body msg) 6011 then
    match GetString (Body msg) 6011 with
    | Err e => (0, Some e)
    | Ok str => strconv.ParseInt2 str
    end
  else (0, None).

Definition getIsBuyerMaker (msg : Message) : bool * option error :=
  if Has (Body msg) 6012 then
    match GetString (Body msg) 6012 with
    | Err e => (false, Some e)
    | Ok str =>
        (bool_decide (str = "true") || bool_decide (str = "Y")
         || bool_decide (str = "1"), None)
    end
  else (false, None).

Definition DecodeTradeMessage (msg : Message) : result Trade :=
  symbol ← getTradeSymbol msg;
  tradeID ← getTradeID msg;
  price ← getTradePrice msg;
  quantity ← getTradeQuantity msg;
  tradeTime ← getTradeTime msg;
  let buyerOrderID := (getBuyerOrderID msg).1 in
  let sellerOrderID := (getSellerOrderID msg).1 in
  let isBuyerMaker := (getIsBuyerMaker msg).1 in
  Ok {| Trade_Symbol := symbol;
        TradeID := tradeID;
        Trade_Price := price;
        Quantity := quantity;
        TradeTime := tradeTime;
        BuyerOrderID := buyerOrderID;
        SellerOrderID := sellerOrderID;
        IsBuyerMaker := isBuyerMaker |}.

(** A trade with another buyer, seller or maker field, as the statements
    below name it. *)
Definition with_venue_fields (t : Trade) (buyer seller : Z) (maker : bool)
    : Trade :=
  {| Trade_Symbol := Trade_Symbol t; TradeID := TradeID t;
     Trade_Price := Trade_Price t; Quantity := Quantity t;
     TradeTime := TradeTime t; BuyerOrderID := buyer;
     SellerOrderID := seller; IsBuyerMaker := maker |}.

(** ** Package handlers: TradeStreamHandler *)

Section Handler.
(** A [TradeCallback] is a function value; here it is any value that names
    one. *)
Variable TradeCallback : Type.

(** [subscriptions map[string][]TradeCallback] *)
Record TradeStreamHandler : Type := {
  subscriptions : gmap string (list TradeCallback)
}.

Definition NewTradeStreamHandler : TradeStreamHandler :=
  {| subscriptions := ∅ |}.

(** [h.subscriptions[symbol] = append(h.subscriptions[symbol], callback)]:
    indexing a missing symbol gives the nil slice. *)
Definition Subscribe (h : TradeStreamHandler) (symbol : string)
    (callback : TradeCallback) : TradeStreamHandler :=
  {| subscriptions :=
       <[symbol := default [] (subscriptions h !! symbol) ++ [callback]]>
         (subscriptions h) |}.

Definition Unsubscribe (h : TradeStreamHandler) (symbol : string)
    : TradeStreamHandler :=
  {| subscriptions := delete symbol (subscriptions h) |}.

(** [HandleTradeMessage]: the error returned, and the calls
    [go callback(trade)] it starts, in the order of the loop. *)
Definition HandleTradeMessage (h : TradeStreamHandler) (msg : Message)
    : option error * list (TradeCallback * Trade) :=
  match DecodeTradeMessage msg with
  | Err err => (Some err, [])
  | Ok trade =>
      match subscriptions h !! Trade_Symbol trade with
      | None => (None, [])
      | Some callbacks => (None, map (λ callback, (callback, trade)) callbacks)
      end
  end.

End Handler.

End Decoders.

Arguments subscriptions {TradeCallback} _.
Arguments NewTradeStreamHandler {TradeCallback}.
Arguments Subscribe {TradeCallback} h symbol callback.
Arguments Unsubscribe {TradeCallback} h symbol.
Arguments HandleTradeMessage {RT TradeCallback} h msg.

End handlers.

(** ** Go library functions used by package fix *)

Module go_strings.

(** [strings.Join(elems, sep)] *)
Fixpoint Join (elems : list string) (sep : string) : string :=
  match elems with
  | [] => ""
  | [x] => x
  | x :: rest => x +:+ sep +:+ Join rest sep
  end.

(** [strings.Contains(s, substr)]: [substr] starts at some position of
    [s]. *)
Fixpoint Contains (s substr : string) : bool :=
  if String.prefix substr s then true
  else match s with
       | EmptyString => false
       | String _ s' => Contains s' substr
       end.

End go_strings.

Module base64.

Definition encodeStd : string :=
  "ABCDEFGHIJKLMNOPQRSTUVWXYZabcdefghijklmnopqrstuvwxyz0123456789+/".

Definition StdPadding : ascii := "="%char.

(** The character of a 6-bit value. *)
Definition enc (v : N) : ascii :=
  match String.get (N.to_nat (N.land v 63)) encodeStd with
  | Some a => a
  | None => StdPadding
  end.

(** [base64.StdEncoding.EncodeToString]: three bytes give four characters;
    a remainder of one or two bytes is padded with [=]. *)
Fixpoint EncodeToString (src : list Byte.byte) : string :=
  match src with
  | [] => EmptyString
  | [a] =>
      let val := N.shiftl (Byte.to_N a) 16 in
      String (enc (N.shiftr val 18)) (String (enc (N.shiftr val 12))
        (String StdPadding (String StdPadding EmptyString)))
  | [a; b] =>
      let val := N.lor (N.shiftl (Byte.to_N a) 16)
                       (N.shiftl (Byte.to_N b) 8) in
      String (enc (N.shiftr val 18)) (String (enc (N.shiftr val 12))
        (String (enc (N.shiftr val 6)) (String StdPadding EmptyString)))
  | a :: b :: c :: rest =>
      let val := N.lor (N.lor (N.shiftl (Byte.to_N a) 16)
                              (N.shiftl (Byte.to_N b) 8)) (Byte.to_N c) in
      String (enc (N.shiftr val 18)) (String (enc (N.shiftr val 12))
        (String (enc (N.shiftr val 6)) (String (enc val)
          (EncodeToString rest))))
  end.

End base64.

(** ** Package fix: crypto.go *)

Module crypto.

Definition PrivateKeySize : nat := 64.

(** [ed25519.PrivateKey]: the 64 bytes of a key (seed and public key). *)
Record PrivateKey : Type := {
  key_bytes : list Byte.byte;
  key_size : length key_bytes = PrivateKeySize
}.

Section Logon.
(** [ed25519.Sign] on the bytes of a key: the signature of RFC 8032, a
    function of key and message. *)
Variable ed25519_Sign : list Byte.byte → list Byte.byte → list Byte.byte.

Definition SOH : string := String (ascii_of_nat 1) EmptyString.

Definition GetLogonRawData (privateKey : PrivateKey)
    (senderCompID targetCompID sendingTime : string) : string :=
  let method := enum.MsgType_LOGON in
  let msgSeqNum := "1" in
  let payload :=
    go_strings.Join
      [method; senderCompID; targetCompID; msgSeqNum; sendingTime] SOH in
  let data := ed25519_Sign (key_bytes privateKey)
                           (list_byte_of_string payload) in
  base64.EncodeToString data.

End Logon.
End crypto.

(** ** Package fix: calls and waiters *)

Module client.
Import quickfix.

Definition ErrClosed : error := errors_New "connection is closed".
Definition ErrInvalidRequestIDTag : error :=
  errors_New "request id tag not found".

(** A [chan error]: the values waiting in its buffer, oldest first, the
    capacity it was made with, and whether it has been closed.  A value is
    an [error] interface, so it may be [nil] ([None]). *)
Record chan : Type := {
  buffer : list (option error);
  capacity : nat;
  closed : bool
}.

Definition make_chan (n : nat) : chan :=
  {| buffer := []; capacity := n; closed := false |}.

(** [ch <- v] when it can proceed without a receiver: there is room in the
    buffer.  [None]: the sender would block. *)
Definition chan_send (ch : chan) (v : option error) : option chan :=
  if closed ch then None
  else if (length (buffer ch) <? capacity ch)%nat then
    Some {| buffer := buffer ch ++ [v]; capacity := capacity ch;
            closed := closed ch |}
  else None.

(** [v, ok := <-ch] when it is ready: a buffered value, or the zero value
    with [ok = false] once the channel is closed and drained.  [None]: the
    receiver would block. *)
Definition chan_recv (ch : chan) : option (option error * bool * chan) :=
  match buffer ch with
  | v :: rest =>
      Some (v, true, {| buffer := rest; capacity := capacity ch;
                        closed := closed ch |})
  | [] => if closed ch then Some (None, false, ch) else None
  end.

Record call : Type := {
  request : Message;
  response : option Message;
  done : chan
}.

(** [waiter] embeds the [*call]. *)
Record waiter : Type := { waiter_call : call }.

(** The call once a value has been taken from its channel, [rest] being
    what stays in the buffer. *)
Definition received (c : call) (rest : list (option error)) : call :=
  {| request := request c; response := response c;
     done := {| buffer := rest; capacity := capacity (done c);
                closed := closed (done c) |} |}.

(** A [context.Context] as [wait] sees it: [ctx.Err()], which is non-nil
    exactly when [ctx.Done()] is closed. *)
Record Context_ : Type := { ctx_Err : option error }.

(** [waiter.wait]: the [select] over the two cases.  The result lists every
    case that is ready, each with the value returned and the call as the
    case leaves it; Go picks one of them.  The empty list is a [select]
    that blocks. *)
Definition wait (w : waiter) (ctx : Context_)
    : list (result (option Message) * call) :=
  let c := waiter_call w in
  (match chan_recv (done c) with
   | Some (err, ok, ch) =>
       let c' := {| request := request c; response := response c;
                    done := ch |} in
       let err := if ok then err else Some ErrClosed in
       match err with
       | Some e => [(Err e, c')]
       | None => [(Ok (response c'), c')]
       end
   | None => []
   end)
  ++
  (match ctx_Err ctx with
   | Some e => [(Err e, c)]
   | None => []
   end).

(** ** Package fix: client.go *)

(** What [c.emitter.Emit(topic, args...)] is given. *)
Inductive payload : Type :=
  | StringMap (m : gmap string string)
  | Bool (b : bool).

Record event : Type := { topic : string; args : list payload }.

(** The fields of [Client] the functions below read or write.  [emitter]
    is the sequence of events emitted so far, oldest first. *)
Record Client : Type := {
  isConnected : bool;
  pending : gmap string call;
  emitter : list event;
  beginString : string;
  targetCompID : string;
  senderCompID : string
}.

Definition with_pending (c : Client) (p : gmap string call) : Client :=
  {| isConnected := isConnected c; pending := p; emitter := emitter c;
     beginString := beginString c; targetCompID := targetCompID c;
     senderCompID := senderCompID c |}.

Definition Emit (c : Client) (t : string) (a : list payload) : Client :=
  {| isConnected := isConnected c; pending := pending c;
     emitter := emitter c ++ [{| topic := t; args := a |}];
     beginString := beginString c; targetCompID := targetCompID c;
     senderCompID := senderCompID c |}.

(** The client together with what the session engine has accepted for
    transmission, oldest first. *)
Record State : Type := { the_client : Client; wire : list Message }.

Section WithRuntime.
Context `{RT : Runtime}.

(** [quickfix.Send]: [None] when the engine takes the message, the error
    otherwise. *)
Variable quickfix_Send : Message → option error.

(** [strings.ToLower] *)
Variable ToLower : string → string.

Definition addCommonHeaders (c : Client) (now : Time) (msg : Message)
    : Message :=
  let msg := Header_Set msg tagBeginString (beginString c) in
  let msg := Header_Set msg tagTargetCompID (targetCompID c) in
  let msg := Header_Set msg tagSenderCompID (senderCompID c) in
  Header_Set msg tagSendingTime (FIXUTCTimestamp_Write now).

(** [SendWithoutResponse]; [now] is the clock as [addCommonHeaders] reads
    it. *)
Definition SendWithoutResponse (now : Time) (msg : Message) (s : State)
    : option error * State :=
  let c := the_client s in
  if negb (isConnected c) then (Some ErrClosed, s)
  else
    let msg := addCommonHeaders c now msg in
    match quickfix_Send msg with
    | Some err => (Some err, s)
    | None => (None, {| the_client := c; wire := wire s ++ [msg] |})
    end.

(** [send]: the call is registered before the transmission and removed
    again when the transmission fails. *)
Definition send (now : Time) (id : string) (msg : Message) (s : State)
    : result waiter * State :=
  let c := the_client s in
  if negb (isConnected c) then (Err ErrClosed, s)
  else
    let msg := addCommonHeaders c now msg in
    let cc := {| request := msg; response := None; done := make_chan 1 |} in
    let c := with_pending c (<[id := cc]> (pending c)) in
    match quickfix_Send msg with
    | Some err =>
        let c := with_pending c (delete id (pending c)) in
        (Err err, {| the_client := c; wire := wire s |})
    | None =>
        (Ok {| waiter_call := cc |},
         {| the_client := c; wire := wire s ++ [msg] |})
    end.

(** The two extractions of [handleNewsMessage] (tag 148, tag 58): the
    value when the tag is there, the empty string otherwise; the error of
    [GetString] is dropped. *)
Definition newsHeadline (msg : Message) : string :=
  if Has (Body msg) tagHeadline then
    match GetString (Body msg) tagHeadline with
    | Ok v => v
    | Err _ => ""
    end
  else "".

Definition newsBody (msg : Message) : string :=
  if Has (Body msg) tagText then
    match GetString (Body msg) tagText with
    | Ok v => v
    | Err _ => ""
    end
  else "".

Definition maintenance_event (headline newsText : string) : event :=
  {| topic := "maintenance";
     args := [StringMap {[ "headline" := headline; "text" := newsText ]}] |}.

Definition reconnect_needed_event : event :=
  {| topic := "reconnect_needed"; args := [Bool true] |}.

(** [handleNewsMessage] *)
Definition handleNewsMessage (msg : Message) (c : Client) : Client :=
  let headline := newsHeadline msg in
  let newsText := newsBody msg in
  let isMaintenanceNews :=
    go_strings.Contains (ToLower headline) "maintenance"
    || go_strings.Contains (ToLower newsText) "maintenance"
    || go_strings.Contains (ToLower newsText) "reconnect" in
  if isMaintenanceNews then
    let c := Emit c "maintenance"
               [StringMap {[ "headline" := headline; "text" := newsText ]}] in
    if go_strings.Contains (senderCompID c) "BMD" then
      Emit c "reconnect_needed" [Bool true]
    else c
  else c.

(** ** Package fix: market-data subscriptions *)

(** The loop [for _, symbol := range symbols] over a repeating group. *)
Definition add_symbols (rg : RepeatingGroup) (symbols : list string)
    : RepeatingGroup :=
  fold_left (λ rg symbol,
               let '(rg, group) := Add rg in
               Group_Set rg group tagSymbol symbol)
            symbols rg.

(** The message [SubscribeToTrades] builds before it sends it; [nano] is
    [time.Now().UnixNano()]. *)
Definition subscribeRequest (nano : Z) (symbols : list string) : Message :=
  let msg := NewMessage in
  let msg := Header_Set msg tagMsgType enum.MsgType_MARKET_DATA_REQUEST in
  let mdReqID := "MDR_" +:+ strconv.FormatInt nano in
  let msg := Body_Set msg tagMDReqID mdReqID in
  let msg := Body_Set msg tagSubscriptionRequestType
               enum.SubscriptionRequestType_SNAPSHOT_PLUS_UPDATES in
  let msg := Body_Set msg tagMarketDepth (strconv.FormatInt 1) in
  let noRelatedSymGroup :=
    add_symbols (NewRepeatingGroup tagNoRelatedSym [tagSymbol]) symbols in
  let msg := Body_SetGroup msg noRelatedSymGroup in
  let noMDEntryTypesGroup :=
    NewRepeatingGroup tagNoMDEntryTypes [tagMDEntryType] in
  let '(noMDEntryTypesGroup, tradeGroup) := Add noMDEntryTypesGroup in
  let noMDEntryTypesGroup :=
    Group_Set noMDEntryTypesGroup tradeGroup tagMDEntryType
      enum.MDEntryType_TRADE in
  Body_SetGroup msg noMDEntryTypesGroup.

(** [SubscribeToTrades] reads the clock twice: [t0] for the request id,
    [now] in [addCommonHeaders]. *)
Definition SubscribeToTrades (t0 now : Time) (symbols : list string)
    (s : State) : option error * State :=
  SendWithoutResponse now (subscribeRequest (UnixNano t0) symbols) s.

(** The message [UnsubscribeFromTrades] builds. *)
Definition unsubscribeRequest (nano : Z) (symbols : list string) : Message :=
  let msg := NewMessage in
  let msg := Header_Set msg tagMsgType enum.MsgType_MARKET_DATA_REQUEST in
  let mdReqID := "MDR_UNSUB_" +:+ strconv.FormatInt nano in
  let msg := Body_Set msg tagMDReqID mdReqID in
  let msg := Body_Set msg tagSubscriptionRequestType
    enum.SubscriptionRequestType_DISABLE_PREVIOUS_SNAPSHOT_PLUS_UPDATE_REQUEST in
  let noRelatedSymGroup :=
    add_symbols (NewRepeatingGroup tagNoRelatedSym [tagSymbol]) symbols in
  Body_SetGroup msg noRelatedSymGroup.

Definition UnsubscribeFromTrades (t0 now : Time) (symbols : list string)
    (s : State) : option error * State :=
  SendWithoutResponse now (unsubscribeRequest (UnixNano t0) symbols) s.

(** A symbol as the loop writes it into its entry of the group. *)
Definition symbol_field (symbol : string) : TagValue :=
  {| tv_tag := tagSymbol; tv_value := symbol |}.

Definition symbol_entry (symbol : string) : FieldMap :=
  {[ tagSymbol := (symbol_field symbol, []) ]}.

(** Reading the symbol group back from a message body: quickfix's
    [GetGroup] with the template the request was written with, then tag 55
    of every entry. *)
Definition readSymbolGroup (body : FieldMap) : result (list string) :=
  rg ← GetGroup body (NewRepeatingGroup tagNoRelatedSym [tagSymbol]);
  mapM (λ g, GetString g tagSymbol) (groups rg).

(** ** Package fix: the rest of client.go *)

Definition IsConnected (c : Client) : bool := isConnected c.

(** [Call]: [send], then [wait] on the call it registered, with no other
    goroutine running in between.  The waiter shares the call with the
    pending map, so the call as [wait] leaves it is the one registered
    under [id]. *)
Definition Call (now : Time) (ctx : Context_) (id : string) (msg : Message)
    (s : State) : list (result (option Message) * State) :=
  match send now id msg s with
  | (Err err, s') => [(Err err, s')]
  | (Ok w, s') =>
      map (λ out : result (option Message) * call,
             (out.1,
              {| the_client :=
                   with_pending (the_client s')
                     (<[id := out.2]> (pending (the_client s')));
                 wire := wire s' |}))
          (wait w ctx)
  end.

(** The listener [SubscribeToMaintenance] hands to the emitter: what it
    calls [callback] with, [None] when it does not call it. *)
Definition maintenanceListener (args : list payload)
    : option (string * string) :=
  match args with
  | StringMap newsData :: _ =>
      Some (handlers.index_map newsData "headline",
            handlers.index_map newsData "text")
  | _ => None
  end.

(** The listener of [SubscribeToReconnectNeeded] calls [callback()]
    whatever it is given. *)
Definition reconnectNeededListener (args : list payload) : option unit :=
  Some ().

(** [emitter.On(t, listener)] followed by the emissions of [log]: the calls
    the listener makes, in order. *)
Definition listener_calls {A} (t : string)
    (listener : list payload → option A) (log : list event) : list A :=
  omap (λ e, if decide (topic e = t) then listener (args e) else None) log.

(** The two topic names of [handleSubscriptions] are constants of a file
    that is not at hand. *)
Variable ExecutionReportTopic : string.
Variable TradeStreamTopic : string.

(** What [handleSubscriptions] passes to [c.emitter.Emit]. *)
Inductive emission : Type :=
  | EmitOrder (t : string) (order : handlers.Order)
  | EmitTrade (t : string) (trade : handlers.Trade).

Definition handleSubscriptions (msgType : string) (msg : Message)
    : option emission :=
  if decide (msgType = enum.MsgType_EXECUTION_REPORT) then
    match handlers.DecodeExecutionReport msg with
    | Err _ => None
    | Ok order => Some (EmitOrder ExecutionReportTopic order)
    end
  else if bool_decide (msgType = enum.MsgType_MARKET_DATA_SNAPSHOT_FULL_REFRESH)
          || bool_decide
               (msgType = enum.MsgType_MARKET_DATA_INCREMENTAL_REFRESH) then
    match handlers.DecodeTradeMessage msg with
    | Err _ => None
    | Ok trade => Some (EmitTrade TradeStreamTopic trade)
    end
  else None.

End WithRuntime.
End client.

(** ** Package fix: config.go *)

Module config.

Abbreviation EndpointType := string (only parsing).
Definition OrderEntryEndpoint : EndpointType := "OE".
Definition MarketDataEndpoint : EndpointType := "MD".

Record EndpointConfig : Type := {
  Host : string;
  Port : Z;
  SenderCompID : string;
  TargetCompID : string;
  HeartbeatInt : Z;
  ReconnectCount : Z
}.

Definition DefaultEndpoints : gmap string EndpointConfig :=
  list_to_map
    [ (OrderEntryEndpoint,
       {| Host := "fix-oe.binance.com"; Port := 9000;
          SenderCompID := "BOETRADE"; TargetCompID := "SPOT";
          HeartbeatInt := 30; ReconnectCount := 10 |});
      (MarketDataEndpoint,
       {| Host := "fix-md.binance.com"; Port := 9000;
          SenderCompID := "BMDWATCH"; TargetCompID := "SPOT";
          HeartbeatInt := 30; ReconnectCount := 10 |}) ].

Definition LF : string := String (ascii_of_nat 10) EmptyString.

(** The text [GenerateQuickFixSettings] writes into its builder. *)
Definition settingsText (config : EndpointConfig) (enableSSL : bool)
    : string :=
  "[DEFAULT]" +:+ LF
  +:+ "BeginString=FIX.4.4" +:+ LF
  +:+ "SocketConnectHost=" +:+ Host config +:+ LF
  +:+ "SocketConnectPort=" +:+ strconv.FormatInt (Port config) +:+ LF
  +:+ "HeartBtInt=" +:+ strconv.FormatInt (HeartbeatInt config) +:+ LF
  +:+ "SenderCompID=" +:+ SenderCompID config +:+ LF
  +:+ "TargetCompID=" +:+ TargetCompID config +:+ LF
  +:+ "ConnectionType=initiator" +:+ LF
  +:+ (if enableSSL then "SocketUseSSL=Y" +:+ LF else "")
  +:+ LF
  +:+ "[SESSION]" +:+ LF.

Section Settings.
(** [quickfix.ParseSettings] on the text, with the library's settings and
    error types. *)
Variable Settings : Type.
Variable ParseFailure : Type.
Variable ParseSettings : string → Settings + ParseFailure.

(** The two errors of [GenerateQuickFixSettings]: [fmt.Errorf] with the
    message given, and the parser's error wrapped behind
    ["failed to parse settings: "]. *)
Inductive settings_error : Type :=
  | Errorf (message : string)
  | FailedToParse (err : ParseFailure).

Definition GenerateQuickFixSettings (endpoint : EndpointType)
    (apiKey : string) (enableSSL : bool) : Settings + settings_error :=
  match DefaultEndpoints !! endpoint with
  | None => inr (Errorf ("unknown endpoint type: " +:+ endpoint))
  | Some config =>
      match ParseSettings (settingsText config enableSSL) with
      | inr err => inr (FailedToParse err)
      | inl settings => inl settings
      end
  end.

End Settings.

(** [ConnectionConfig] and [NewConnectionConfig] *)
Record ConnectionConfig : Type := {
  Endpoint : EndpointType;
  APIKey : string;
  PrivateKeyPEM : list Byte.byte;
  EnableSSL : bool
}.

Definition NewConnectionConfig (endpoint : EndpointType) (apiKey : string)
    (privateKeyPEM : list Byte.byte) : ConnectionConfig :=
  {| Endpoint := endpoint; APIKey := apiKey;
     PrivateKeyPEM := privateKeyPEM; EnableSSL := true |}.

End config.

(** ** An instance to run the definitions on examples

    Numbers are integer numerals, read exactly (as Go reads them); a time
    is kept as the text of its timestamp, with the nanoseconds of the clock
    beside it. *)

Module examples.
Import quickfix.

Definition read_integer (s : string) : option Z :=
  match strconv.ParseInt s with
  | Ok z => Some z
  | Err _ => None
  end.

Definition read_timestamp (s : string) : option (string * Z) :=
  if bool_decide (String.length s = 21%nat) then Some (s, 0) else None.

Definition parse_layout (layout s : string) : result (string * Z) :=
  if bool_decide (String.length s = String.length layout) then Ok (s, 0)
  else Err (ParseError layout s).

#[export] Instance integer_runtime : Runtime := {|
  float64 := Z;
  float64_zero := 0;
  ParseFloat := strconv.ParseInt;
  Decimal := Z;
  FIXDecimal_Read := read_integer;
  InexactFloat64 := λ d, d;
  Time := string * Z;
  Time_zero := ("", 0);
  FIXUTCTimestamp_Read := read_timestamp;
  time_Parse := parse_layout;
  FIXUTCTimestamp_Write := fst;
  UnixNano := snd
|}.

(** ASCII lower-casing, which is what [strings.ToLower] does on a string
    of ASCII bytes. *)
Definition lower_ascii (a : ascii) : ascii :=
  let n := nat_of_ascii a in
  if ((65 <=? n) && (n <=? 90))%nat then ascii_of_nat (n + 32) else a.

Fixpoint ascii_ToLower (s : string) : string :=
  match s with
  | EmptyString => EmptyString
  | String a s' => String (lower_ascii a) (ascii_ToLower s')
  end.

(** A message body from a list of tag/value pairs. *)
Definition body_of (l : list (Tag * string)) : Message :=
  fold_left (λ m p, Body_Set m p.1 p.2) l NewMessage.

Definition accept_all (msg : Message) : option error := None.
Definition refuse_all (msg : Message) : option error :=
  Some (SendError "session not found").

Definition rejected_report : Message :=
  body_of [(39, "8"); (58, "Insufficient balance"); (55, "BTCUSDT");
           (37, "12345")].

Definition rejected_without_reason : Message :=
  body_of [(39, "8"); (55, "BTCUSDT"); (37, "12345"); (40, "2"); (54, "1")].

Definition unknown_enums_report : Message :=
  body_of [(39, "Z"); (55, "BTCUSDT"); (37, "7"); (40, "P"); (54, "9");
           (59, "6")].

Definition trade_primary : Message :=
  body_of [(55, "BTCUSDT"); (1003, "99"); (270, "50000"); (31, "49999");
           (271, "2"); (32, "3"); (60, "20240101-00:00:00.000")].

Definition trade_fallback : Message :=
  body_of [(55, "BTCUSDT"); (571, "98"); (31, "49999"); (32, "3");
           (60, "20240101-00:00:00.000")].

Definition decoded_fallback : handlers.Trade :=
  {| handlers.Trade_Symbol := "BTCUSDT"; handlers.TradeID := 98;
     handlers.Trade_Price := 49999; handlers.Quantity := 3;
     handlers.TradeTime := ("20240101-00:00:00.000", 0);
     handlers.BuyerOrderID := 0; handlers.SellerOrderID := 0;
     handlers.IsBuyerMaker := false |}.

(** Trade ticks with neither price tag, and without the time tag. *)
Definition trade_without_price : Message :=
  body_of [(55, "BTCUSDT"); (571, "98"); (32, "3");
           (60, "20240101-00:00:00.000")].

Definition trade_without_time : Message :=
  body_of [(55, "BTCUSDT"); (571, "98"); (31, "49999"); (32, "3")].

Definition md_client : client.Client :=
  {| client.isConnected := true; client.pending := ∅;
     client.emitter := []; client.beginString := "FIX.4.4";
     client.targetCompID := "SPOT"; client.senderCompID := "BMDWATCH" |}.

Definition oe_client : client.Client :=
  {| client.isConnected := true; client.pending := ∅;
     client.emitter := []; client.beginString := "FIX.4.4";
     client.targetCompID := "SPOT"; client.senderCompID := "BOETRADE" |}.

Definition noon : string * Z := ("20240101-12:00:00.000", 1704110400000000000).

(** A call still waiting for its response, and a client that has it
    registered under ["r1"]. *)
Definition outstanding_call : client.call :=
  {| client.request := body_of [(35, "XLQ"); (6136, "r1")];
     client.response := None;
     client.done := client.make_chan 1 |}.

Definition busy_state : client.State :=
  {| client.the_client :=
       client.with_pending oe_client {[ "r1" := outstanding_call ]};
     client.wire := [] |}.

Definition maintenance_notice : Message :=
  body_of [(148, "Notice");
           (58, "Scheduled maintenance, please reconnect")].

Definition reconnect_headline_notice : Message :=
  body_of [(148, "Please reconnect")].

Definition expired : client.Context_ :=
  {| client.ctx_Err := Some DeadlineExceeded |}.

(** Further inputs. *)
Definition minimal_report : Message :=
  body_of [(39, "0"); (55, "BTCUSDT"); (37, "12345"); (40, "2"); (54, "1")].

Definition minimal_order : handlers.Order :=
  {| handlers.Symbol := "BTCUSDT"; handlers.OrderID := 12345;
     handlers.ClientOrderID := ""; handlers.Price := 0;
     handlers.OrderQty := 0; handlers.CumQty := 0;
     handlers.CumQuoteQty := 0; handlers.Status := "NEW";
     handlers.Order_TimeInForce := ""; handlers.Type_ := "LIMIT";
     handlers.Side := "BUY"; handlers.IcebergQuantity := 0;
     handlers.TransactTime := ("", 0);
     handlers.OrderCreationTime := ("", 0);
     handlers.WorkingTime := ("", 0) |}.

Definition unknown_enums_order : handlers.Order :=
  {| handlers.Symbol := "BTCUSDT"; handlers.OrderID := 7;
     handlers.ClientOrderID := ""; handlers.Price := 0;
     handlers.OrderQty := 0; handlers.CumQty := 0;
     handlers.CumQuoteQty := 0; handlers.Status := "";
     handlers.Order_TimeInForce := ""; handlers.Type_ := "";
     handlers.Side := ""; handlers.IcebergQuantity := 0;
     handlers.TransactTime := ("", 0);
     handlers.OrderCreationTime := ("", 0);
     handlers.WorkingTime := ("", 0) |}.

Definition report_without_order_id : Message :=
  body_of [(39, "0"); (55, "BTCUSDT"); (40, "2"); (54, "1")].

Definition report_without_status : Message :=
  body_of [(55, "BTCUSDT"); (37, "abc")].

Definition decoded_primary : handlers.Trade :=
  {| handlers.Trade_Symbol := "BTCUSDT"; handlers.TradeID := 99;
     handlers.Trade_Price := 50000; handlers.Quantity := 2;
     handlers.TradeTime := ("20240101-00:00:00.000", 0);
     handlers.BuyerOrderID := 0; handlers.SellerOrderID := 0;
     handlers.IsBuyerMaker := false |}.

(** A trade tick whose primary price is not a number, beside a fallback
    price that is one. *)
Definition trade_bad_primary : Message :=
  body_of [(55, "BTCUSDT"); (1003, "99"); (270, "abc"); (31, "49999");
           (271, "2"); (60, "20240101-00:00:00.000")].

(** A handler whose callbacks are named by numbers. *)
Definition one_subscriber : handlers.TradeStreamHandler nat :=
  handlers.Subscribe handlers.NewTradeStreamHandler "BTCUSDT" 1%nat.

Definition idle_state : client.State :=
  {| client.the_client := md_client; client.wire := [] |}.

(** A call whose response has arrived: a nil is buffered. *)
Definition resolved_call : client.call :=
  {| client.request := body_of [(35, "XLQ"); (6136, "r1")];
     client.response := Some (body_of [(35, "XLR"); (6136, "r1")]);
     client.done := {| client.buffer := [None]; client.capacity := 1;
                       client.closed := false |} |}.

Definition background : client.Context_ := {| client.ctx_Err := None |}.

Definition market_data_defaults : config.EndpointConfig :=
  {| config.Host := "fix-md.binance.com"; config.Port := 9000;
     config.SenderCompID := "BMDWATCH"; config.TargetCompID := "SPOT";
     config.HeartbeatInt := 30; config.ReconnectCount := 10 |}.

(** A key of the right size, and a stand-in signer whose output has the
    size of a signature. *)
Definition zero_key : crypto.PrivateKey :=
  {| crypto.key_bytes := repeat Byte.x00 64; crypto.key_size := eq_refl |}.

Definition sized_signer (key message : list Byte.byte) : list Byte.byte :=
  firstn 64 (key ++ message ++ repeat Byte.x00 64).

End examples.

(** * Properties *)

Import quickfix.

(** ** Field maps *)

Lemma Has_true_lookup (m : FieldMap) (t : Tag) :
  Has m t = true ↔ ∃ f, m !! t = Some f.
Proof.
  unfold Has. destruct (m !! t) as [f|]; split; eauto; try discriminate.
  intros [f Hf]. discriminate.
Qed.

Lemma Has_false_lookup (m : FieldMap) (t : Tag) :
  Has m t = false ↔ m !! t = None.
Proof. unfold Has. destruct (m !! t); split; congruence. Qed.

Lemma GetString_lookup (m : FieldMap) (t : Tag) (f : field) :
  m !! t = Some f → GetString m t = Ok (tv_value f.1).
Proof. intros H. unfold GetString, GetField. now rewrite H. Qed.

Lemma GetString_present (m : FieldMap) (t : Tag) :
  Has m t = true → ∃ v, GetString m t = Ok v.
Proof.
  intros [f Hf]%Has_true_lookup. exists (tv_value f.1).
  now apply GetString_lookup.
Qed.

Lemma GetString_Ok_inv (m : FieldMap) (t : Tag) (v : string) :
  GetString m t = Ok v → ∃ f, m !! t = Some f ∧ tv_value f.1 = v.
Proof.
  unfold GetString, GetField, FIXString_Read.
  destruct (m !! t) as [f|]; [|discriminate].
  intros [= <-]. eauto.
Qed.

(** ** The execution-report decoder *)

Section DecoderFacts.
Context `{RT : Runtime}.
Import handlers.

(** One step of a successful bind, without unfolding anything else. *)
Ltac step_bind :=
  match goal with
  | |- context [Ok ?x ≫= ?k] =>
      change (Ok x ≫= k) with (k x); cbv beta
  end.

Lemma bind_Ok_inv {A B} (r : result A) (k : A → result B) (b : B) :
  r ≫= k = Ok b → ∃ a, r = Ok a ∧ k a = Ok b.
Proof. destruct r; simpl; [eauto | discriminate]. Qed.

Lemma bind_Err_inv {A B} (r : result A) (k : A → result B) (e : error) :
  r ≫= k = Err e → r = Err e ∨ ∃ a, r = Ok a ∧ k a = Err e.
Proof. destruct r; simpl; [eauto | intros [= ->]; eauto]. Qed.

(** The status is Rejected exactly when tag 39 carries ["8"]: no other
    value of the table maps to it, and a value outside the table maps to
    the empty string. *)
Lemma index_mappedOrderStatus_rejected (v : string) :
  index_map mappedOrderStatus v = OrderStatusRejected ↔
  v = enum.OrdStatus_REJECTED.
Proof.
  split; [|intros ->; reflexivity].
  unfold index_map.
  destruct (mappedOrderStatus !! v) as [s|] eqn:E; simpl; [|discriminate].
  intros ->. apply elem_of_list_to_map_2 in E.
  repeat (apply elem_of_cons in E as [E|E];
          [cbv in E; by simplify_eq|]).
  now apply elem_of_nil in E.
Qed.

Lemma getOrderStatus_rejected_iff (msg : Message) :
  getOrderStatus msg = Ok OrderStatusRejected ↔
  GetString (Body msg) tagOrdStatus = Ok enum.OrdStatus_REJECTED.
Proof.
  unfold getOrderStatus, Get_string. fold (GetString (Body msg) tagOrdStatus).
  destruct (GetString (Body msg) tagOrdStatus) as [v|e]; simpl.
  - split.
    + intros [= H]. apply index_mappedOrderStatus_rejected in H. now subst.
    + intros [= ->]. reflexivity.
  - split; discriminate.
Qed.

(** A successful decoding is made of fifteen successful getters. *)
Lemma DecodeExecutionReport_Ok_inv (msg : Message) (o : Order) :
  DecodeExecutionReport msg = Ok o →
  getOrderStatus msg = Ok (Status o)
  ∧ rejection_check msg (Status o) = Ok ()
  ∧ getSymbol msg = Ok (Symbol o)
  ∧ getOrderID msg = Ok (OrderID o)
  ∧ getClientOrderID msg = Ok (ClientOrderID o)
  ∧ getPrice msg = Ok (Price o)
  ∧ getOrderQty msg = Ok (OrderQty o)
  ∧ getCumQty msg = Ok (CumQty o)
  ∧ getCumQuoteQty msg = Ok (CumQuoteQty o)
  ∧ getTimeInForce msg = Ok (Order_TimeInForce o)
  ∧ getOrdType msg = Ok (Type_ o)
  ∧ getSide msg = Ok (Side o)
  ∧ getMaxFloor msg = Ok (IcebergQuantity o)
  ∧ getTransactTime msg = Ok (TransactTime o)
  ∧ getOrderCreationTime msg = Ok (OrderCreationTime o)
  ∧ getWorkingTime msg = Ok (WorkingTime o).
Proof.
  unfold DecodeExecutionReport. intros H.
  repeat (apply bind_Ok_inv in H; destruct H as (? & ? & H)).
  match goal with
  | H0 : (if decide (?s = _) then _ else _) = Ok ?u |- _ =>
      change (rejection_check msg s = Ok u) in H0; destruct u
  end.
  injection H as <-. simpl. repeat split; assumption.
Qed.

(** Conversely, once the status is read and the rejection check passes,
    the outcome is that of the fourteen remaining getters. *)
Lemma DecodeExecutionReport_after_check (msg : Message)
    (status : OrderStatus) :
  getOrderStatus msg = Ok status →
  rejection_check msg status = Ok () →
  DecodeExecutionReport msg =
    (symbol ← getSymbol msg;
     orderID ← getOrderID msg;
     clientOrderID ← getClientOrderID msg;
     price ← getPrice msg;
     orderQty ← getOrderQty msg;
     cumQty ← getCumQty msg;
     cumQuoteQty ← getCumQuoteQty msg;
     timeInForce ← getTimeInForce msg;
     orderType ← getOrdType msg;
     side ← getSide msg;
     maxFloor ← getMaxFloor msg;
     transactTime ← getTransactTime msg;
     orderCreationTime ← getOrderCreationTime msg;
     workingTime ← getWorkingTime msg;
     Ok {| Symbol := symbol; OrderID := orderID;
           ClientOrderID := clientOrderID; Price := price;
           OrderQty := orderQty; CumQty := cumQty;
           CumQuoteQty := cumQuoteQty; Status := status;
           Order_TimeInForce := timeInForce; Type_ := orderType;
           Side := side; IcebergQuantity := maxFloor;
           TransactTime := transactTime;
           OrderCreationTime := orderCreationTime;
           WorkingTime := workingTime |}).
Proof.
  intros Hs Hc. unfold DecodeExecutionReport.
  rewrite Hs. simpl.
  change (if decide (status = OrderStatusRejected) then _ else _)
    with (rejection_check msg status).
  rewrite Hc. reflexivity.
Qed.

Lemma getText_absent (msg : Message) :
  Has (Body msg) tagText = false → getText msg = Ok zero_string.
Proof. intros H. unfold getText. now rewrite H. Qed.

Lemma getText_present (msg : Message) (f : field) :
  Body msg !! tagText = Some f → getText msg = Ok (tv_value f.1).
Proof.
  intros H. unfold getText, Has. rewrite H.
  unfold Get_string, GetField. now rewrite H.
Qed.

(** C1.  An execution report whose status decodes to Rejected and whose
    text tag (58) is present with a non-empty value is not decoded into an
    Order: the result is the error made of exactly that text. *)
Theorem DecodeExecutionReport_rejected_with_reason
    (msg : Message) (f : field) :
  getOrderStatus msg = Ok OrderStatusRejected →
  Body msg !! tagText = Some f →
  tv_value f.1 ≠ "" →
  DecodeExecutionReport msg = Err (errors_New (tv_value f.1))
  ∧ ∀ o : Order, DecodeExecutionReport msg ≠ Ok o.
Proof.
  intros Hstatus Htext Hne.
  assert (Hd : DecodeExecutionReport msg = Err (errors_New (tv_value f.1))).
  { unfold DecodeExecutionReport. rewrite Hstatus.
    step_bind. rewrite decide_True by reflexivity.
    rewrite (getText_present msg f Htext).
    step_bind. now rewrite decide_False by exact Hne. }
  split; [exact Hd|]. intros o Ho. congruence.
Qed.

(** C10.  An execution report whose status decodes to Rejected but whose
    text tag is absent, or present and empty, is decoded like any other:
    an error can only be the error of one of the fourteen remaining
    getters, and when these all succeed the result is the populated Order,
    with Status Rejected. *)
Theorem DecodeExecutionReport_rejected_without_reason (msg : Message) :
  getOrderStatus msg = Ok OrderStatusRejected →
  (Has (Body msg) tagText = false
   ∨ ∃ f, Body msg !! tagText = Some f ∧ tv_value f.1 = "") →
  (∀ e, DecodeExecutionReport msg = Err e →
     getSymbol msg = Err e ∨ getOrderID msg = Err e
     ∨ getClientOrderID msg = Err e ∨ getPrice msg = Err e
     ∨ getOrderQty msg = Err e ∨ getCumQty msg = Err e
     ∨ getCumQuoteQty msg = Err e ∨ getTimeInForce msg = Err e
     ∨ getOrdType msg = Err e ∨ getSide msg = Err e
     ∨ getMaxFloor msg = Err e ∨ getTransactTime msg = Err e
     ∨ getOrderCreationTime msg = Err e ∨ getWorkingTime msg = Err e)
  ∧ (∀ symbol orderID clientOrderID price orderQty cumQty cumQuoteQty
       timeInForce orderType side maxFloor transactTime orderCreationTime
       workingTime,
     getSymbol msg = Ok symbol →
     getOrderID msg = Ok orderID →
     getClientOrderID msg = Ok clientOrderID →
     getPrice msg = Ok price →
     getOrderQty msg = Ok orderQty →
     getCumQty msg = Ok cumQty →
     getCumQuoteQty msg = Ok cumQuoteQty →
     getTimeInForce msg = Ok timeInForce →
     getOrdType msg = Ok orderType →
     getSide msg = Ok side →
     getMaxFloor msg = Ok maxFloor →
     getTransactTime msg = Ok transactTime →
     getOrderCreationTime msg = Ok orderCreationTime →
     getWorkingTime msg = Ok workingTime →
     DecodeExecutionReport msg =
       Ok {| Symbol := symbol; OrderID := orderID;
             ClientOrderID := clientOrderID; Price := price;
             OrderQty := orderQty; CumQty := cumQty;
             CumQuoteQty := cumQuoteQty; Status := OrderStatusRejected;
             Order_TimeInForce := timeInForce; Type_ := orderType;
             Side := side; IcebergQuantity := maxFloor;
             TransactTime := transactTime;
             OrderCreationTime := orderCreationTime;
             WorkingTime := workingTime |}).
Proof.
  intros Hstatus Htext.
  assert (Hcheck : rejection_check msg OrderStatusRejected = Ok ()).
  { unfold rejection_check. rewrite decide_True by reflexivity.
    destruct Htext as [Habs | (f & Hf & Hempty)].
    - rewrite (getText_absent msg Habs). step_bind.
      now rewrite decide_True by reflexivity.
    - rewrite (getText_present msg f Hf). step_bind.
      now rewrite decide_True by exact Hempty. }
  rewrite (DecodeExecutionReport_after_check msg _ Hstatus Hcheck).
  split.
  - intros e H.
    repeat (apply bind_Err_inv in H;
            destruct H as [H | (? & _ & H)]; [tauto|]).
    discriminate H.
  - intros * H1 H2 H3 H4 H5 H6 H7 H8 H9 H10 H11 H12 H13 H14.
    rewrite H1, H2, H3, H4, H5, H6, H7, H8, H9, H10, H11, H12, H13, H14.
    reflexivity.
Qed.

(** C8.  The soft defaults of the execution-report decoder.  An absent
    price, order quantity, cumulative quantity, cumulative notional or
    iceberg quantity tag is read as zero, not as an error; a status, side,
    order type or time in force whose value is not a key of its table is
    read as the empty string, the zero value of the enum type, not as an
    error.  In a decoded Order the fields have these values. *)
Theorem DecodeExecutionReport_soft_defaults (msg : Message) :
  (Has (Body msg) tagPrice = false → getPrice msg = Ok float64_zero)
  ∧ (Has (Body msg) tagOrderQty = false → getOrderQty msg = Ok float64_zero)
  ∧ (Has (Body msg) tagCumQty = false → getCumQty msg = Ok float64_zero)
  ∧ (Has (Body msg) tagCumQuoteQty = false →
     getCumQuoteQty msg = Ok float64_zero)
  ∧ (Has (Body msg) tagMaxFloor = false → getMaxFloor msg = Ok float64_zero)
  ∧ (∀ v, GetString (Body msg) tagOrdStatus = Ok v →
          mappedOrderStatus !! v = None →
          getOrderStatus msg = Ok zero_string)
  ∧ (∀ v, GetString (Body msg) tagSide = Ok v →
          mappedSideType !! v = None →
          getSide msg = Ok zero_string)
  ∧ (∀ v, GetString (Body msg) tagOrdType = Ok v →
          mappedOrderType !! v = None →
          getOrdType msg = Ok zero_string)
  ∧ (∀ v, GetString (Body msg) tagTimeInForce = Ok v →
          mappedTimeInForce !! v = None →
          getTimeInForce msg = Ok zero_string)
  ∧ (∀ o : Order, DecodeExecutionReport msg = Ok o →
       (Has (Body msg) tagPrice = false → Price o = float64_zero)
       ∧ (Has (Body msg) tagOrderQty = false → OrderQty o = float64_zero)
       ∧ (Has (Body msg) tagCumQty = false → CumQty o = float64_zero)
       ∧ (Has (Body msg) tagCumQuoteQty = false →
          CumQuoteQty o = float64_zero)
       ∧ (Has (Body msg) tagMaxFloor = false →
          IcebergQuantity o = float64_zero)
       ∧ (∀ v, GetString (Body msg) tagOrdStatus = Ok v →
               mappedOrderStatus !! v = None → Status o = zero_string)
       ∧ (∀ v, GetString (Body msg) tagSide = Ok v →
               mappedSideType !! v = None → Side o = zero_string)
       ∧ (∀ v, GetString (Body msg) tagOrdType = Ok v →
               mappedOrderType !! v = None → Type_ o = zero_string)
       ∧ (∀ v, GetString (Body msg) tagTimeInForce = Ok v →
               mappedTimeInForce !! v = None →
               Order_TimeInForce o = zero_string)).
Proof.
  assert (Hp : Has (Body msg) tagPrice = false → getPrice msg = Ok float64_zero).
  { intros H. unfold getPrice. now rewrite H. }
  assert (Hq : Has (Body msg) tagOrderQty = false →
               getOrderQty msg = Ok float64_zero).
  { intros H. unfold getOrderQty. now rewrite H. }
  assert (Hc : Has (Body msg) tagCumQty = false →
               getCumQty msg = Ok float64_zero).
  { intros H. unfold getCumQty. now rewrite H. }
  assert (Hn : Has (Body msg) tagCumQuoteQty = false →
               getCumQuoteQty msg = Ok float64_zero).
  { intros H. unfold getCumQuoteQty. now rewrite H. }
  assert (Hm : Has (Body msg) tagMaxFloor = false →
               getMaxFloor msg = Ok float64_zero).
  { intros H. unfold getMaxFloor. now rewrite H. }
  assert (Hst : ∀ v, GetString (Body msg) tagOrdStatus = Ok v →
                mappedOrderStatus !! v = None →
                getOrderStatus msg = Ok zero_string).
  { intros v Hv Hk. unfold getOrderStatus, Get_string.
    fold (GetString (Body msg) tagOrdStatus). rewrite Hv. simpl.
    unfold index_map. now rewrite Hk. }
  assert (Hsi : ∀ v, GetString (Body msg) tagSide = Ok v →
                mappedSideType !! v = None → getSide msg = Ok zero_string).
  { intros v Hv Hk. unfold getSide, Get_string.
    fold (GetString (Body msg) tagSide). rewrite Hv. simpl.
    unfold index_map. now rewrite Hk. }
  assert (Hty : ∀ v, GetString (Body msg) tagOrdType = Ok v →
                mappedOrderType !! v = None → getOrdType msg = Ok zero_string).
  { intros v Hv Hk. unfold getOrdType, Get_string.
    fold (GetString (Body msg) tagOrdType). rewrite Hv. simpl.
    unfold index_map. now rewrite Hk. }
  assert (Hti : ∀ v, GetString (Body msg) tagTimeInForce = Ok v →
                mappedTimeInForce !! v = None →
                getTimeInForce msg = Ok zero_string).
  { intros v Hv Hk. unfold getTimeInForce, Get_string.
    fold (GetString (Body msg) tagTimeInForce). rewrite Hv. simpl.
    destruct (Has (Body msg) tagTimeInForce); [|reflexivity].
    unfold index_map. now rewrite Hk. }
  repeat (split; [assumption|]).
  intros o Ho. apply DecodeExecutionReport_Ok_inv in Ho.
  destruct Ho as (Es & _ & _ & _ & _ & Ep & Eq & Ec & En & Eti & Ety & Esi
                  & Em & _).
  repeat split.
  - intros H. specialize (Hp H). congruence.
  - intros H. specialize (Hq H). congruence.
  - intros H. specialize (Hc H). congruence.
  - intros H. specialize (Hn H). congruence.
  - intros H. specialize (Hm H). congruence.
  - intros v Hv Hk. specialize (Hst v Hv Hk). congruence.
  - intros v Hv Hk. specialize (Hsi v Hv Hk). congruence.
  - intros v Hv Hk. specialize (Hty v Hv Hk). congruence.
  - intros v Hv Hk. specialize (Hti v Hv Hk). congruence.
Qed.

End DecoderFacts.

(** ** The trade decoder *)

Section TradeFacts.
Context `{RT : Runtime}.
Import handlers.

Lemma Get_decimal_lookup (msg : Message) (t : Tag) (f : field) :
  Body msg !! t = Some f →
  Get_decimal msg t =
    match FIXDecimal_Read (tv_value f.1) with
    | Some d => Ok d
    | None => Err (IncorrectDataFormatForValue t)
    end.
Proof. intros H. unfold Get_decimal, GetField. now rewrite H. Qed.

Lemma getTradePrice_cases (msg : Message) :
  (∀ f, Body msg !! 270 = Some f →
        getTradePrice msg = ParseFloat (tv_value f.1))
  ∧ (∀ f, Body msg !! 270 = None → Body msg !! tagLastPx = Some f →
        getTradePrice msg =
          (d ← Get_decimal msg tagLastPx; Ok (InexactFloat64 d)))
  ∧ (Body msg !! 270 = None → Body msg !! tagLastPx = None →
        getTradePrice msg = Err (errors_New "trade price not found")).
Proof.
  unfold getTradePrice, Has. repeat split.
  - intros f H. rewrite H, (GetString_lookup _ _ _ H). reflexivity.
  - intros f H0 H. now rewrite H0, H.
  - intros H0 H. now rewrite H0, H.
Qed.

Lemma getTradeQuantity_cases (msg : Message) :
  (∀ f, Body msg !! 271 = Some f →
        getTradeQuantity msg = ParseFloat (tv_value f.1))
  ∧ (∀ f, Body msg !! 271 = None → Body msg !! tagLastQty = Some f →
        getTradeQuantity msg =
          (d ← Get_decimal msg tagLastQty; Ok (InexactFloat64 d)))
  ∧ (Body msg !! 271 = None → Body msg !! tagLastQty = None →
        getTradeQuantity msg = Err (errors_New "trade quantity not found")).
Proof.
  unfold getTradeQuantity, Has. repeat split.
  - intros f H. rewrite H, (GetString_lookup _ _ _ H). reflexivity.
  - intros f H0 H. now rewrite H0, H.
  - intros H0 H. now rewrite H0, H.
Qed.

Lemma getTradeID_cases (msg : Message) :
  (∀ f, Body msg !! 1003 = Some f →
        getTradeID msg = strconv.ParseInt (tv_value f.1))
  ∧ (∀ f, Body msg !! 1003 = None → Body msg !! 571 = Some f →
        getTradeID msg = strconv.ParseInt (tv_value f.1))
  ∧ (Body msg !! 1003 = None → Body msg !! 571 = None →
        getTradeID msg = Err (errors_New "trade ID not found")).
Proof.
  unfold getTradeID, Has. repeat split.
  - intros f H. rewrite H, (GetString_lookup _ _ _ H). reflexivity.
  - intros f H0 H. rewrite H0, H, (GetString_lookup _ _ _ H). reflexivity.
  - intros H0 H. now rewrite H0, H.
Qed.

Lemma getTradeTime_absent (msg : Message) :
  Body msg !! tagTransactTime = None →
  getTradeTime msg = Err (errors_New "trade time not found").
Proof. intros H. unfold getTradeTime, Has. now rewrite H. Qed.

Lemma DecodeTradeMessage_Ok_inv (msg : Message) (t : Trade) :
  DecodeTradeMessage msg = Ok t →
  getTradeSymbol msg = Ok (Trade_Symbol t)
  ∧ getTradeID msg = Ok (TradeID t)
  ∧ getTradePrice msg = Ok (Trade_Price t)
  ∧ getTradeQuantity msg = Ok (Quantity t)
  ∧ getTradeTime msg = Ok (TradeTime t).
Proof.
  unfold DecodeTradeMessage. intros H.
  repeat (apply bind_Ok_inv in H; destruct H as (? & ? & H)).
  injection H as <-. simpl. repeat split; assumption.
Qed.

Lemma DecodeTradeMessage_Err_of (msg : Message) :
  (∃ e, getTradeID msg = Err e) ∨ (∃ e, getTradePrice msg = Err e)
  ∨ (∃ e, getTradeQuantity msg = Err e) ∨ (∃ e, getTradeTime msg = Err e) →
  ∃ e, DecodeTradeMessage msg = Err e.
Proof.
  intros H. destruct (DecodeTradeMessage msg) as [t|e] eqn:E; [|eauto].
  apply DecodeTradeMessage_Ok_inv in E.
  destruct E as (_ & E1 & E2 & E3 & E4).
  destruct H as [[e H]|[[e H]|[[e H]|[e H]]]]; congruence.
Qed.

Lemma DecodeTradeMessage_Ok_of (msg : Message) (symbol : string)
    (tradeID : Z) (price quantity : float64) (tradeTime : Time) :
  getTradeSymbol msg = Ok symbol → getTradeID msg = Ok tradeID →
  getTradePrice msg = Ok price → getTradeQuantity msg = Ok quantity →
  getTradeTime msg = Ok tradeTime →
  DecodeTradeMessage msg =
    Ok {| Trade_Symbol := symbol; TradeID := tradeID; Trade_Price := price;
          Quantity := quantity; TradeTime := tradeTime;
          BuyerOrderID := (getBuyerOrderID msg).1;
          SellerOrderID := (getSellerOrderID msg).1;
          IsBuyerMaker := (getIsBuyerMaker msg).1 |}.
Proof.
  intros E1 E2 E3 E4 E5. unfold DecodeTradeMessage.
  rewrite E1, E2, E3, E4, E5. reflexivity.
Qed.

Lemma DecodeTradeMessage_first_error (msg : Message) (e : error) :
  (getTradeSymbol msg = Err e → DecodeTradeMessage msg = Err e)
  ∧ (is_err (getTradeSymbol msg) = false → getTradeID msg = Err e →
     DecodeTradeMessage msg = Err e)
  ∧ (is_err (getTradeSymbol msg) = false → is_err (getTradeID msg) = false →
     getTradePrice msg = Err e → DecodeTradeMessage msg = Err e)
  ∧ (is_err (getTradeSymbol msg) = false → is_err (getTradeID msg) = false →
     is_err (getTradePrice msg) = false → getTradeQuantity msg = Err e →
     DecodeTradeMessage msg = Err e)
  ∧ (is_err (getTradeSymbol msg) = false → is_err (getTradeID msg) = false →
     is_err (getTradePrice msg) = false →
     is_err (getTradeQuantity msg) = false → getTradeTime msg = Err e →
     DecodeTradeMessage msg = Err e).
Proof.
  unfold DecodeTradeMessage.
  destruct (getTradeSymbol msg), (getTradeID msg), (getTradePrice msg),
    (getTradeQuantity msg), (getTradeTime msg);
    cbn; repeat split; intros; congruence.
Qed.

(** C4.  In a trade tick the price comes from tag 270 whenever that tag is
    present, whatever tag 31 holds, and from tag 31 (read as a decimal)
    when 270 is absent and 31 is present;
    likewise the quantity from 271, else 32, and the trade id from 1003,
    else 571.  With both tags of a pair absent the getter, and with it the
    whole decoding, fails; with tag 60 absent the time getter fails without
    looking at any other tag, and so does the decoding.  A decoded Trade
    carries the values so resolved.

    The decoding succeeds whenever its five getters do, with the Trade
    made of their values: so a tick without tag 270 whose tag 31 holds a
    decimal is decoded, with that decimal as its price, when the symbol,
    the trade id, the quantity and the time can be read; a tick with tag
    270 is decoded with the number of tag 270; and likewise for the
    quantity from tag 32 and the trade id from tag 571.  When a getter
    fails, the decoding fails with the error of the first one that does,
    in the order symbol, trade id, price, quantity, time. *)
Theorem DecodeTradeMessage_primary_then_fallback (msg : Message) :
  ((∀ f, Body msg !! 270 = Some f →
         getTradePrice msg = ParseFloat (tv_value f.1))
   ∧ (∀ f, Body msg !! 270 = None → Body msg !! 31 = Some f →
         getTradePrice msg =
           (d ← Get_decimal msg 31; Ok (InexactFloat64 d)))
   ∧ (Body msg !! 270 = None → Body msg !! 31 = None →
         getTradePrice msg = Err (errors_New "trade price not found")
         ∧ ∃ e, DecodeTradeMessage msg = Err e))
  ∧ ((∀ f, Body msg !! 271 = Some f →
         getTradeQuantity msg = ParseFloat (tv_value f.1))
   ∧ (∀ f, Body msg !! 271 = None → Body msg !! 32 = Some f →
         getTradeQuantity msg =
           (d ← Get_decimal msg 32; Ok (InexactFloat64 d)))
   ∧ (Body msg !! 271 = None → Body msg !! 32 = None →
         getTradeQuantity msg = Err (errors_New "trade quantity not found")
         ∧ ∃ e, DecodeTradeMessage msg = Err e))
  ∧ ((∀ f, Body msg !! 1003 = Some f →
         getTradeID msg = strconv.ParseInt (tv_value f.1))
   ∧ (∀ f, Body msg !! 1003 = None → Body msg !! 571 = Some f →
         getTradeID msg = strconv.ParseInt (tv_value f.1))
   ∧ (Body msg !! 1003 = None → Body msg !! 571 = None →
         getTradeID msg = Err (errors_New "trade ID not found")
         ∧ ∃ e, DecodeTradeMessage msg = Err e))
  ∧ (Body msg !! 60 = None →
         getTradeTime msg = Err (errors_New "trade time not found")
         ∧ ∃ e, DecodeTradeMessage msg = Err e)
  ∧ (∀ t : Trade, DecodeTradeMessage msg = Ok t →
         getTradePrice msg = Ok (Trade_Price t)
         ∧ getTradeQuantity msg = Ok (Quantity t)
         ∧ getTradeID msg = Ok (TradeID t)
         ∧ getTradeTime msg = Ok (TradeTime t))
  ∧ (∀ symbol tradeID price quantity tradeTime,
         getTradeSymbol msg = Ok symbol → getTradeID msg = Ok tradeID →
         getTradePrice msg = Ok price → getTradeQuantity msg = Ok quantity →
         getTradeTime msg = Ok tradeTime →
         DecodeTradeMessage msg =
           Ok {| Trade_Symbol := symbol; TradeID := tradeID;
                 Trade_Price := price; Quantity := quantity;
                 TradeTime := tradeTime;
                 BuyerOrderID := (getBuyerOrderID msg).1;
                 SellerOrderID := (getSellerOrderID msg).1;
                 IsBuyerMaker := (getIsBuyerMaker msg).1 |})
  ∧ (∀ f price symbol tradeID quantity tradeTime,
         Body msg !! 270 = Some f → ParseFloat (tv_value f.1) = Ok price →
         getTradeSymbol msg = Ok symbol → getTradeID msg = Ok tradeID →
         getTradeQuantity msg = Ok quantity →
         getTradeTime msg = Ok tradeTime →
         ∃ t, DecodeTradeMessage msg = Ok t ∧ Trade_Price t = price)
  ∧ (∀ f d symbol tradeID quantity tradeTime,
         Body msg !! 270 = None → Body msg !! 31 = Some f →
         FIXDecimal_Read (tv_value f.1) = Some d →
         getTradeSymbol msg = Ok symbol → getTradeID msg = Ok tradeID →
         getTradeQuantity msg = Ok quantity →
         getTradeTime msg = Ok tradeTime →
         ∃ t, DecodeTradeMessage msg = Ok t
              ∧ Trade_Price t = InexactFloat64 d)
  ∧ (∀ f d symbol tradeID price tradeTime,
         Body msg !! 271 = None → Body msg !! 32 = Some f →
         FIXDecimal_Read (tv_value f.1) = Some d →
         getTradeSymbol msg = Ok symbol → getTradeID msg = Ok tradeID →
         getTradePrice msg = Ok price → getTradeTime msg = Ok tradeTime →
         ∃ t, DecodeTradeMessage msg = Ok t ∧ Quantity t = InexactFloat64 d)
  ∧ (∀ f z symbol price quantity tradeTime,
         Body msg !! 1003 = None → Body msg !! 571 = Some f →
         strconv.ParseInt (tv_value f.1) = Ok z →
         getTradeSymbol msg = Ok symbol → getTradePrice msg = Ok price →
         getTradeQuantity msg = Ok quantity →
         getTradeTime msg = Ok tradeTime →
         ∃ t, DecodeTradeMessage msg = Ok t ∧ TradeID t = z)
  ∧ (∀ e : error,
       (getTradeSymbol msg = Err e → DecodeTradeMessage msg = Err e)
       ∧ (is_err (getTradeSymbol msg) = false → getTradeID msg = Err e →
          DecodeTradeMessage msg = Err e)
       ∧ (is_err (getTradeSymbol msg) = false →
          is_err (getTradeID msg) = false → getTradePrice msg = Err e →
          DecodeTradeMessage msg = Err e)
       ∧ (is_err (getTradeSymbol msg) = false →
          is_err (getTradeID msg) = false →
          is_err (getTradePrice msg) = false →
          getTradeQuantity msg = Err e → DecodeTradeMessage msg = Err e)
       ∧ (is_err (getTradeSymbol msg) = false →
          is_err (getTradeID msg) = false →
          is_err (getTradePrice msg) = false →
          is_err (getTradeQuantity msg) = false →
          getTradeTime msg = Err e → DecodeTradeMessage msg = Err e)).
Proof.
  destruct (getTradePrice_cases msg) as (P1 & P2 & P3).
  destruct (getTradeQuantity_cases msg) as (Q1 & Q2 & Q3).
  destruct (getTradeID_cases msg) as (I1 & I2 & I3).
  pose proof (getTradeTime_absent msg) as T.
  pose proof (DecodeTradeMessage_Err_of msg) as D.
  pose proof (DecodeTradeMessage_Ok_of msg) as S.
  split; [repeat split; try assumption|].
  { now apply P3. }
  { apply D. right; left. eexists. now apply P3. }
  split; [repeat split; try assumption|].
  { now apply Q3. }
  { apply D. right; right; left. eexists. now apply Q3. }
  split; [repeat split; try assumption|].
  { now apply I3. }
  { apply D. left. eexists. now apply I3. }
  split.
  { intros H60. split; [now apply T|].
    apply D. right; right; right. eexists. now apply T. }
  split.
  { intros t Ht. apply DecodeTradeMessage_Ok_inv in Ht.
    destruct Ht as (_ & E2 & E3 & E4 & E5). auto. }
  split; [exact S|].
  split.
  { intros f price symbol tradeID quantity tradeTime H270 Hp E1 E2 E4 E5.
    eexists. split.
    - apply S; [exact E1|exact E2| |exact E4|exact E5].
      rewrite (P1 f H270). exact Hp.
    - reflexivity. }
  split.
  { intros f d symbol tradeID quantity tradeTime H270 H31 Hd E1 E2 E4 E5.
    eexists. split.
    - apply S; [exact E1|exact E2| |exact E4|exact E5].
      rewrite (P2 f H270 H31), (Get_decimal_lookup msg tagLastPx f H31), Hd.
      reflexivity.
    - reflexivity. }
  split.
  { intros f d symbol tradeID price tradeTime H271 H32 Hd E1 E2 E3 E5.
    eexists. split.
    - apply S; [exact E1|exact E2|exact E3| |exact E5].
      rewrite (Q2 f H271 H32), (Get_decimal_lookup msg tagLastQty f H32), Hd.
      reflexivity.
    - reflexivity. }
  split.
  { intros f z symbol price quantity tradeTime H1003 H571 Hz E1 E3 E4 E5.
    eexists. split.
    - apply S; [exact E1| |exact E3|exact E4|exact E5].
      rewrite (I2 f H1003 H571). exact Hz.
    - reflexivity. }
  intros e. apply DecodeTradeMessage_first_error.
Qed.

End TradeFacts.

(** ** The client: sending *)

Section ClientFacts.
Context `{RT : Runtime}.
Import client.
Variable quickfix_Send : Message → option error.

Lemma with_pending_same (c : Client) : with_pending c (pending c) = c.
Proof. now destruct c. Qed.

Lemma send_not_connected (now : Time) (id : string) (msg : Message)
    (s : State) :
  isConnected (the_client s) = false →
  send quickfix_Send now id msg s = (Err ErrClosed, s).
Proof. intros H. unfold send. now rewrite H. Qed.

Lemma send_transmission_failed (now : Time) (id : string) (msg : Message)
    (s : State) (e : error) :
  isConnected (the_client s) = true →
  quickfix_Send (addCommonHeaders (the_client s) now msg) = Some e →
  send quickfix_Send now id msg s =
    (Err e,
     {| the_client :=
          with_pending (the_client s) (delete id (pending (the_client s)));
        wire := wire s |}).
Proof.
  intros Hc He. unfold send. rewrite Hc. simpl. rewrite He.
  unfold with_pending. simpl. now rewrite delete_insert_eq.
Qed.

(** C2, as the code has it.  A send on a connection that is not authorized
    returns the connection-closed error and changes nothing at all.  A send
    whose transmission fails returns the error of the transmission, has
    nothing on the wire, and leaves the pending-call map without any entry
    under id: the map it started from with id deleted.  So the map is
    unchanged whenever id was not outstanding before the call. *)
Theorem send_failure_leaves_no_entry (now : Time) (id : string)
    (msg : Message) (s : State) :
  (isConnected (the_client s) = false →
     send quickfix_Send now id msg s = (Err ErrClosed, s))
  ∧ (∀ e, isConnected (the_client s) = true →
          quickfix_Send (addCommonHeaders (the_client s) now msg) = Some e →
          let r := send quickfix_Send now id msg s in
          r.1 = Err e
          ∧ wire r.2 = wire s
          ∧ pending (the_client r.2) = delete id (pending (the_client s))
          ∧ pending (the_client r.2) !! id = None
          ∧ (pending (the_client s) !! id = None → r.2 = s)).
Proof.
  split; [apply send_not_connected|].
  intros e Hc He. simpl.
  rewrite (send_transmission_failed now id msg s e Hc He). simpl.
  repeat split.
  - apply lookup_delete_eq.
  - intros Hfree. rewrite (delete_id _ _ Hfree), with_pending_same.
    now destruct s.
Qed.

Lemma SendWithoutResponse_client (now : Time) (msg : Message) (s : State) :
  let r := SendWithoutResponse quickfix_Send now msg s in
  the_client r.2 = the_client s
  ∧ (∀ e, r.1 = Some e → r.2 = s)
  ∧ (r.1 = None →
     wire r.2 = wire s ++ [addCommonHeaders (the_client s) now msg]).
Proof.
  unfold SendWithoutResponse.
  destruct (isConnected (the_client s)); simpl.
  - destruct (quickfix_Send _); simpl; repeat split; try done.
  - repeat split; done.
Qed.

(** C9.  Subscribing to or unsubscribing from trades never touches the
    client: the pending-call map, and every other field, is after the call
    what it was before.  When the call reports an error the wire is
    unchanged too; when it reports none, the wire has grown by exactly the
    request with the common headers. *)
Theorem subscriptions_register_no_call (t0 now : Time)
    (symbols : list string) (s : State) :
  let sub := SubscribeToTrades quickfix_Send t0 now symbols s in
  let unsub := UnsubscribeFromTrades quickfix_Send t0 now symbols s in
  (pending (the_client sub.2) = pending (the_client s)
   ∧ the_client sub.2 = the_client s
   ∧ (∀ e, sub.1 = Some e → sub.2 = s)
   ∧ (sub.1 = None →
      wire sub.2 =
        wire s ++ [addCommonHeaders (the_client s) now
                     (subscribeRequest (UnixNano t0) symbols)]))
  ∧ (pending (the_client unsub.2) = pending (the_client s)
     ∧ the_client unsub.2 = the_client s
     ∧ (∀ e, unsub.1 = Some e → unsub.2 = s)
     ∧ (unsub.1 = None →
        wire unsub.2 =
          wire s ++ [addCommonHeaders (the_client s) now
                       (unsubscribeRequest (UnixNano t0) symbols)])).
Proof.
  simpl. unfold SubscribeToTrades, UnsubscribeFromTrades.
  split.
  - destruct (SendWithoutResponse_client now
                (subscribeRequest (UnixNano t0) symbols) s) as (H1 & H2 & H3).
    repeat split; try assumption. now rewrite H1.
  - destruct (SendWithoutResponse_client now
                (unsubscribeRequest (UnixNano t0) symbols) s)
      as (H1 & H2 & H3).
    repeat split; try assumption. now rewrite H1.
Qed.

End ClientFacts.

(** ** The client: news messages *)

Section NewsFacts.
Import client.
Variable ToLower : string → string.

(** The three tests of [handleNewsMessage], in its order. *)
Lemma handleNewsMessage_cases (msg : Message) (c : Client) :
  let seen :=
    go_strings.Contains (ToLower (newsHeadline msg)) "maintenance"
    || go_strings.Contains (ToLower (newsBody msg)) "maintenance"
    || go_strings.Contains (ToLower (newsBody msg)) "reconnect" in
  handleNewsMessage ToLower msg c =
    if seen then
      let c' := Emit c "maintenance"
                  [StringMap {[ "headline" := newsHeadline msg;
                                "text" := newsBody msg ]}] in
      if go_strings.Contains (senderCompID c) "BMD"
      then Emit c' "reconnect_needed" [Bool true] else c'
    else c.
Proof. reflexivity. Qed.

(** A notice with none of the three matches publishes nothing. *)
Lemma handleNewsMessage_no_keyword (msg : Message) (c : Client) :
  go_strings.Contains (ToLower (newsHeadline msg)) "maintenance" = false →
  go_strings.Contains (ToLower (newsBody msg)) "maintenance" = false →
  go_strings.Contains (ToLower (newsBody msg)) "reconnect" = false →
  handleNewsMessage ToLower msg c = c.
Proof.
  intros H1 H2 H3. rewrite handleNewsMessage_cases. simpl.
  now rewrite H1, H2, H3.
Qed.

(** C5, as the code has it.  When the lower-cased headline contains
    "maintenance", or the lower-cased body text contains "maintenance" or
    "reconnect", handling the notice publishes a maintenance event that
    carries the headline and the body text, followed by a reconnect-needed
    event exactly when the sender id of the session contains "BMD" (the
    market-data identity); nothing else is published and nothing else in
    the client changes. *)
Theorem handleNewsMessage_publishes (msg : Message) (c : Client) :
  go_strings.Contains (ToLower (newsHeadline msg)) "maintenance" = true
  ∨ go_strings.Contains (ToLower (newsBody msg)) "maintenance" = true
  ∨ go_strings.Contains (ToLower (newsBody msg)) "reconnect" = true →
  let c' := handleNewsMessage ToLower msg c in
  emitter c' =
    emitter c
    ++ maintenance_event (newsHeadline msg) (newsBody msg)
       :: (if go_strings.Contains (senderCompID c) "BMD"
           then [reconnect_needed_event] else [])
  ∧ (reconnect_needed_event ∈ drop (length (emitter c)) (emitter c')
     ↔ go_strings.Contains (senderCompID c) "BMD" = true)
  ∧ pending c' = pending c
  ∧ isConnected c' = isConnected c.
Proof.
  intros Hseen. simpl. rewrite handleNewsMessage_cases. simpl.
  assert (Hor : go_strings.Contains (ToLower (newsHeadline msg)) "maintenance"
                || go_strings.Contains (ToLower (newsBody msg)) "maintenance"
                || go_strings.Contains (ToLower (newsBody msg)) "reconnect"
                = true).
  { rewrite !orb_true_iff. tauto. }
  rewrite Hor.
  destruct (go_strings.Contains (senderCompID c) "BMD") eqn:Hbmd; simpl.
  - rewrite <- app_assoc. simpl. split; [reflexivity|].
    rewrite drop_app_length. split; [|done].
    split; [reflexivity|]. intros _. rewrite !elem_of_cons. tauto.
  - split; [reflexivity|]. rewrite drop_app_length. split; [|done].
    split; [|discriminate].
    intros H. apply list_elem_of_singleton in H. discriminate H.
Qed.

End NewsFacts.

(** ** Waiting for a response *)

Section WaitFacts.
Import client.

(** C6.  When nothing is buffered in the call's channel and the channel is
    not closed (the response has not arrived) and the context is already
    done, the [select] of [wait] has exactly one ready case: it does not
    block and returns the error of the context.  The call is left as it
    was, so the resolution that arrives later finds room in the one-slot
    buffer and stays there: [wait] has returned and takes nothing from the
    channel any more. *)
Theorem wait_with_elapsed_deadline (w : waiter) (ctx : Context_)
    (e : error) :
  buffer (done (waiter_call w)) = [] →
  closed (done (waiter_call w)) = false →
  ctx_Err ctx = Some e →
  wait w ctx = [(Err e, waiter_call w)]
  ∧ (capacity (done (waiter_call w)) = 1%nat →
     ∀ v, chan_send (done (waiter_call w)) v =
            Some {| buffer := [v]; capacity := 1; closed := false |}).
Proof.
  intros Hb Hc He. split.
  - unfold wait, chan_recv. now rewrite Hb, Hc, He.
  - intros Hcap v. unfold chan_send. now rewrite Hc, Hb, Hcap.
Qed.

(** While the context is not done and nothing has arrived, [wait] blocks. *)
Lemma wait_blocks (w : waiter) (ctx : Context_) :
  buffer (done (waiter_call w)) = [] →
  closed (done (waiter_call w)) = false →
  ctx_Err ctx = None →
  wait w ctx = [].
Proof.
  intros Hb Hc He. unfold wait, chan_recv. now rewrite Hb, Hc, He.
Qed.

(** A response that has arrived is returned when the context is not
    done. *)
Lemma wait_delivers (w : waiter) (ctx : Context_) (rest : list (option error)) :
  buffer (done (waiter_call w)) = None :: rest →
  ctx_Err ctx = None →
  map fst (wait w ctx) = [Ok (response (waiter_call w))].
Proof.
  intros Hb He. unfold wait, chan_recv. now rewrite Hb, He.
Qed.

End WaitFacts.

(** ** The logon signature *)

Section LogonFacts.
Import crypto.
Variable ed25519_Sign : list Byte.byte → list Byte.byte → list Byte.byte.

Lemma Join_five (a b c d e sep : string) :
  go_strings.Join [a; b; c; d; e] sep =
  a +:+ sep +:+ b +:+ sep +:+ c +:+ sep +:+ d +:+ sep +:+ e.
Proof. reflexivity. Qed.

Lemma SOH_byte : list_byte_of_string SOH = [Byte.x01].
Proof. reflexivity. Qed.

(** The encoder writes four characters for every three bytes begun. *)
Lemma EncodeToString_length (src : list Byte.byte) :
  String.length (base64.EncodeToString src) =
  (4 * ((length src + 2) / 3))%nat.
Proof.
  assert (H : ∀ n (l : list Byte.byte), (length l < n)%nat →
            String.length (base64.EncodeToString l) =
            (4 * ((length l + 2) / 3))%nat).
  { induction n as [|n IH]; intros l Hl; [lia|].
    destruct l as [|a [|b [|c rest]]]; try reflexivity.
    cbn [base64.EncodeToString String.length length].
    rewrite IH by (simpl in Hl; lia).
    replace (S (S (S (length rest))) + 2)%nat
      with (1 * 3 + (length rest + 2))%nat by lia.
    rewrite Nat.div_add_l by lia. lia. }
  apply (H (S (length src))). lia.
Qed.

(** C3.  The logon raw data is the base64 text of the Ed25519 signature,
    under the given key, of the bytes of
    ["A" SOH sender SOH target SOH "1" SOH sendingTime], where SOH is the
    single byte 0x01; and it is a function of its inputs: keys with the
    same bytes and equal identifiers and sending time give the same text,
    byte for byte. *)
Theorem GetLogonRawData_signs_logon_payload (privateKey : PrivateKey)
    (senderCompID targetCompID sendingTime : string) :
  GetLogonRawData ed25519_Sign privateKey senderCompID targetCompID
    sendingTime =
    base64.EncodeToString
      (ed25519_Sign (key_bytes privateKey)
         (list_byte_of_string
            ("A" +:+ SOH +:+ senderCompID +:+ SOH +:+ targetCompID +:+ SOH
             +:+ "1" +:+ SOH +:+ sendingTime)))
  ∧ list_byte_of_string SOH = [Byte.x01]
  ∧ ∀ (privateKey' : PrivateKey)
      (senderCompID' targetCompID' sendingTime' : string),
      key_bytes privateKey' = key_bytes privateKey →
      senderCompID' = senderCompID →
      targetCompID' = targetCompID →
      sendingTime' = sendingTime →
      GetLogonRawData ed25519_Sign privateKey' senderCompID' targetCompID'
        sendingTime' =
      GetLogonRawData ed25519_Sign privateKey senderCompID targetCompID
        sendingTime.
Proof.
  split; [|split; [exact SOH_byte|]].
  - unfold GetLogonRawData. now rewrite Join_five.
  - intros k' s' t' st' Hk -> -> ->. unfold GetLogonRawData. now rewrite Hk.
Qed.

End LogonFacts.

(** ** The subscribe request and its symbol group *)

Section CounterFacts.

Lemma digit_of_bounds (a : ascii) (k : Z) :
  strconv.digit_of a = Some k → 0 ≤ k ≤ 9.
Proof.
  unfold strconv.digit_of.
  destruct (_ && _) eqn:E; [|discriminate].
  intros [= <-]. apply andb_true_iff in E as [E1 E2]. lia.
Qed.

Lemma digits_value_ge (s : string) (acc v : Z) :
  0 ≤ acc → strconv.digits_value s acc = Some v → acc ≤ v.
Proof.
  revert acc. induction s as [|a s IH]; intros acc Hacc; simpl.
  - intros [= <-]. lia.
  - destruct (strconv.digit_of a) as [k|] eqn:Ek; [|discriminate].
    apply digit_of_bounds in Ek. intros H.
    apply IH in H; lia.
Qed.

Lemma wrap64_small (z : Z) :
  0 ≤ z ≤ strconv.MaxInt64 → wrap64 z = z.
Proof.
  unfold strconv.MaxInt64, wrap64. intros H.
  rewrite Z.mod_small by lia. lia.
Qed.

(** As long as the value fits an int, the wrapping loop of [parseUInt]
    computes the plain decimal value. *)
Lemma parseUInt_loop_digits_value (s : string) (acc v : Z) :
  0 ≤ acc → strconv.digits_value s acc = Some v → v ≤ strconv.MaxInt64 →
  parseUInt_loop s acc = Some v.
Proof.
  revert acc. induction s as [|a s IH]; intros acc Hacc; simpl; [done|].
  destruct (strconv.digit_of a) as [k|] eqn:Ek; [|discriminate].
  pose proof (digit_of_bounds _ _ Ek) as Hk. intros H Hv.
  assert (Hge : acc * 10 + k ≤ v) by (apply (digits_value_ge s); [lia|done]).
  rewrite wrap64_small by lia. apply IH; [lia|done|done].
Qed.

(** The decimal value of a printed [uint], by the accumulator. *)
Lemma digits_value_string_of_uint (d : Decimal.uint) (acc : nat) :
  strconv.digits_value (NilEmpty.string_of_uint d) (Z.of_nat acc) =
  Some (Z.of_nat (Nat.of_uint_acc d acc)).
Proof.
  revert acc. induction d as [|d IH|d IH|d IH|d IH|d IH|d IH|d IH|d IH|d IH|d IH];
    intros acc; [reflexivity|..];
    cbn [NilEmpty.string_of_uint strconv.digits_value Nat.of_uint_acc];
    rewrite Nat.tail_mul_spec;
    match goal with
    | |- context [strconv.digit_of ?c] =>
        let k := eval vm_compute in (strconv.digit_of c) in
        change (strconv.digit_of c) with k; cbv beta iota
    end;
    rewrite <- IH; f_equal; lia.
Qed.

Lemma string_of_uint_head (d : Decimal.uint) :
  d ≠ Decimal.Nil →
  ∃ a s k, NilEmpty.string_of_uint d = String a s
           ∧ strconv.digit_of a = Some k.
Proof.
  destruct d; [done|..]; intros _; simpl; do 3 eexists; split;
    try reflexivity; reflexivity.
Qed.

Lemma atoi_digits (a : ascii) (s : string) (k v : Z) :
  strconv.digit_of a = Some k →
  strconv.digits_value (String a s) 0 = Some v →
  v ≤ strconv.MaxInt64 →
  atoi (String a s) = Some v.
Proof.
  intros Ek Hv Hmax. unfold atoi.
  destruct (Ascii.eqb a "-") eqn:Em.
  - apply Ascii.eqb_eq in Em. subst a. discriminate Ek.
  - unfold parseUInt. now apply parseUInt_loop_digits_value.
Qed.

(** The counter of a group is read back as written. *)
Lemma atoi_Itoa (n : nat) :
  Z.of_nat n ≤ strconv.MaxInt64 →
  atoi (strconv.Itoa n) = Some (Z.of_nat n).
Proof.
  intros Hn. unfold strconv.Itoa.
  pose proof (DecimalNat.Unsigned.of_to n) as Hof. unfold Nat.of_uint in Hof.
  pose proof (digits_value_string_of_uint (Nat.to_uint n) 0) as Hd.
  rewrite Hof in Hd. simpl Z.of_nat in Hd.
  destruct (Nat.to_uint n) as [|d|d|d|d|d|d|d|d|d|d] eqn:Eu;
    [simpl in Hof; subst n; reflexivity|..];
    cbn [NilZero.string_of_uint];
    match goal with
    | |- atoi (NilEmpty.string_of_uint ?u) = _ =>
        destruct (string_of_uint_head u ltac:(discriminate))
          as (a & s & k & Es & Ek);
        rewrite Es in *; now apply (atoi_digits a s k)
    end.
Qed.

End CounterFacts.

Section SymbolGroupFacts.
Import client.

Lemma Set_empty_symbol (symbol : string) :
  Set_ ∅ tagSymbol symbol = symbol_entry symbol.
Proof. unfold Set_, symbol_entry, symbol_field. apply insert_empty. Qed.

(** The loop appends one entry per symbol, in the order of the list. *)
Lemma add_symbols_groups (symbols : list string) (rg : RepeatingGroup) :
  add_symbols rg symbols =
  {| rg_tag := rg_tag rg; template := template rg;
     groups := groups rg ++ map symbol_entry symbols |}.
Proof.
  revert rg. induction symbols as [|x l IH]; intros rg.
  - simpl. rewrite app_nil_r. now destruct rg.
  - unfold add_symbols in *. cbn [fold_left]. rewrite IH.
    unfold Add, Group_Set. cbn [rg_tag template groups].
    rewrite alter_app_r_alt by lia. rewrite Nat.sub_diag.
    cbn [alter list_alter]. rewrite Set_empty_symbol.
    rewrite <- app_assoc. reflexivity.
Qed.

Lemma Group_Write_symbol_entry (symbol : string) :
  Group_Write [tagSymbol] (symbol_entry symbol) = [symbol_field symbol].
Proof.
  unfold Group_Write, sortedTags, symbol_entry.
  rewrite map_to_list_singleton. cbn [map fst].
  rewrite filter_cons_True, filter_nil
    by (unfold Has; now rewrite lookup_singleton_eq).
  rewrite filter_cons_False, filter_nil
    by (intros H; apply H; apply list_elem_of_singleton; reflexivity).
  cbn [app flat_map]. rewrite lookup_singleton_eq. reflexivity.
Qed.

Lemma flat_map_Group_Write (symbols : list string) :
  flat_map (Group_Write [tagSymbol]) (map symbol_entry symbols) =
  map symbol_field symbols.
Proof.
  induction symbols as [|x l IH]; [reflexivity|].
  cbn [map flat_map]. now rewrite Group_Write_symbol_entry, IH.
Qed.

(** What [SubscribeToTrades] stores under tag 146: the counter and the
    symbols, one tag 55 each, in the order given. *)
Lemma subscribeRequest_symbol_group (nano : Z) (symbols : list string) :
  Body (subscribeRequest nano symbols) !! tagNoRelatedSym =
  Some ({| tv_tag := tagNoRelatedSym;
           tv_value := strconv.Itoa (length symbols) |},
        map symbol_field symbols).
Proof.
  unfold subscribeRequest. cbn [Add NewRepeatingGroup groups fst snd].
  unfold Body_SetGroup at 1. cbn [Body]. unfold SetGroup at 1.
  rewrite lookup_insert_ne by discriminate.
  unfold Body_SetGroup. cbn [Body]. unfold SetGroup.
  rewrite add_symbols_groups. cbn [rg_tag].
  rewrite lookup_insert_eq. unfold RepeatingGroup_Write.
  cbn [rg_tag template groups NewRepeatingGroup app].
  now rewrite flat_map_Group_Write, length_map.
Qed.

Lemma unsubscribeRequest_symbol_group (nano : Z) (symbols : list string) :
  Body (unsubscribeRequest nano symbols) !! tagNoRelatedSym =
  Some ({| tv_tag := tagNoRelatedSym;
           tv_value := strconv.Itoa (length symbols) |},
        map symbol_field symbols).
Proof.
  unfold unsubscribeRequest.
  unfold Body_SetGroup. cbn [Body]. unfold SetGroup.
  rewrite add_symbols_groups. cbn [rg_tag].
  rewrite lookup_insert_eq. unfold RepeatingGroup_Write.
  cbn [rg_tag template groups NewRepeatingGroup app].
  now rewrite flat_map_Group_Write, length_map.
Qed.

(** The reading loop rebuilds one entry per tag 55. *)
Lemma read_entries_symbols (symbols : list string)
    (done_ : list FieldMap) (started : bool) (cur : FieldMap) :
  read_entries [tagSymbol] (map symbol_field symbols) done_ started cur =
  (if started then done_ ++ [cur] else done_) ++ map symbol_entry symbols.
Proof.
  revert done_ started cur.
  induction symbols as [|x l IH]; intros done_ started cur.
  - simpl. now rewrite app_nil_r.
  - cbn [map read_entries]. cbn [symbol_field tv_tag].
    rewrite bool_decide_eq_true_2
      by (apply list_elem_of_singleton; reflexivity).
    unfold isDelimiter. rewrite bool_decide_eq_true_2 by reflexivity.
    rewrite IH.
    change (<[tagSymbol := ({| tv_tag := tagSymbol; tv_value := x |}, [])]> ∅)
      with (symbol_entry x).
    now rewrite <- app_assoc.
Qed.

Lemma mapM_GetString_entries (symbols : list string) :
  mapM (λ g : FieldMap, GetString g tagSymbol) (map symbol_entry symbols) =
  Ok symbols.
Proof.
  induction symbols as [|x l IH]; [reflexivity|].
  cbn [map mapM]. rewrite IH.
  rewrite (GetString_lookup (symbol_entry x) tagSymbol (symbol_field x, []))
    by apply lookup_singleton_eq.
  reflexivity.
Qed.

(** Any body that holds the written group under tag 146 reads back as the
    list of symbols. *)
Lemma readSymbolGroup_written (body : FieldMap) (symbols : list string) :
  Z.of_nat (length symbols) ≤ strconv.MaxInt64 →
  body !! tagNoRelatedSym =
    Some ({| tv_tag := tagNoRelatedSym;
             tv_value := strconv.Itoa (length symbols) |},
          map symbol_field symbols) →
  readSymbolGroup body = Ok symbols.
Proof.
  intros Hlen Hbody. unfold readSymbolGroup, GetGroup.
  cbn [NewRepeatingGroup rg_tag]. rewrite Hbody.
  unfold RepeatingGroup_Read. cbn [fst snd tv_value rg_tag template groups].
  rewrite (atoi_Itoa _ Hlen).
  destruct (Z.eqb_spec (Z.of_nat (length symbols)) 0) as [Hz|Hnz].
  - destruct symbols; [reflexivity|discriminate Hz].
  - rewrite read_entries_symbols.
    cbn [NewRepeatingGroup rg_tag template groups app].
    rewrite length_map, Z.eqb_refl.
    change (Ok ?x ≫= ?k) with (k x). cbv beta. cbn [groups].
    apply mapM_GetString_entries.
Qed.

End SymbolGroupFacts.

Section SubscribeRoundTrip.
Context `{RT : Runtime}.
Import client.

Lemma Body_addCommonHeaders (c : Client) (now : Time) (msg : Message) :
  Body (addCommonHeaders c now msg) = Body msg.
Proof. reflexivity. Qed.

(** C7.  For a list of symbols (of a length a Go int can hold), the request
    [SubscribeToTrades] builds stores under tag 146 the counter followed by
    one tag 55 per symbol, in the order of the list; reading the group back
    from the body gives exactly the input list; and when the request is
    sent, the message on the wire reads back the same way. *)
Theorem SubscribeToTrades_symbols_round_trip (symbols : list string) :
  Z.of_nat (length symbols) ≤ strconv.MaxInt64 →
  (∀ nano : Z,
     Body (subscribeRequest nano symbols) !! tagNoRelatedSym =
       Some ({| tv_tag := tagNoRelatedSym;
                tv_value := strconv.Itoa (length symbols) |},
             map symbol_field symbols)
     ∧ readSymbolGroup (Body (subscribeRequest nano symbols)) = Ok symbols)
  ∧ (∀ (quickfix_Send : Message → option error) (t0 now : Time)
       (s : State),
     let r := SubscribeToTrades quickfix_Send t0 now symbols s in
     r.1 = None →
     ∃ msg, wire r.2 = wire s ++ [msg]
            ∧ readSymbolGroup (Body msg) = Ok symbols).
Proof.
  intros Hlen. split.
  - intros nano. split; [apply subscribeRequest_symbol_group|].
    apply readSymbolGroup_written; [exact Hlen|].
    apply subscribeRequest_symbol_group.
  - intros quickfix_Send t0 now s r Hr.
    destruct (SendWithoutResponse_client quickfix_Send now
                (subscribeRequest (UnixNano t0) symbols) s)
      as (_ & _ & Hwire).
    eexists. split; [exact (Hwire Hr)|].
    rewrite Body_addCommonHeaders.
    apply readSymbolGroup_written; [exact Hlen|].
    apply subscribeRequest_symbol_group.
Qed.

End SubscribeRoundTrip.

(** * The statements at concrete inputs *)

Section Instances.
Import examples handlers client.

Lemma DecodeExecutionReport_rejected_with_reason_witness :
  DecodeExecutionReport rejected_report =
    Err (errors_New "Insufficient balance")
  ∧ ∀ o : Order, DecodeExecutionReport rejected_report ≠ Ok o.
Proof.
  apply (DecodeExecutionReport_rejected_with_reason (RT := integer_runtime)
           rejected_report
           ({| tv_tag := 58; tv_value := "Insufficient balance" |}, [])).
  - vm_compute. reflexivity.
  - vm_compute. reflexivity.
  - discriminate.
Defined.

Lemma DecodeExecutionReport_rejected_without_reason_witness :
  DecodeExecutionReport rejected_without_reason =
    Ok {| Symbol := "BTCUSDT"; OrderID := 12345; ClientOrderID := "";
          Price := 0; OrderQty := 0; CumQty := 0; CumQuoteQty := 0;
          Status := OrderStatusRejected; Order_TimeInForce := "";
          Type_ := OrderTypeLimit; Side := SideTypeBuy;
          IcebergQuantity := 0; TransactTime := ("", 0);
          OrderCreationTime := ("", 0); WorkingTime := ("", 0) |}.
Proof.
  destruct (DecodeExecutionReport_rejected_without_reason
              (RT := integer_runtime) rejected_without_reason) as [_ H].
  - vm_compute. reflexivity.
  - left. vm_compute. reflexivity.
  - apply H; vm_compute; reflexivity.
Defined.

Lemma DecodeExecutionReport_soft_defaults_witness :
  getPrice unknown_enums_report = Ok 0
  ∧ getOrderStatus unknown_enums_report = Ok ""
  ∧ getTimeInForce unknown_enums_report = Ok ""
  ∧ ∀ o : Order, DecodeExecutionReport unknown_enums_report = Ok o →
      CumQuoteQty o = 0 ∧ Side o = "".
Proof.
  destruct (DecodeExecutionReport_soft_defaults (RT := integer_runtime)
              unknown_enums_report)
    as (Hp & _ & _ & _ & _ & Hs & _ & _ & Ht & Ho).
  split; [apply Hp; vm_compute; reflexivity|].
  split; [apply (Hs "Z"); vm_compute; reflexivity|].
  split; [apply (Ht "6"); vm_compute; reflexivity|].
  intros o Hdec. destruct (Ho o Hdec) as (_ & _ & _ & Hn & _ & _ & Hsi & _).
  split; [apply Hn; vm_compute; reflexivity|].
  apply (Hsi "9"); vm_compute; reflexivity.
Defined.

Lemma DecodeTradeMessage_primary_then_fallback_witness :
  DecodeTradeMessage trade_fallback = Ok decoded_fallback
  ∧ (∃ t, DecodeTradeMessage trade_fallback = Ok t ∧ Trade_Price t = 49999)
  ∧ (∃ t, DecodeTradeMessage trade_fallback = Ok t ∧ TradeID t = 98)
  ∧ DecodeTradeMessage trade_primary = Ok decoded_primary
  ∧ (∃ e, DecodeTradeMessage trade_without_price = Err e)
  ∧ DecodeTradeMessage trade_without_time =
      Err (errors_New "trade time not found").
Proof.
  destruct (DecodeTradeMessage_primary_then_fallback (RT := integer_runtime)
              trade_fallback)
    as (_ & _ & _ & _ & _ & Hok & _ & Hprice & _ & Hid & _).
  destruct (DecodeTradeMessage_primary_then_fallback (RT := integer_runtime)
              trade_primary) as (_ & _ & _ & _ & _ & Hok' & _).
  destruct (DecodeTradeMessage_primary_then_fallback (RT := integer_runtime)
              trade_without_price) as ((_ & _ & Hnone) & _).
  destruct (DecodeTradeMessage_primary_then_fallback (RT := integer_runtime)
              trade_without_time) as (_ & _ & _ & _ & _ & _ & _ & _ & _ & _ & Herr).
  split; [|split; [|split; [|split; [|split]]]].
  - rewrite (Hok "BTCUSDT" 98 49999 3 ("20240101-00:00:00.000", 0));
      reflexivity.
  - apply (Hprice ({| tv_tag := 31; tv_value := "49999" |}, []) 49999
             "BTCUSDT" 98 3 ("20240101-00:00:00.000", 0)); reflexivity.
  - apply (Hid ({| tv_tag := 571; tv_value := "98" |}, []) 98
             "BTCUSDT" 49999 3 ("20240101-00:00:00.000", 0)); reflexivity.
  - rewrite (Hok' "BTCUSDT" 99 50000 2 ("20240101-00:00:00.000", 0));
      reflexivity.
  - apply Hnone; reflexivity.
  - destruct (Herr (errors_New "trade time not found"))
      as (_ & _ & _ & _ & Ht).
    apply Ht; reflexivity.
Defined.

Lemma send_failure_leaves_no_entry_witness :
  (send refuse_all noon "r2" NewMessage busy_state).2 = busy_state.
Proof.
  destruct (send_failure_leaves_no_entry (RT := integer_runtime) refuse_all
              noon "r2" NewMessage busy_state) as [_ H].
  destruct (H (SendError "session not found")) as (_ & _ & _ & _ & Hs).
  - reflexivity.
  - reflexivity.
  - apply Hs. vm_compute. reflexivity.
Defined.

(** The pending-call map is not always unchanged by a failing send: when
    the id is already outstanding, the failing send takes the earlier call
    out of the map. *)
Lemma send_failure_drops_outstanding_call :
  let r := send refuse_all noon "r1" NewMessage busy_state in
  is_err r.1 = true
  ∧ pending (the_client busy_state) !! "r1" = Some outstanding_call
  ∧ pending (the_client r.2) !! "r1" = None
  ∧ pending (the_client r.2) ≠ pending (the_client busy_state).
Proof.
  simpl. split; [reflexivity|]. split; [vm_compute; reflexivity|].
  split; [vm_compute; reflexivity|].
  intros H. apply (f_equal (λ m : gmap string call, m !! "r1")) in H.
  vm_compute in H. discriminate H.
Defined.

Lemma subscriptions_register_no_call_witness :
  the_client
    (SubscribeToTrades accept_all noon noon ["BTCUSDT"; "ETHUSDT"]
       busy_state).2 = the_client busy_state.
Proof.
  destruct (subscriptions_register_no_call (RT := integer_runtime)
              accept_all noon noon ["BTCUSDT"; "ETHUSDT"] busy_state)
    as ((_ & H & _) & _).
  exact H.
Defined.

Lemma handleNewsMessage_publishes_witness :
  emitter (handleNewsMessage ascii_ToLower maintenance_notice md_client) =
    [maintenance_event "Notice" "Scheduled maintenance, please reconnect";
     reconnect_needed_event]
  ∧ emitter (handleNewsMessage ascii_ToLower maintenance_notice oe_client) =
    [maintenance_event "Notice" "Scheduled maintenance, please reconnect"].
Proof.
  split.
  - destruct (handleNewsMessage_publishes ascii_ToLower maintenance_notice
                md_client) as [H _].
    + right. left. vm_compute. reflexivity.
    + exact H.
  - destruct (handleNewsMessage_publishes ascii_ToLower maintenance_notice
                oe_client) as [H _].
    + right. right. vm_compute. reflexivity.
    + exact H.
Defined.

(** A headline that carries "reconnect" and no "maintenance", with no body
    text, publishes nothing: the headline is tested for "maintenance"
    only. *)
Lemma handleNewsMessage_reconnect_in_headline :
  newsHeadline reconnect_headline_notice = "Please reconnect"
  ∧ go_strings.Contains
      (ascii_ToLower (newsHeadline reconnect_headline_notice)) "reconnect"
    = true
  ∧ handleNewsMessage ascii_ToLower reconnect_headline_notice md_client
    = md_client
  ∧ emitter (handleNewsMessage ascii_ToLower reconnect_headline_notice
               md_client) = [].
Proof. repeat split; vm_compute; reflexivity. Defined.

Lemma wait_with_elapsed_deadline_witness :
  wait {| waiter_call := outstanding_call |} expired =
    [(Err DeadlineExceeded, outstanding_call)]
  ∧ (capacity (done outstanding_call) = 1%nat →
     ∀ v, chan_send (done outstanding_call) v =
            Some {| buffer := [v]; capacity := 1; closed := false |}).
Proof.
  apply (wait_with_elapsed_deadline
           {| waiter_call := outstanding_call |} expired DeadlineExceeded);
    reflexivity.
Defined.

Lemma SubscribeToTrades_symbols_round_trip_witness :
  readSymbolGroup
    (Body (subscribeRequest 1704110400000000000 ["BTCUSDT"; "ETHUSDT"])) =
  Ok ["BTCUSDT"; "ETHUSDT"].
Proof.
  destruct (SubscribeToTrades_symbols_round_trip (RT := integer_runtime)
              ["BTCUSDT"; "ETHUSDT"]) as [H _].
  - vm_compute. discriminate.
  - apply H.
Defined.

End Instances.

(** * Further properties of the code *)

(** ** Setting one tag leaves the others alone *)

Lemma Body_Set_lookup_ne (msg : Message) (t t' : Tag) (v : string) :
  t ≠ t' → Body (Body_Set msg t v) !! t' = Body msg !! t'.
Proof. intros H. unfold Body_Set, Set_. cbn [Body]. now apply lookup_insert_ne. Qed.

Lemma Body_Set_lookup_eq (msg : Message) (t : Tag) (v : string) :
  Body (Body_Set msg t v) !! t = Some ({| tv_tag := t; tv_value := v |}, []).
Proof. unfold Body_Set, Set_. cbn [Body]. apply lookup_insert_eq. Qed.

(** Rewrites every lookup of another tag in a body that has just been set. *)
Ltac frame_lookups :=
  repeat match goal with
  | |- context [Body (Body_Set ?m ?t ?v) !! ?t'] =>
      rewrite (Body_Set_lookup_ne m t t' v) by discriminate
  end.

Ltac bind_step :=
  match goal with
  | |- context [Ok ?x ≫= ?k] => change (Ok x ≫= k) with (k x); cbv beta
  end.

(** ** The enum tables *)

Section TableFacts.
Import handlers.

Ltac table_cases E :=
  apply elem_of_list_to_map_2 in E;
  repeat (apply elem_of_cons in E as [E|E]; [cbv in E|]);
  [..|now apply elem_of_nil in E].

Lemma table_zero_iff (m : gmap string string) (v : string) :
  (∀ s, m !! v = Some s → s ≠ zero_string) →
  index_map m v = zero_string ↔ m !! v = None.
Proof.
  intros Hnz. unfold index_map.
  destruct (m !! v) as [s|] eqn:E; simpl; [|tauto].
  split; [|discriminate]. intros ->. now destruct (Hnz _ eq_refl).
Qed.

Lemma mappedOrderStatus_nonzero (v s : string) :
  mappedOrderStatus !! v = Some s → s ≠ zero_string.
Proof. intros E. table_cases E; now simplify_eq. Qed.

Lemma mappedTimeInForce_nonzero (v s : string) :
  mappedTimeInForce !! v = Some s → s ≠ zero_string.
Proof. intros E. table_cases E; now simplify_eq. Qed.

Lemma mappedOrderType_nonzero (v s : string) :
  mappedOrderType !! v = Some s → s ≠ zero_string.
Proof. intros E. table_cases E; now simplify_eq. Qed.

Lemma mappedSideType_nonzero (v s : string) :
  mappedSideType !! v = Some s → s ≠ zero_string.
Proof. intros E. table_cases E; now simplify_eq. Qed.

(** X7.  No two codes of a table stand for the same value, so a decoded
    status, time in force, order type or side that is not empty tells which
    code was on the wire. *)
Theorem enum_tables_injective (v1 v2 s : string) :
  (mappedOrderStatus !! v1 = Some s → mappedOrderStatus !! v2 = Some s →
   v1 = v2)
  ∧ (mappedTimeInForce !! v1 = Some s → mappedTimeInForce !! v2 = Some s →
     v1 = v2)
  ∧ (mappedOrderType !! v1 = Some s → mappedOrderType !! v2 = Some s →
     v1 = v2)
  ∧ (mappedSideType !! v1 = Some s → mappedSideType !! v2 = Some s →
     v1 = v2).
Proof.
  repeat split; intros E1 E2;
    table_cases E1; table_cases E2; now simplify_eq.
Qed.

End TableFacts.

(** ** More on the execution-report decoder *)

Section MoreDecoderFacts.
Context `{RT : Runtime}.
Import handlers.

Lemma Get_string_Ok_inv (msg : Message) (t : Tag) (v : string) :
  Get_string msg t = Ok v →
  ∃ f, Body msg !! t = Some f ∧ tv_value f.1 = v.
Proof. apply GetString_Ok_inv. Qed.

Lemma Get_string_absent (msg : Message) (t : Tag) :
  Body msg !! t = None →
  Get_string msg t = Err (ConditionallyRequiredFieldMissing t).
Proof. intros H. unfold Get_string, GetField. now rewrite H. Qed.

Lemma Get_string_present (msg : Message) (t : Tag) (f : field) :
  Body msg !! t = Some f → Get_string msg t = Ok (tv_value f.1).
Proof. intros H. unfold Get_string, GetField. now rewrite H. Qed.

Lemma getOrderID_Ok_inv (msg : Message) (n : Z) :
  getOrderID msg = Ok n →
  ∃ f, Body msg !! tagOrderID = Some f
       ∧ strconv.ParseInt (tv_value f.1) = Ok n.
Proof.
  unfold getOrderID, Has.
  destruct (Body msg !! tagOrderID) as [f|] eqn:E.
  - rewrite (Get_string_present _ _ _ E). bind_step. eauto.
  - bind_step. discriminate.
Qed.

Lemma getOrderID_absent (msg : Message) :
  Body msg !! tagOrderID = None →
  getOrderID msg = Err (NumError "ParseInt" "" false).
Proof. intros H. unfold getOrderID, Has. now rewrite H. Qed.

Lemma decoded_has_required_tags (msg : Message) (o : Order) :
  DecodeExecutionReport msg = Ok o →
  ∃ f39 f55 f37 f40 f54,
    Body msg !! tagOrdStatus = Some f39
    ∧ Body msg !! tagSymbol = Some f55
    ∧ Body msg !! tagOrderID = Some f37
    ∧ Body msg !! tagOrdType = Some f40
    ∧ Body msg !! tagSide = Some f54
    ∧ Status o = index_map mappedOrderStatus (tv_value f39.1)
    ∧ Symbol o = tv_value f55.1
    ∧ strconv.ParseInt (tv_value f37.1) = Ok (OrderID o)
    ∧ Type_ o = index_map mappedOrderType (tv_value f40.1)
    ∧ Side o = index_map mappedSideType (tv_value f54.1).
Proof.
  intros H. apply DecodeExecutionReport_Ok_inv in H.
  destruct H as (Hst & _ & Hsy & Hid & _ & _ & _ & _ & _ & _ & Hty & Hsi & _).
  unfold getOrderStatus in Hst. apply bind_Ok_inv in Hst as (v39 & H39 & E39).
  apply Get_string_Ok_inv in H39 as (f39 & L39 & <-).
  apply Get_string_Ok_inv in Hsy as (f55 & L55 & E55).
  apply getOrderID_Ok_inv in Hid as (f37 & L37 & E37).
  unfold getOrdType in Hty. apply bind_Ok_inv in Hty as (v40 & H40 & E40).
  apply Get_string_Ok_inv in H40 as (f40 & L40 & <-).
  unfold getSide in Hsi. apply bind_Ok_inv in Hsi as (v54 & H54 & E54).
  apply Get_string_Ok_inv in H54 as (f54 & L54 & <-).
  exists f39, f55, f37, f40, f54.
  repeat split; try assumption; congruence.
Qed.

(** X1.  A decoded Order comes from a message that carries the status (39),
    the symbol (55), the order id (37), the order type (40) and the side
    (54): its symbol is the value of tag 55 as it stands, its order id is
    the int64 that tag 37 spells, and its status, type and side are the
    table entries of the codes in 39, 40 and 54. *)
Theorem DecodeExecutionReport_required_tags (msg : Message) (o : Order) :
  DecodeExecutionReport msg = Ok o →
  ∃ f39 f55 f37 f40 f54,
    Body msg !! tagOrdStatus = Some f39
    ∧ Body msg !! tagSymbol = Some f55
    ∧ Body msg !! tagOrderID = Some f37
    ∧ Body msg !! tagOrdType = Some f40
    ∧ Body msg !! tagSide = Some f54
    ∧ Status o = index_map mappedOrderStatus (tv_value f39.1)
    ∧ Symbol o = tv_value f55.1
    ∧ strconv.ParseInt (tv_value f37.1) = Ok (OrderID o)
    ∧ Type_ o = index_map mappedOrderType (tv_value f40.1)
    ∧ Side o = index_map mappedSideType (tv_value f54.1).
Proof. apply decoded_has_required_tags. Qed.

(** X2.  The five required tags are enough.  A message that carries them,
    with an int64 numeral in tag 37, and none of the optional tags (11, 14,
    38, 44, 58, 59, 60, 111, 381, 636, 6635) decodes, whatever its status
    code, and every optional field of the Order is the zero value. *)
Theorem DecodeExecutionReport_required_tags_suffice (msg : Message)
    (f39 f55 f37 f40 f54 : field) (orderID : Z) :
  Body msg !! tagOrdStatus = Some f39 →
  Body msg !! tagSymbol = Some f55 →
  Body msg !! tagOrderID = Some f37 →
  strconv.ParseInt (tv_value f37.1) = Ok orderID →
  Body msg !! tagOrdType = Some f40 →
  Body msg !! tagSide = Some f54 →
  Forall (λ t, Body msg !! t = None)
    [tagClOrdID; tagCumQty; tagOrderQty; tagPrice; tagText; tagTimeInForce;
     tagTransactTime; tagMaxFloor; tagCumQuoteQty; tagWorkingTime;
     tagOrderCreationTime] →
  DecodeExecutionReport msg =
    Ok {| Symbol := tv_value f55.1; OrderID := orderID;
          ClientOrderID := zero_string; Price := float64_zero;
          OrderQty := float64_zero; CumQty := float64_zero;
          CumQuoteQty := float64_zero;
          Status := index_map mappedOrderStatus (tv_value f39.1);
          Order_TimeInForce := zero_string;
          Type_ := index_map mappedOrderType (tv_value f40.1);
          Side := index_map mappedSideType (tv_value f54.1);
          IcebergQuantity := float64_zero; TransactTime := Time_zero;
          OrderCreationTime := Time_zero; WorkingTime := Time_zero |}.
Proof.
  intros L39 L55 L37 P37 L40 L54 Habs.
  repeat (apply Forall_cons in Habs as [? Habs]).
  assert (Hst : getOrderStatus msg =
                Ok (index_map mappedOrderStatus (tv_value f39.1))).
  { unfold getOrderStatus. now rewrite (Get_string_present _ _ _ L39). }
  assert (Hck : rejection_check msg
                  (index_map mappedOrderStatus (tv_value f39.1)) = Ok ()).
  { unfold rejection_check. case_decide; [|reflexivity].
    rewrite getText_absent by now apply Has_false_lookup.
    bind_step. now rewrite decide_True. }
  rewrite (DecodeExecutionReport_after_check msg _ Hst Hck).
  unfold getSymbol, getOrderID, getClientOrderID, getPrice, getOrderQty,
    getCumQty, getCumQuoteQty, getTimeInForce, getOrdType, getSide,
    getMaxFloor, getTransactTime, getOrderCreationTime, getWorkingTime, Has.
  repeat match goal with
  | H : Body msg !! ?t = None |- _ => rewrite H; clear H
  end.
  rewrite L37.
  rewrite (Get_string_present _ _ _ L55), (Get_string_present _ _ _ L37),
    (Get_string_present _ _ _ L40), (Get_string_present _ _ _ L54).
  repeat bind_step. rewrite P37. reflexivity.
Qed.

(** X3.  The status is read first.  Without tag 39 the result is the
    missing-field error of tag 39, whatever else is wrong with the
    message. *)
Theorem DecodeExecutionReport_status_first (msg : Message) :
  Body msg !! tagOrdStatus = None →
  DecodeExecutionReport msg =
    Err (ConditionallyRequiredFieldMissing tagOrdStatus).
Proof.
  intros H. unfold DecodeExecutionReport, getOrderStatus.
  now rewrite (Get_string_absent _ _ H).
Qed.

(** X4.  The order id is not optional.  Although [getOrderID] asks whether
    tag 37 is there, a message without it never decodes: the empty string
    is handed to [ParseInt], and once status and symbol have been read the
    result is that syntax error. *)
Theorem DecodeExecutionReport_needs_order_id (msg : Message) :
  Body msg !! tagOrderID = None →
  (∀ o : Order, DecodeExecutionReport msg ≠ Ok o)
  ∧ (∀ status symbol,
       getOrderStatus msg = Ok status →
       rejection_check msg status = Ok () →
       getSymbol msg = Ok symbol →
       DecodeExecutionReport msg = Err (NumError "ParseInt" "" false)).
Proof.
  intros H. split.
  - intros o Ho. apply DecodeExecutionReport_Ok_inv in Ho.
    destruct Ho as (_ & _ & _ & Hid & _).
    rewrite (getOrderID_absent msg H) in Hid. discriminate.
  - intros status symbol Hst Hck Hsy.
    rewrite (DecodeExecutionReport_after_check msg _ Hst Hck).
    rewrite Hsy. bind_step. now rewrite (getOrderID_absent msg H).
Qed.

(** X5.  The text tag matters for a Rejected status only.  When the status
    read is anything else, writing any value into tag 58 changes nothing in
    what [DecodeExecutionReport] returns. *)
Theorem DecodeExecutionReport_text_ignored (msg : Message)
    (status : OrderStatus) (v : string) :
  getOrderStatus msg = Ok status →
  status ≠ OrderStatusRejected →
  DecodeExecutionReport (Body_Set msg tagText v) = DecodeExecutionReport msg.
Proof.
  intros Hst Hne.
  assert (Hst' : getOrderStatus (Body_Set msg tagText v) = Ok status).
  { rewrite <- Hst. unfold getOrderStatus, Get_string, GetField.
    now frame_lookups. }
  assert (Hck : ∀ m, rejection_check m status = Ok ()).
  { intros m. unfold rejection_check. now rewrite decide_False. }
  rewrite (DecodeExecutionReport_after_check _ _ Hst' (Hck _)).
  rewrite (DecodeExecutionReport_after_check _ _ Hst (Hck _)).
  unfold getSymbol, getOrderID, getClientOrderID, getPrice, getOrderQty,
    getCumQty, getCumQuoteQty, getTimeInForce, getOrdType, getSide,
    getMaxFloor, getTransactTime, getOrderCreationTime, getWorkingTime,
    Has, Get_string, Get_decimal, Get_time, GetString, GetField.
  unfold tagCumQuoteQty, tagOrderCreationTime, tagWorkingTime.
  now frame_lookups.
Qed.

(** X6.  An empty status, side or order type in a decoded Order means that
    the code on the wire is not in the table, and nothing else; an empty
    time in force means that tag 59 is absent or holds a code that is not
    in the table. *)
Theorem DecodeExecutionReport_zero_enum_iff_unknown (msg : Message)
    (o : Order) :
  DecodeExecutionReport msg = Ok o →
  (Status o = zero_string ↔
     ∃ f, Body msg !! tagOrdStatus = Some f
          ∧ mappedOrderStatus !! tv_value f.1 = None)
  ∧ (Type_ o = zero_string ↔
     ∃ f, Body msg !! tagOrdType = Some f
          ∧ mappedOrderType !! tv_value f.1 = None)
  ∧ (Side o = zero_string ↔
     ∃ f, Body msg !! tagSide = Some f
          ∧ mappedSideType !! tv_value f.1 = None)
  ∧ (Order_TimeInForce o = zero_string ↔
     Body msg !! tagTimeInForce = None
     ∨ ∃ f, Body msg !! tagTimeInForce = Some f
            ∧ mappedTimeInForce !! tv_value f.1 = None).
Proof.
  intros H.
  destruct (decoded_has_required_tags msg o H)
    as (f39 & f55 & f37 & f40 & f54 & L39 & _ & _ & L40 & L54 & -> & _ & _
        & -> & ->).
  apply DecodeExecutionReport_Ok_inv in H.
  destruct H as (_ & _ & _ & _ & _ & _ & _ & _ & _ & Hti & _).
  split; [|split; [|split]].
  - rewrite (table_zero_iff _ _ (mappedOrderStatus_nonzero _)).
    split; [eauto|]. intros (f & Hf & Hn). congruence.
  - rewrite (table_zero_iff _ _ (mappedOrderType_nonzero _)).
    split; [eauto|]. intros (f & Hf & Hn). congruence.
  - rewrite (table_zero_iff _ _ (mappedSideType_nonzero _)).
    split; [eauto|]. intros (f & Hf & Hn). congruence.
  - unfold getTimeInForce, Has in Hti.
    destruct (Body msg !! tagTimeInForce) as [f|] eqn:L59.
    + rewrite (Get_string_present _ _ _ L59) in Hti.
      injection Hti as <-.
      rewrite (table_zero_iff _ _ (mappedTimeInForce_nonzero _)).
      split; [eauto|]. intros [?|(f' & Hf & Hn)]; congruence.
    + injection Hti as <-. split; [auto|reflexivity].
Qed.

End MoreDecoderFacts.

(** ** Numerals *)

Section NumeralFacts.

Lemma digits_value_of_uint_acc (d : Decimal.uint) (p : positive) :
  strconv.digits_value (NilEmpty.string_of_uint d) (Z.pos p) =
  Some (Z.pos (Pos.of_uint_acc d p)).
Proof.
  revert p.
  induction d as [|d IH|d IH|d IH|d IH|d IH|d IH|d IH|d IH|d IH|d IH];
    intros p; [reflexivity|..];
    cbn [NilEmpty.string_of_uint strconv.digits_value Pos.of_uint_acc];
    match goal with
    | |- context [strconv.digit_of ?c] =>
        let k := eval vm_compute in (strconv.digit_of c) in
        change (strconv.digit_of c) with k; cbv beta iota
    end;
    rewrite <- IH; f_equal; lia.
Qed.

Lemma digits_value_of_uint (d : Decimal.uint) :
  strconv.digits_value (NilEmpty.string_of_uint d) 0 =
  Some (Z.of_N (Pos.of_uint d)).
Proof.
  induction d as [|d IH|d IH|d IH|d IH|d IH|d IH|d IH|d IH|d IH|d IH];
    [reflexivity|exact IH|..];
    cbn [NilEmpty.string_of_uint strconv.digits_value Pos.of_uint];
    match goal with
    | |- context [strconv.digit_of ?c] =>
        let k := eval vm_compute in (strconv.digit_of c) in
        change (strconv.digit_of c) with k; cbv beta iota
    end;
    cbn [Z.mul Z.add Z.of_N]; apply digits_value_of_uint_acc.
Qed.

(** The numeral of a positive number: a digit first, and its value. *)
Lemma numeral_of_positive (p : positive) :
  ∃ a s k,
    NilZero.string_of_uint (Pos.to_uint p) = String a s
    ∧ strconv.digit_of a = Some k
    ∧ strconv.digits_value (String a s) 0 = Some (Z.pos p).
Proof.
  pose proof (DecimalPos.Unsigned.of_to p) as Hof.
  pose proof (digits_value_of_uint (Pos.to_uint p)) as Hd.
  rewrite Hof in Hd. cbn [Z.of_N] in Hd.
  destruct (Pos.to_uint p) as [|d|d|d|d|d|d|d|d|d|d] eqn:Eu;
    [discriminate Hof|..];
    cbn [NilZero.string_of_uint];
    match goal with
    | |- context [NilEmpty.string_of_uint ?u] =>
        destruct (string_of_uint_head u ltac:(discriminate))
          as (a & s & k & Es & Ek);
        rewrite Es in *; exists a, s, k; auto
    end.
Qed.

Lemma digit_not_sign (a : ascii) (k : Z) :
  strconv.digit_of a = Some k →
  Ascii.eqb a "-" = false ∧ Ascii.eqb a "+" = false.
Proof.
  intros Hk. split; apply Ascii.eqb_neq; intros ->; discriminate Hk.
Qed.

(** On a run of digits the loop of [ParseUint] returns its value when it
    fits a uint64, and the range error when it does not. *)
Lemma ParseUint_loop_fits (s : string) (n v : Z) :
  0 ≤ n → strconv.digits_value s n = Some v → v ≤ strconv.MaxUint64 →
  strconv.ParseUint_loop s n = (v, None).
Proof.
  revert n. induction s as [|c s IH]; intros n Hn Hv Hle;
    cbn [strconv.digits_value strconv.ParseUint_loop] in *.
  - now injection Hv as ->.
  - destruct (strconv.digit_of c) as [d|] eqn:Ed; [|discriminate].
    destruct (digit_of_bounds c d Ed) as [Hd0 Hd9].
    assert (Hge : n * 10 + d ≤ v) by (apply (digits_value_ge s); [lia|done]).
    unfold strconv.MaxUint64 in *.
    change (18446744073709551615 / 10 + 1) with 1844674407370955162.
    destruct (Z.leb_spec 1844674407370955162 n); [lia|].
    destruct (Z.ltb_spec 18446744073709551615 (n * 10 + d)); [lia|].
    apply IH; [lia|done|done].
Qed.

Lemma ParseUint_loop_overflows (s : string) (n v : Z) :
  0 ≤ n ≤ strconv.MaxUint64 → strconv.digits_value s n = Some v →
  strconv.MaxUint64 < v →
  strconv.ParseUint_loop s n = (strconv.MaxUint64, Some true).
Proof.
  revert n. induction s as [|c s IH]; intros n Hn Hv Hlt;
    cbn [strconv.digits_value strconv.ParseUint_loop] in *.
  - injection Hv as ->. lia.
  - destruct (strconv.digit_of c) as [d|] eqn:Ed; [|discriminate].
    destruct (digit_of_bounds c d Ed) as [Hd0 Hd9].
    destruct (_ <=? n); [reflexivity|].
    destruct (Z.ltb_spec strconv.MaxUint64 (n * 10 + d)); [reflexivity|].
    apply IH; [lia|done|done].
Qed.

Lemma ParseUint_digits (a : ascii) (s : string) (v : Z) :
  strconv.digits_value (String a s) 0 = Some v →
  strconv.ParseUint (String a s) =
    if v <=? strconv.MaxUint64 then (v, None)
    else (strconv.MaxUint64, Some true).
Proof.
  intros Hv. unfold strconv.ParseUint.
  destruct (Z.leb_spec v strconv.MaxUint64).
  - now apply ParseUint_loop_fits.
  - apply (ParseUint_loop_overflows _ _ v); [|done|done].
    unfold strconv.MaxUint64. lia.
Qed.

(** What [ParseInt] returns on the decimal form of any integer: the integer
    itself when it is an int64, the nearest bound and a range error when it
    is not. *)
Lemma ParseInt2_FormatInt (z : Z) :
  strconv.ParseInt2 (strconv.FormatInt z) =
    if z <? strconv.MinInt64 then
      (strconv.MinInt64,
       Some (NumError "ParseInt" (strconv.FormatInt z) true))
    else if strconv.MaxInt64 <? z then
      (strconv.MaxInt64,
       Some (NumError "ParseInt" (strconv.FormatInt z) true))
    else (z, None).
Proof.
  destruct z as [|p|p].
  - reflexivity.
  - change (Z.pos p <? strconv.MinInt64) with false. cbv iota.
    unfold strconv.FormatInt. cbn [Z.to_int NilZero.string_of_int].
    destruct (numeral_of_positive p) as (a & s & k & -> & Hk & Hv).
    destruct (digit_not_sign a k Hk) as [Hm Hp].
    unfold strconv.ParseInt2. rewrite Hm, Hp, (ParseUint_digits a s _ Hv).
    change (2 ^ 63) with 9223372036854775808.
    unfold strconv.MaxUint64, strconv.MaxInt64.
    destruct (Z.leb_spec (Z.pos p) 18446744073709551615); cbv iota;
      cbn [negb andb];
      destruct (Z.ltb_spec 9223372036854775807 (Z.pos p)); try lia.
    + destruct (Z.leb_spec 9223372036854775808 (Z.pos p)); [reflexivity|lia].
    + destruct (Z.leb_spec 9223372036854775808 (Z.pos p)); [lia|reflexivity].
    + reflexivity.
  - change (strconv.MaxInt64 <? Z.neg p) with false.
    unfold strconv.FormatInt. cbn [Z.to_int NilZero.string_of_int].
    destruct (numeral_of_positive p) as (a & s & k & -> & Hk & Hv).
    unfold strconv.ParseInt2. cbn [Ascii.eqb Bool.eqb]. cbv iota.
    rewrite (ParseUint_digits a s _ Hv).
    change (2 ^ 63) with 9223372036854775808.
    unfold strconv.MaxUint64, strconv.MinInt64.
    destruct (Z.leb_spec (Z.pos p) 18446744073709551615); cbv iota;
      cbn [negb andb];
      destruct (Z.ltb_spec (Z.neg p) (-9223372036854775808)); try lia.
    + destruct (Z.ltb_spec 9223372036854775808 (Z.pos p)); [reflexivity|lia].
    + destruct (Z.ltb_spec 9223372036854775808 (Z.pos p)); [lia|reflexivity].
    + reflexivity.
Qed.

(** The range error comes first: once a run of digits has overflowed a
    uint64, the bytes after it are not read. *)
Lemma ParseUint_loop_overflows_app (s rest : string) (n v : Z) :
  0 ≤ n ≤ strconv.MaxUint64 → strconv.digits_value s n = Some v →
  strconv.MaxUint64 < v →
  strconv.ParseUint_loop (s +:+ rest) n = (strconv.MaxUint64, Some true).
Proof.
  revert n. induction s as [|c s IH]; intros n Hn Hv Hlt.
  - cbn [strconv.digits_value] in Hv. injection Hv as ->. lia.
  - change (String c s +:+ rest) with (String c (s +:+ rest)).
    cbn [strconv.digits_value strconv.ParseUint_loop] in *.
    destruct (strconv.digit_of c) as [d|] eqn:Ed; [|discriminate].
    destruct (digit_of_bounds c d Ed) as [Hd0 Hd9].
    destruct (_ <=? n); [reflexivity|].
    destruct (Z.ltb_spec strconv.MaxUint64 (n * 10 + d)); [reflexivity|].
    apply IH; [lia|done|done].
Qed.

Lemma ParseInt2_overflow_then_any (a : ascii) (ds rest : string) (n : Z) :
  strconv.digits_value (String a ds) 0 = Some n → strconv.MaxUint64 < n →
  strconv.ParseInt2 (String a ds +:+ rest) =
    (strconv.MaxInt64,
     Some (NumError "ParseInt" (String a ds +:+ rest) true)).
Proof.
  intros Hv Hlt.
  assert (∃ k, strconv.digit_of a = Some k) as [k Hk].
  { cbn [strconv.digits_value] in Hv.
    destruct (strconv.digit_of a); [eauto|discriminate]. }
  destruct (digit_not_sign a k Hk) as [Hm Hp].
  change (String a ds +:+ rest) with (String a (ds +:+ rest)) in *.
  unfold strconv.ParseInt2, strconv.ParseUint.
  rewrite Hm, Hp.
  pose proof (ParseUint_loop_overflows_app (String a ds) rest 0 n) as Hu.
  change (String a ds +:+ rest) with (String a (ds +:+ rest)) in Hu.
  rewrite Hu; [reflexivity|unfold strconv.MaxUint64; lia|done|done].
Qed.

Lemma ParseInt_FormatInt (z : Z) :
  strconv.MinInt64 ≤ z ≤ strconv.MaxInt64 →
  strconv.ParseInt (strconv.FormatInt z) = Ok z.
Proof.
  intros [H1 H2]. unfold strconv.ParseInt. rewrite ParseInt2_FormatInt.
  destruct (Z.ltb_spec z strconv.MinInt64); [lia|].
  destruct (Z.ltb_spec strconv.MaxInt64 z); [lia|]. reflexivity.
Qed.

End NumeralFacts.

(** ** More on the trade decoder *)

Section MoreTradeFacts.
Context `{RT : Runtime}.
Import handlers.

(** X8.  Identifiers are read back as written.  An order id in tag 37, or a
    trade id in tag 1003 (or in tag 571 when 1003 is absent), written as
    the decimal form of an int64 is decoded to that int64. *)
Theorem identifiers_round_trip (msg : Message) (z : Z) :
  strconv.MinInt64 ≤ z ≤ strconv.MaxInt64 →
  getOrderID (Body_Set msg tagOrderID (strconv.FormatInt z)) = Ok z
  ∧ getTradeID (Body_Set msg 1003 (strconv.FormatInt z)) = Ok z
  ∧ (Body msg !! 1003 = None →
     getTradeID (Body_Set msg 571 (strconv.FormatInt z)) = Ok z).
Proof.
  intros Hz. pose proof (ParseInt_FormatInt z Hz) as HP.
  split; [|split].
  - unfold getOrderID, Has, Get_string, GetField.
    rewrite Body_Set_lookup_eq. cbn. exact HP.
  - unfold getTradeID, Has, GetString, GetField.
    rewrite Body_Set_lookup_eq. cbn. exact HP.
  - intros Habs. unfold getTradeID, Has, GetString, GetField.
    frame_lookups. rewrite Habs, Body_Set_lookup_eq. cbn. exact HP.
Qed.


Lemma Trade_eta (t : Trade) :
  with_venue_fields t (BuyerOrderID t) (SellerOrderID t) (IsBuyerMaker t) = t.
Proof. now destruct t. Qed.

(** X9.  The venue tags never decide whether a trade decodes.  Writing any
    value into tag 6010 leaves an error an error and a Trade a Trade, and
    changes the buyer order id only: it becomes what [ParseInt] returns
    beside its error, that is the number for the decimal form of an int64,
    the nearest int64 bound for a numeral out of range, and in every case
    no error is reported.  Likewise 6011 for the seller order id, and
    6012 for the maker flag, set exactly by "true", "Y" and "1".  A
    numeral beyond a uint64 gives the upper int64 bound whatever bytes
    follow it, since [ParseInt] reports the overflow where it happens. *)
Theorem DecodeTradeMessage_venue_tags (msg : Message) (v : string) :
  DecodeTradeMessage (Body_Set msg 6010 v) =
    (t ← DecodeTradeMessage msg;
     Ok (with_venue_fields t (strconv.ParseInt2 v).1 (SellerOrderID t)
           (IsBuyerMaker t)))
  ∧ DecodeTradeMessage (Body_Set msg 6011 v) =
    (t ← DecodeTradeMessage msg;
     Ok (with_venue_fields t (BuyerOrderID t) (strconv.ParseInt2 v).1
           (IsBuyerMaker t)))
  ∧ DecodeTradeMessage (Body_Set msg 6012 v) =
    (t ← DecodeTradeMessage msg;
     Ok (with_venue_fields t (BuyerOrderID t) (SellerOrderID t)
           (bool_decide (v = "true") || bool_decide (v = "Y")
            || bool_decide (v = "1"))))
  ∧ (∀ z : Z,
       (strconv.ParseInt2 (strconv.FormatInt z)).1 =
       Z.max strconv.MinInt64 (Z.min strconv.MaxInt64 z))
  ∧ (∀ t : Trade, DecodeTradeMessage msg = Ok t →
       (Body msg !! 6010 = None → BuyerOrderID t = 0)
       ∧ (Body msg !! 6011 = None → SellerOrderID t = 0)
       ∧ (Body msg !! 6012 = None → IsBuyerMaker t = false))
  ∧ (∀ (a : ascii) (ds rest : string) (n : Z),
       strconv.digits_value (String a ds) 0 = Some n →
       strconv.MaxUint64 < n →
       (strconv.ParseInt2 (String a ds +:+ rest)).1 = strconv.MaxInt64).
Proof.
  assert (Hframe : ∀ tag, tag = 6010 ∨ tag = 6011 ∨ tag = 6012 →
    let m' := Body_Set msg tag v in
    getTradeSymbol m' = getTradeSymbol msg
    ∧ getTradeID m' = getTradeID msg
    ∧ getTradePrice m' = getTradePrice msg
    ∧ getTradeQuantity m' = getTradeQuantity msg
    ∧ getTradeTime m' = getTradeTime msg).
  { intros tag Htag m'. subst m'.
    unfold getTradeSymbol, getTradeID, getTradePrice, getTradeQuantity,
      getTradeTime, Has, Get_string, Get_decimal, Get_time, GetString,
      GetField.
    destruct Htag as [->|[->| ->]]; repeat split; now frame_lookups. }
  split; [|split; [|split; [|split; [|split]]]].
  - destruct (Hframe 6010) as (E1 & E2 & E3 & E4 & E5); [auto|].
    unfold DecodeTradeMessage. rewrite E1, E2, E3, E4, E5.
    assert (Hb : getBuyerOrderID (Body_Set msg 6010 v) = strconv.ParseInt2 v).
    { unfold getBuyerOrderID, Has, GetString, GetField.
      now rewrite Body_Set_lookup_eq. }
    assert (Hs : getSellerOrderID (Body_Set msg 6010 v) = getSellerOrderID msg).
    { unfold getSellerOrderID, Has, GetString, GetField. now frame_lookups. }
    assert (Hm : getIsBuyerMaker (Body_Set msg 6010 v) = getIsBuyerMaker msg).
    { unfold getIsBuyerMaker, Has, GetString, GetField. now frame_lookups. }
    rewrite Hb, Hs, Hm.
    destruct (getTradeSymbol msg), (getTradeID msg), (getTradePrice msg),
      (getTradeQuantity msg), (getTradeTime msg); reflexivity.
  - destruct (Hframe 6011) as (E1 & E2 & E3 & E4 & E5); [auto|].
    unfold DecodeTradeMessage. rewrite E1, E2, E3, E4, E5.
    assert (Hb : getBuyerOrderID (Body_Set msg 6011 v) = getBuyerOrderID msg).
    { unfold getBuyerOrderID, Has, GetString, GetField. now frame_lookups. }
    assert (Hs : getSellerOrderID (Body_Set msg 6011 v) = strconv.ParseInt2 v).
    { unfold getSellerOrderID, Has, GetString, GetField.
      now rewrite Body_Set_lookup_eq. }
    assert (Hm : getIsBuyerMaker (Body_Set msg 6011 v) = getIsBuyerMaker msg).
    { unfold getIsBuyerMaker, Has, GetString, GetField. now frame_lookups. }
    rewrite Hb, Hs, Hm.
    destruct (getTradeSymbol msg), (getTradeID msg), (getTradePrice msg),
      (getTradeQuantity msg), (getTradeTime msg); reflexivity.
  - destruct (Hframe 6012) as (E1 & E2 & E3 & E4 & E5); [auto|].
    unfold DecodeTradeMessage. rewrite E1, E2, E3, E4, E5.
    assert (Hb : getBuyerOrderID (Body_Set msg 6012 v) = getBuyerOrderID msg).
    { unfold getBuyerOrderID, Has, GetString, GetField. now frame_lookups. }
    assert (Hs : getSellerOrderID (Body_Set msg 6012 v) = getSellerOrderID msg).
    { unfold getSellerOrderID, Has, GetString, GetField. now frame_lookups. }
    assert (Hm : getIsBuyerMaker (Body_Set msg 6012 v) =
                 (bool_decide (v = "true") || bool_decide (v = "Y")
                  || bool_decide (v = "1"), None)).
    { unfold getIsBuyerMaker, Has, GetString, GetField.
      now rewrite Body_Set_lookup_eq. }
    rewrite Hb, Hs, Hm.
    destruct (getTradeSymbol msg), (getTradeID msg), (getTradePrice msg),
      (getTradeQuantity msg), (getTradeTime msg); reflexivity.
  - intros z. rewrite ParseInt2_FormatInt. unfold strconv.MinInt64, strconv.MaxInt64.
    destruct (Z.ltb_spec z (-9223372036854775808)); [simpl; lia|].
    destruct (Z.ltb_spec 9223372036854775807 z); simpl; lia.
  - intros t Ht. unfold DecodeTradeMessage in Ht.
    repeat (apply bind_Ok_inv in Ht; destruct Ht as (? & _ & Ht)).
    injection Ht as <-. cbn [BuyerOrderID SellerOrderID IsBuyerMaker].
    unfold getBuyerOrderID, getSellerOrderID, getIsBuyerMaker, Has.
    repeat split; intros ->; reflexivity.
  - intros a ds rest n Hv Hlt.
    now rewrite (ParseInt2_overflow_then_any a ds rest n Hv Hlt).
Qed.

End MoreTradeFacts.

(** ** The trade stream handler *)

Section HandlerFacts.
Context `{RT : Runtime} {TradeCallback : Type}.
Import handlers.
Implicit Types (h : TradeStreamHandler TradeCallback).

Lemma HandleTradeMessage_decoded h (msg : Message) (t : Trade) :
  DecodeTradeMessage msg = Ok t →
  HandleTradeMessage h msg =
    (None,
     map (λ callback, (callback, t))
         (default [] (subscriptions h !! Trade_Symbol t))).
Proof.
  intros Ht. unfold HandleTradeMessage. rewrite Ht.
  now destruct (subscriptions h !! Trade_Symbol t).
Qed.

(** X10.  A callback subscribed for a symbol is started for every later trade
    of that symbol, after the callbacks subscribed before it and as many
    times as it was subscribed; trades of other symbols are handled as
    before. *)
Theorem Subscribe_then_HandleTradeMessage h (symbol : string)
    (callback : TradeCallback) (msg : Message) (t : Trade) :
  DecodeTradeMessage msg = Ok t →
  HandleTradeMessage (Subscribe h symbol callback) msg =
    if decide (Trade_Symbol t = symbol) then
      (None,
       (HandleTradeMessage h msg).2 ++ [(callback, t)])
    else HandleTradeMessage h msg.
Proof.
  intros Ht. rewrite !(HandleTradeMessage_decoded _ msg t Ht).
  unfold Subscribe. cbn [subscriptions snd].
  case_decide as Hs.
  - subst symbol. rewrite lookup_insert_eq. cbn [default id].
    now rewrite List.map_app.
  - now rewrite lookup_insert_ne by congruence.
Qed.

(** X11.  [Unsubscribe] removes every callback of the symbol and nothing
    else: a later trade of the symbol starts no callback and is no error,
    trades of other symbols are handled as before, unsubscribing a symbol
    that has no callback changes nothing, and unsubscribing after a
    subscription restores a handler that had none for the symbol. *)
Theorem Unsubscribe_then_HandleTradeMessage h (symbol : string)
    (callback : TradeCallback) (msg : Message) (t : Trade) :
  DecodeTradeMessage msg = Ok t →
  HandleTradeMessage (Unsubscribe h symbol) msg =
    (if decide (Trade_Symbol t = symbol) then (None, [])
     else HandleTradeMessage h msg)
  ∧ (subscriptions h !! symbol = None → Unsubscribe h symbol = h)
  ∧ (subscriptions h !! symbol = None →
     Unsubscribe (Subscribe h symbol callback) symbol = h)
  ∧ Unsubscribe (Subscribe h symbol callback) symbol = Unsubscribe h symbol.
Proof.
  intros Ht. split; [|split; [|split]].
  - rewrite !(HandleTradeMessage_decoded _ msg t Ht).
    unfold Unsubscribe. cbn [subscriptions].
    case_decide as Hs.
    + subst symbol. now rewrite lookup_delete_eq.
    + now rewrite lookup_delete_ne by congruence.
  - intros Hn. unfold Unsubscribe. rewrite (delete_id _ _ Hn). now destruct h.
  - intros Hn. unfold Unsubscribe, Subscribe. cbn [subscriptions].
    rewrite delete_insert_eq, (delete_id _ _ Hn). now destruct h.
  - unfold Unsubscribe, Subscribe. cbn [subscriptions].
    now rewrite delete_insert_eq.
Qed.

(** X12.  What [HandleTradeMessage] starts and what it reports.  A callback
    is started with a trade exactly when the message decodes to that trade
    and the callback is subscribed for its symbol; the error reported is
    the decoding error, and a trade nobody subscribed for is not an
    error. *)
Theorem HandleTradeMessage_starts h (msg : Message) :
  (∀ callback t,
     (callback, t) ∈ (HandleTradeMessage h msg).2 ↔
     DecodeTradeMessage msg = Ok t
     ∧ ∃ callbacks, subscriptions h !! Trade_Symbol t = Some callbacks
                    ∧ callback ∈ callbacks)
  ∧ (∀ e, (HandleTradeMessage h msg).1 = Some e ↔
          DecodeTradeMessage msg = Err e)
  ∧ ((HandleTradeMessage h msg).1 = None ↔
     ∃ t, DecodeTradeMessage msg = Ok t).
Proof.
  unfold HandleTradeMessage.
  destruct (DecodeTradeMessage msg) as [t|e] eqn:Ht.
  - destruct (subscriptions h !! Trade_Symbol t) as [cbs|] eqn:Hs;
      cbn [fst snd]; (split; [|split]).
    + intros cb t'. rewrite list_elem_of_fmap. split.
      * intros (c & [= -> ->] & Hc). split; [done|]. eauto.
      * intros ([= <-] & cbs' & Hs' & Hc). exists cb. split; [done|].
        congruence.
    + intros e. split; discriminate.
    + split; eauto.
    + intros cb t'. split; [intros H; now apply elem_of_nil in H|].
      intros ([= <-] & cbs' & Hs' & _). congruence.
    + intros e. split; discriminate.
    + split; eauto.
  - cbn [fst snd]. split; [|split].
    + intros cb t. split; [intros H; now apply elem_of_nil in H|].
      intros (H & _). discriminate.
    + intros e'. split; congruence.
    + split; [discriminate|]. intros (t & H). discriminate.
Qed.

End HandlerFacts.

(** ** More on the client *)

Section MoreClientFacts.
Context `{RT : Runtime}.
Import client.
Variable quickfix_Send : Message → option error.

Lemma Header_Set_lookup (msg : Message) (t t' : Tag) (v : string) :
  Header (Header_Set msg t v) !! t' =
  if decide (t = t') then Some (single t v) else Header msg !! t'.
Proof. unfold Header_Set, Set_, single. cbn [Header]. apply lookup_insert. Qed.

(** X13.  The common headers are the client's, not the caller's.  After
    [addCommonHeaders] the header holds the client's begin string (8),
    target (56) and sender (49) and the sending time (52), whatever the
    caller had put there; every other header tag and the whole body are as
    they were; and stamping a message that was stamped before gives the
    same message as stamping it once. *)
Theorem addCommonHeaders_stamps (c c' : Client) (now now' : Time)
    (msg : Message) :
  let m := addCommonHeaders c now msg in
  Header m !! tagBeginString = Some (single tagBeginString (beginString c))
  ∧ Header m !! tagTargetCompID
    = Some (single tagTargetCompID (targetCompID c))
  ∧ Header m !! tagSenderCompID
    = Some (single tagSenderCompID (senderCompID c))
  ∧ Header m !! tagSendingTime
    = Some (single tagSendingTime (FIXUTCTimestamp_Write now))
  ∧ (∀ t, t ∉ [tagBeginString; tagTargetCompID; tagSenderCompID;
               tagSendingTime] →
          Header m !! t = Header msg !! t)
  ∧ Body m = Body msg
  ∧ addCommonHeaders c now (addCommonHeaders c' now' msg) = m.
Proof.
  cbv zeta. unfold addCommonHeaders.
  repeat split; try (rewrite !Header_Set_lookup; reflexivity).
  - intros t Ht. rewrite !Header_Set_lookup.
    repeat (case_decide; [subst t; exfalso; apply Ht;
                          rewrite !elem_of_cons; tauto|]).
    reflexivity.
  - unfold Header_Set. cbn [Header Body]. f_equal.
    apply map_eq. intros t. unfold Set_.
    rewrite !lookup_insert. repeat case_decide; reflexivity.
Qed.

(** X14.  A successful [send] registers exactly one call.  On an authorized
    connection whose engine takes the message, the waiter returned holds a
    call with the stamped request, no response yet and an empty one-slot
    channel; that call is what the pending map holds under id, every other
    id is as before, the wire has grown by the stamped request, and waiting
    on it with a context that is not done blocks. *)
Theorem send_registers_call (now : Time) (id : string) (msg : Message)
    (s : State) :
  isConnected (the_client s) = true →
  quickfix_Send (addCommonHeaders (the_client s) now msg) = None →
  let cc := {| request := addCommonHeaders (the_client s) now msg;
               response := None; done := make_chan 1 |} in
  let r := send quickfix_Send now id msg s in
  r.1 = Ok {| waiter_call := cc |}
  ∧ pending (the_client r.2) !! id = Some cc
  ∧ (∀ id', id' ≠ id →
       pending (the_client r.2) !! id' = pending (the_client s) !! id')
  ∧ wire r.2 = wire s ++ [request cc]
  ∧ isConnected (the_client r.2) = true
  ∧ emitter (the_client r.2) = emitter (the_client s)
  ∧ wait {| waiter_call := cc |} {| ctx_Err := None |} = [].
Proof.
  intros Hc Hs. cbv zeta. unfold send. rewrite Hc. cbn [negb].
  cbv zeta. rewrite Hs. cbn [fst snd the_client wire with_pending pending
    isConnected emitter].
  repeat split; try assumption.
  - apply lookup_insert_eq.
  - intros id' Hne. now apply lookup_insert_ne.
Qed.

(** X15.  [Call] in its four cases.  On a connection that is not authorized
    it returns the connection-closed error at once and changes nothing.
    When the transmission fails it returns that error and leaves no entry
    under id.  When the message is sent and the context is already done it
    returns the error of the context, and the call stays registered under
    id: nothing removes it.  When the message is sent and the context is
    not done it blocks until something else resolves the call. *)
Theorem Call_outcomes (now : Time) (ctx : Context_) (id : string)
    (msg : Message) (s : State) :
  let m := addCommonHeaders (the_client s) now msg in
  let cc := {| request := m; response := None; done := make_chan 1 |} in
  let registered :=
    {| the_client :=
         with_pending (the_client s) (<[id := cc]> (pending (the_client s)));
       wire := wire s ++ [m] |} in
  (isConnected (the_client s) = false →
     Call quickfix_Send now ctx id msg s = [(Err ErrClosed, s)])
  ∧ (∀ e, isConnected (the_client s) = true → quickfix_Send m = Some e →
       Call quickfix_Send now ctx id msg s =
         [(Err e,
           {| the_client :=
                with_pending (the_client s)
                  (delete id (pending (the_client s)));
              wire := wire s |})])
  ∧ (∀ e, isConnected (the_client s) = true → quickfix_Send m = None →
       ctx_Err ctx = Some e →
       Call quickfix_Send now ctx id msg s = [(Err e, registered)]
       ∧ pending (the_client registered) !! id = Some cc)
  ∧ (isConnected (the_client s) = true → quickfix_Send m = None →
       ctx_Err ctx = None →
       Call quickfix_Send now ctx id msg s = []).
Proof.
  cbv zeta. unfold Call. split; [|split; [|split]].
  - intros Hc. now rewrite (send_not_connected quickfix_Send now id msg s Hc).
  - intros e Hc He.
    now rewrite (send_transmission_failed quickfix_Send now id msg s e Hc He).
  - intros e Hc Hs Hx. split; [|apply lookup_insert_eq].
    unfold send. rewrite Hc. cbn [negb]. cbv zeta. rewrite Hs.
    unfold wait. cbn. rewrite Hx. cbn.
    unfold with_pending. cbn. now rewrite insert_insert_eq.
  - intros Hc Hs Hx. unfold send. rewrite Hc. cbn [negb]. cbv zeta.
    rewrite Hs. unfold wait. cbn. now rewrite Hx.
Qed.

(** X16.  The gate of [SendWithoutResponse].  It hands a message to the
    engine only on an authorized connection: otherwise the result is the
    connection-closed error and nothing is sent.  What the engine refuses
    is not sent either and its error is returned; what it takes is sent
    once, stamped with the client's identity. *)
Theorem SendWithoutResponse_gate (now : Time) (msg : Message) (s : State) :
  let m := addCommonHeaders (the_client s) now msg in
  (isConnected (the_client s) = false →
     SendWithoutResponse quickfix_Send now msg s = (Some ErrClosed, s))
  ∧ (∀ e, isConnected (the_client s) = true → quickfix_Send m = Some e →
       SendWithoutResponse quickfix_Send now msg s = (Some e, s))
  ∧ (isConnected (the_client s) = true → quickfix_Send m = None →
       SendWithoutResponse quickfix_Send now msg s =
         (None, {| the_client := the_client s; wire := wire s ++ [m] |})
       ∧ Header m !! tagSenderCompID
         = Some (single tagSenderCompID (senderCompID (the_client s)))
       ∧ Body m = Body msg).
Proof.
  cbv zeta. unfold SendWithoutResponse. split; [|split].
  - intros Hc. now rewrite Hc.
  - intros e Hc He. now rewrite Hc, He.
  - intros Hc Hs. rewrite Hc, Hs. split; [reflexivity|]. split; [|reflexivity].
    unfold addCommonHeaders. now rewrite !Header_Set_lookup.
Qed.

End MoreClientFacts.

(** ** More on waiting *)

Section MoreWaitFacts.
Import client.


(** X17.  When [wait] blocks.  The [select] has no ready case exactly when
    nothing is buffered in the call's channel, the channel is open and the
    context is not done. *)
Theorem wait_blocks_iff (w : waiter) (ctx : Context_) :
  wait w ctx = [] ↔
  buffer (done (waiter_call w)) = []
  ∧ closed (done (waiter_call w)) = false
  ∧ ctx_Err ctx = None.
Proof.
  unfold wait, chan_recv.
  destruct (buffer (done (waiter_call w))) as [|v rest];
    destruct (closed (done (waiter_call w)));
    destruct (ctx_Err ctx) as [e|]; try destruct v; cbn;
    split; try discriminate; try tauto;
    intros (H1 & H2 & H3); discriminate.
Qed.

(** X18.  What [wait] delivers while the context is not done.  A buffered
    nil gives the response of the call, a buffered error gives that error,
    and either is taken out of the channel, so that on the one-slot channel
    of [send] a second wait blocks: a resolution is delivered once.  A
    channel closed with nothing buffered gives the connection-closed
    error, every time. *)
Theorem wait_delivers_once (w : waiter) (ctx : Context_) :
  ctx_Err ctx = None →
  (∀ rest, buffer (done (waiter_call w)) = None :: rest →
     wait w ctx =
       [(Ok (response (waiter_call w)), received (waiter_call w) rest)])
  ∧ (∀ e rest, buffer (done (waiter_call w)) = Some e :: rest →
       wait w ctx = [(Err e, received (waiter_call w) rest)])
  ∧ (∀ v, buffer (done (waiter_call w)) = [v] →
       closed (done (waiter_call w)) = false →
       wait {| waiter_call := received (waiter_call w) [] |} ctx = [])
  ∧ (buffer (done (waiter_call w)) = [] →
     closed (done (waiter_call w)) = true →
     wait w ctx = [(Err ErrClosed, waiter_call w)]).
Proof.
  intros Hx. unfold wait, chan_recv, received. repeat split.
  - intros rest Hb. now rewrite Hb, Hx.
  - intros e rest Hb. now rewrite Hb, Hx.
  - intros v Hb Hc. cbn. now rewrite Hc, Hx.
  - intros Hb Hc. rewrite Hb, Hc, Hx. now destruct w as [[? ? ?]].
Qed.

(** X19.  A response that has arrived can still lose against the context.
    When a value is buffered and the context is done, the [select] has two
    ready cases and [wait] may return either: the buffered outcome, or the
    error of the context with the value left in the channel. *)
Theorem wait_race (w : waiter) (ctx : Context_) (v : option error)
    (rest : list (option error)) (e : error) :
  buffer (done (waiter_call w)) = v :: rest →
  ctx_Err ctx = Some e →
  wait w ctx =
    [(match v with
      | None => Ok (response (waiter_call w))
      | Some err => Err err
      end, received (waiter_call w) rest);
     (Err e, waiter_call w)].
Proof.
  intros Hb Hx. unfold wait, chan_recv, received. rewrite Hb, Hx.
  now destruct v.
Qed.

End MoreWaitFacts.

(** ** More on the market-data requests *)

Section RequestFacts.
Import client.

Lemma SetGroup_lookup_ne (m : FieldMap) (rg : RepeatingGroup) (t : Tag) :
  rg_tag rg ≠ t → SetGroup m rg !! t = m !! t.
Proof. intros H. unfold SetGroup. now apply lookup_insert_ne. Qed.

Lemma add_symbols_tag (symbols : list string) (rg : RepeatingGroup) :
  rg_tag (add_symbols rg symbols) = rg_tag rg.
Proof. now rewrite add_symbols_groups. Qed.

Lemma subscribeRequest_lookup (nano : Z) (symbols : list string) (t : Tag) :
  t ≠ tagNoRelatedSym → t ≠ tagNoMDEntryTypes →
  Body (subscribeRequest nano symbols) !! t =
  (<[tagMarketDepth := single tagMarketDepth "1"]>
    (<[tagSubscriptionRequestType := single tagSubscriptionRequestType "1"]>
      (<[tagMDReqID :=
           single tagMDReqID ("MDR_" +:+ strconv.FormatInt nano)]>
        (∅ : FieldMap)))) !! t.
Proof.
  intros H1 H2. unfold subscribeRequest.
  cbn [Add NewRepeatingGroup groups fst snd].
  unfold Body_SetGroup. cbn [Body].
  rewrite SetGroup_lookup_ne by (cbn; congruence).
  rewrite SetGroup_lookup_ne by (rewrite add_symbols_tag; cbn; congruence).
  reflexivity.
Qed.

Lemma unsubscribeRequest_lookup (nano : Z) (symbols : list string)
    (t : Tag) :
  t ≠ tagNoRelatedSym →
  Body (unsubscribeRequest nano symbols) !! t =
  (<[tagSubscriptionRequestType := single tagSubscriptionRequestType "2"]>
    (<[tagMDReqID :=
         single tagMDReqID ("MDR_UNSUB_" +:+ strconv.FormatInt nano)]>
      (∅ : FieldMap))) !! t.
Proof.
  intros H1. unfold unsubscribeRequest.
  unfold Body_SetGroup. cbn [Body].
  rewrite SetGroup_lookup_ne by (rewrite add_symbols_tag; cbn; congruence).
  reflexivity.
Qed.

(** X20.  The fixed part of the two requests, for every list of symbols.
    Both are market-data requests (35 = V) that carry the request id under
    tag 262 and the same symbol group under tag 146.  The subscribe request
    asks for snapshot plus updates (263 = 1) at depth 1 (264 = 1) and for
    trade entries only (267 counts one entry, 269 = 2); the unsubscribe
    request disables (263 = 2) and carries neither depth nor entry
    types. *)
Theorem market_data_requests_shape (nano : Z) (symbols : list string) :
  let sub := subscribeRequest nano symbols in
  let unsub := unsubscribeRequest nano symbols in
  Header sub !! tagMsgType = Some (single tagMsgType "V")
  ∧ Header unsub !! tagMsgType = Some (single tagMsgType "V")
  ∧ Body sub !! tagMDReqID
    = Some (single tagMDReqID ("MDR_" +:+ strconv.FormatInt nano))
  ∧ Body unsub !! tagMDReqID
    = Some (single tagMDReqID ("MDR_UNSUB_" +:+ strconv.FormatInt nano))
  ∧ Body sub !! tagSubscriptionRequestType
    = Some (single tagSubscriptionRequestType "1")
  ∧ Body unsub !! tagSubscriptionRequestType
    = Some (single tagSubscriptionRequestType "2")
  ∧ Body sub !! tagMarketDepth = Some (single tagMarketDepth "1")
  ∧ Body unsub !! tagMarketDepth = None
  ∧ Body sub !! tagNoMDEntryTypes
    = Some ({| tv_tag := tagNoMDEntryTypes; tv_value := "1" |},
            [{| tv_tag := tagMDEntryType; tv_value := "2" |}])
  ∧ Body unsub !! tagNoMDEntryTypes = None
  ∧ Body sub !! tagNoRelatedSym = Body unsub !! tagNoRelatedSym.
Proof.
  cbv zeta. repeat split.
  - now rewrite subscribeRequest_lookup.
  - now rewrite unsubscribeRequest_lookup.
  - now rewrite subscribeRequest_lookup.
  - now rewrite unsubscribeRequest_lookup.
  - now rewrite subscribeRequest_lookup.
  - now rewrite unsubscribeRequest_lookup.
  - unfold subscribeRequest. cbn [Add NewRepeatingGroup groups fst snd].
    unfold Body_SetGroup at 1. cbn [Body]. unfold SetGroup at 1.
    cbn [rg_tag Group_Set]. rewrite lookup_insert_eq. reflexivity.
  - now rewrite unsubscribeRequest_lookup.
  - now rewrite subscribeRequest_symbol_group,
      unsubscribeRequest_symbol_group.
Qed.

Lemma FormatInt_head (z : Z) :
  ∃ a s, strconv.FormatInt z = String a s
         ∧ (a = "-"%char ∨ ∃ k, strconv.digit_of a = Some k).
Proof.
  destruct z as [|p|p]; unfold strconv.FormatInt;
    cbn [Z.to_int NilZero.string_of_int].
  - exists "0"%char, EmptyString. split; [reflexivity|]. right. now exists 0.
  - destruct (numeral_of_positive p) as (a & s & k & -> & Hk & _). eauto 6.
  - eauto.
Qed.

Lemma FormatInt_inj (z1 z2 : Z) :
  strconv.MinInt64 ≤ z1 ≤ strconv.MaxInt64 →
  strconv.MinInt64 ≤ z2 ≤ strconv.MaxInt64 →
  strconv.FormatInt z1 = strconv.FormatInt z2 → z1 = z2.
Proof.
  intros H1 H2 E.
  pose proof (ParseInt_FormatInt z1 H1) as P1.
  pose proof (ParseInt_FormatInt z2 H2) as P2.
  rewrite E in P1. congruence.
Qed.

Lemma subscribe_id_not_unsubscribe_id (n1 n2 : Z) :
  "MDR_" +:+ strconv.FormatInt n1 ≠ "MDR_UNSUB_" +:+ strconv.FormatInt n2.
Proof.
  destruct (FormatInt_head n1) as (a & s & E1 & Ha). rewrite E1. cbn.
  intros [= -> _]. destruct Ha as [Ha|(k & Hk)]; discriminate.
Qed.

Lemma subscribeRequest_id (nano : Z) (symbols : list string) :
  Body (subscribeRequest nano symbols) !! tagMDReqID =
  Some (single tagMDReqID ("MDR_" +:+ strconv.FormatInt nano)).
Proof. now rewrite subscribeRequest_lookup. Qed.

Lemma unsubscribeRequest_id (nano : Z) (symbols : list string) :
  Body (unsubscribeRequest nano symbols) !! tagMDReqID =
  Some (single tagMDReqID ("MDR_UNSUB_" +:+ strconv.FormatInt nano)).
Proof. now rewrite unsubscribeRequest_lookup. Qed.

Lemma String_append_inj (p a b : string) : p +:+ a = p +:+ b → a = b.
Proof.
  induction p as [|c p IH]; cbn; [done|]. intros [= E]. now apply IH.
Qed.

(** X21.  Request ids tell requests apart.  Two subscribe requests (or two
    unsubscribe requests) built at different clock readings carry
    different ids under tag 262, and a subscribe request never carries the
    id of an unsubscribe request. *)
Theorem request_ids_distinct (n1 n2 : Z) (l1 l2 : list string) :
  strconv.MinInt64 ≤ n1 ≤ strconv.MaxInt64 →
  strconv.MinInt64 ≤ n2 ≤ strconv.MaxInt64 →
  (Body (subscribeRequest n1 l1) !! tagMDReqID
   = Body (subscribeRequest n2 l2) !! tagMDReqID → n1 = n2)
  ∧ (Body (unsubscribeRequest n1 l1) !! tagMDReqID
     = Body (unsubscribeRequest n2 l2) !! tagMDReqID → n1 = n2)
  ∧ Body (subscribeRequest n1 l1) !! tagMDReqID
    ≠ Body (unsubscribeRequest n2 l2) !! tagMDReqID.
Proof.
  intros H1 H2. rewrite !subscribeRequest_id, !unsubscribeRequest_id.
  unfold single. repeat split.
  - intros E. apply FormatInt_inj; [done|done|].
    apply (String_append_inj "MDR_"). congruence.
  - intros E. apply FormatInt_inj; [done|done|].
    apply (String_append_inj "MDR_UNSUB_"). congruence.
  - intros E. apply (subscribe_id_not_unsubscribe_id n1 n2). congruence.
Qed.

(** X22.  The unsubscribe request names its symbols as the subscribe request
    does.  For a list of symbols (of a length a Go int can hold), reading
    the symbol group back from the unsubscribe request gives the list, in
    order. *)
Theorem UnsubscribeFromTrades_symbols_round_trip (nano : Z)
    (symbols : list string) :
  Z.of_nat (length symbols) ≤ strconv.MaxInt64 →
  readSymbolGroup (Body (unsubscribeRequest nano symbols)) = Ok symbols.
Proof.
  intros Hlen. apply readSymbolGroup_written; [exact Hlen|].
  apply unsubscribeRequest_symbol_group.
Qed.

End RequestFacts.

(** ** Publishing decoded messages *)

Section PublishFacts.
Context `{RT : Runtime}.
Import handlers client.
Variable ExecutionReportTopic : string.
Variable TradeStreamTopic : string.

Lemma rejected_with_reason_is_error (msg : Message) (f : field) :
  getOrderStatus msg = Ok OrderStatusRejected →
  Body msg !! tagText = Some f →
  tv_value f.1 ≠ "" →
  DecodeExecutionReport msg = Err (errors_New (tv_value f.1)).
Proof.
  intros Hstatus Htext Hne. unfold DecodeExecutionReport. rewrite Hstatus.
  bind_step. rewrite decide_True by reflexivity.
  rewrite (getText_present msg f Htext).
  bind_step. now rewrite decide_False by exact Hne.
Qed.

(** X23.  [handleSubscriptions] publishes what decodes and drops the rest
    without a trace.  An execution report (35 = 8) is published on the
    execution-report topic exactly when it decodes, with the decoded
    Order; a market-data refresh (35 = W or X) on the trade topic exactly
    when it decodes, with the decoded Trade; any other message type
    publishes nothing; and a Rejected execution report that carries a
    reason publishes nothing, so no subscriber sees the rejection. *)
Theorem handleSubscriptions_publishes (msgType : string) (msg : Message) :
  let out :=
    handleSubscriptions ExecutionReportTopic TradeStreamTopic msgType msg in
  (∀ t o, out = Some (EmitOrder t o) ↔
     msgType = "8" ∧ t = ExecutionReportTopic
     ∧ DecodeExecutionReport msg = Ok o)
  ∧ (∀ t tr, out = Some (EmitTrade t tr) ↔
       (msgType = "W" ∨ msgType = "X") ∧ t = TradeStreamTopic
       ∧ DecodeTradeMessage msg = Ok tr)
  ∧ (msgType ≠ "8" → msgType ≠ "W" → msgType ≠ "X" → out = None)
  ∧ (∀ f, msgType = "8" →
       getOrderStatus msg = Ok OrderStatusRejected →
       Body msg !! tagText = Some f → tv_value f.1 ≠ "" →
       out = None).
Proof.
  cbv zeta.
  destruct (decide (msgType = "8")) as [->|H8].
  - assert (E : handleSubscriptions ExecutionReportTopic TradeStreamTopic
                  "8" msg =
                match DecodeExecutionReport msg with
                | Ok o => Some (EmitOrder ExecutionReportTopic o)
                | Err _ => None
                end) by reflexivity.
    rewrite E. clear E. split; [|split; [|split]].
    + intros t o. destruct (DecodeExecutionReport msg) as [o'|e]; split.
      * intros [= <- <-]. auto.
      * intros (_ & -> & [= ->]). reflexivity.
      * discriminate.
      * intros (_ & _ & H). discriminate H.
    + intros t tr. split.
      * destruct (DecodeExecutionReport msg); discriminate.
      * intros ([H|H] & _); discriminate H.
    + intros H. now destruct H.
    + intros f _ Hst Hf Hne.
      now rewrite (rejected_with_reason_is_error msg f Hst Hf Hne).
  - unfold handleSubscriptions.
    change enum.MsgType_EXECUTION_REPORT with "8".
    change enum.MsgType_MARKET_DATA_SNAPSHOT_FULL_REFRESH with "W".
    change enum.MsgType_MARKET_DATA_INCREMENTAL_REFRESH with "X".
    rewrite decide_False by exact H8.
    split; [|split; [|split]].
    + intros t o. split.
      * destruct (_ || _); [|discriminate].
        destruct (DecodeTradeMessage msg); discriminate.
      * intros (H & _). contradiction.
    + intros t tr.
      destruct (bool_decide (msgType = "W") || bool_decide (msgType = "X"))
        eqn:E.
      * apply orb_true_iff in E.
        assert (HWX : msgType = "W" ∨ msgType = "X")
          by (destruct E as [E|E]; apply bool_decide_eq_true in E; auto).
        destruct (DecodeTradeMessage msg) as [tr'|e]; split.
        -- intros [= <- <-]. auto.
        -- intros (_ & -> & [= ->]). reflexivity.
        -- discriminate.
        -- intros (_ & _ & H). discriminate H.
      * apply orb_false_iff in E as [EW EX].
        apply bool_decide_eq_false in EW. apply bool_decide_eq_false in EX.
        split; [discriminate|]. intros ([H|H] & _); contradiction.
    + intros _ HW HX. now rewrite !bool_decide_eq_false_2.
    + intros f H. contradiction.
Qed.

End PublishFacts.

(** ** What the listeners are called with *)

Section ListenerFacts.
Import client.
Variable ToLower : string → string.

Lemma maintenanceListener_event (headline newsText : string) :
  maintenanceListener (args (maintenance_event headline newsText)) =
  Some (headline, newsText).
Proof.
  unfold maintenance_event, maintenanceListener, handlers.index_map.
  cbn [args]. rewrite lookup_insert_eq.
  rewrite lookup_insert_ne by discriminate.
  now rewrite lookup_singleton_eq.
Qed.

(** X24.  What subscribers see of a news message.  A callback registered with
    [SubscribeToMaintenance] is called once, with the headline and the body
    text of the message, when the message matches one of the three keyword
    tests, and not at all otherwise; a callback registered with
    [SubscribeToReconnectNeeded] is called once when in addition the
    sender id contains "BMD", and not at all otherwise. *)
Theorem news_listener_calls (msg : Message) (c : Client) :
  let published :=
    drop (length (emitter c)) (emitter (handleNewsMessage ToLower msg c)) in
  let seen :=
    go_strings.Contains (ToLower (newsHeadline msg)) "maintenance"
    || go_strings.Contains (ToLower (newsBody msg)) "maintenance"
    || go_strings.Contains (ToLower (newsBody msg)) "reconnect" in
  listener_calls "maintenance" maintenanceListener published =
    (if seen then [(newsHeadline msg, newsBody msg)] else [])
  ∧ listener_calls "reconnect_needed" reconnectNeededListener published =
    (if seen && go_strings.Contains (senderCompID c) "BMD"
     then [()] else []).
Proof.
  cbv zeta. rewrite handleNewsMessage_cases. cbv zeta.
  destruct (_ || _).
  - fold (maintenance_event (newsHeadline msg) (newsBody msg)).
    cbn [Emit senderCompID emitter].
    destruct (go_strings.Contains (senderCompID c) "BMD");
      cbn [Emit emitter andb];
      rewrite <- ?app_assoc, drop_app_length;
      unfold listener_calls; cbn [app omap list_omap topic];
      rewrite ?decide_True by reflexivity;
      rewrite ?decide_False by discriminate;
      rewrite ?maintenanceListener_event; split; reflexivity.
  - rewrite drop_all. split; reflexivity.
Qed.

End ListenerFacts.

(** ** Endpoints *)

Section ConfigFacts.
Import config.
Variable Settings : Type.
Variable ParseFailure : Type.
Variable ParseSettings : string → Settings + ParseFailure.

Lemma DefaultEndpoints_lookup (endpoint : string) (cfg : EndpointConfig) :
  DefaultEndpoints !! endpoint = Some cfg →
  (endpoint = OrderEntryEndpoint ∧ SenderCompID cfg = "BOETRADE")
  ∨ (endpoint = MarketDataEndpoint ∧ SenderCompID cfg = "BMDWATCH").
Proof.
  intros E. apply elem_of_list_to_map_2 in E.
  repeat (apply elem_of_cons in E as [E|E]; [injection E as -> ->; auto|]).
  now apply elem_of_nil in E.
Qed.

Lemma DefaultEndpoints_unknown (endpoint : string) :
  endpoint ≠ OrderEntryEndpoint → endpoint ≠ MarketDataEndpoint →
  DefaultEndpoints !! endpoint = None.
Proof.
  intros H1 H2. destruct (DefaultEndpoints !! endpoint) as [cfg|] eqn:E;
    [|reflexivity].
  apply DefaultEndpoints_lookup in E as [[-> _]|[-> _]]; congruence.
Qed.

(** X25.  [GenerateQuickFixSettings] knows two endpoint types.  For any other
    it returns the unknown-endpoint error, which names the type given, and
    never consults the parser; for "OE" and "MD" the outcome is the
    parser's, on a text that does not depend on the API key. *)
Theorem GenerateQuickFixSettings_endpoints (endpoint apiKey : string)
    (enableSSL : bool) :
  (endpoint ≠ "OE" → endpoint ≠ "MD" →
     GenerateQuickFixSettings Settings ParseFailure ParseSettings endpoint
       apiKey enableSSL
     = inr (Errorf ParseFailure ("unknown endpoint type: " +:+ endpoint)))
  ∧ (endpoint = "OE" ∨ endpoint = "MD" →
     ∃ cfg, DefaultEndpoints !! endpoint = Some cfg
       ∧ GenerateQuickFixSettings Settings ParseFailure ParseSettings endpoint
           apiKey enableSSL
         = match ParseSettings (settingsText cfg enableSSL) with
           | inl settings => inl settings
           | inr err => inr (FailedToParse ParseFailure err)
           end).
Proof.
  split.
  - intros H1 H2. unfold GenerateQuickFixSettings.
    now rewrite (DefaultEndpoints_unknown endpoint H1 H2).
  - intros [->| ->]; eexists; (split; [reflexivity|]);
      unfold GenerateQuickFixSettings;
      match goal with
      | |- context [DefaultEndpoints !! ?k] =>
          let r := eval vm_compute in (DefaultEndpoints !! k) in
          change (DefaultEndpoints !! k) with r
      end; cbv iota beta;
      now destruct (ParseSettings _).
Qed.

End ConfigFacts.

Section RoleFacts.
Import config client.
Variable ToLower : string → string.

(** X26.  With the default identities, the reconnect signal is for the
    market-data endpoint only.  For a client whose sender id is that of a
    default endpoint, handling a news message publishes the
    reconnect-needed event exactly when the message matches a keyword test
    and the endpoint is "MD". *)
Theorem default_identity_reconnect (endpoint : string)
    (cfg : EndpointConfig) (msg : Message) (c : Client) :
  DefaultEndpoints !! endpoint = Some cfg →
  senderCompID c = SenderCompID cfg →
  let seen :=
    go_strings.Contains (ToLower (newsHeadline msg)) "maintenance"
    || go_strings.Contains (ToLower (newsBody msg)) "maintenance"
    || go_strings.Contains (ToLower (newsBody msg)) "reconnect" in
  reconnect_needed_event
    ∈ drop (length (emitter c)) (emitter (handleNewsMessage ToLower msg c))
  ↔ seen = true ∧ endpoint = MarketDataEndpoint.
Proof.
  intros Hcfg Hid. cbv zeta. rewrite handleNewsMessage_cases. cbv zeta.
  destruct (_ || _).
  - cbn [Emit senderCompID emitter]. rewrite Hid.
    apply DefaultEndpoints_lookup in Hcfg as [[-> ->]|[-> ->]].
    + change (go_strings.Contains "BOETRADE" "BMD") with false. cbv iota.
      cbn [Emit emitter]. rewrite drop_app_length.
      split; [|intros [_ H]; discriminate H].
      intros H. apply list_elem_of_singleton in H. discriminate H.
    + change (go_strings.Contains "BMDWATCH" "BMD") with true. cbv iota.
      cbn [Emit emitter]. rewrite <- app_assoc, drop_app_length.
      split; [auto|]. intros _. apply elem_of_app. right.
      now apply list_elem_of_singleton.
  - rewrite drop_all. split; [intros H; now apply elem_of_nil in H|].
    intros [H _]. discriminate H.
Qed.

End RoleFacts.

(** ** More on the logon payload *)

Section MoreLogonFacts.
Import crypto.
Variable ed25519_Sign : list Byte.byte → list Byte.byte → list Byte.byte.

Lemma Contains_SOH_cons (c : ascii) (s : string) :
  go_strings.Contains (String c s) SOH = false →
  c ≠ ascii_of_nat 1 ∧ go_strings.Contains s SOH = false.
Proof.
  unfold SOH. cbn [go_strings.Contains String.prefix].
  destruct (ascii_dec (ascii_of_nat 1) c) as [<-|Hne].
  - now destruct s.
  - intros H. split; [congruence|exact H].
Qed.

Lemma append_assoc (a b c : string) : (a +:+ b) +:+ c = a +:+ b +:+ c.
Proof.
  induction a as [|x a IH]; [reflexivity|].
  change (String x ((a +:+ b) +:+ c) = String x (a +:+ b +:+ c)).
  now f_equal.
Qed.

(** A field without the separator ends where the first separator is. *)
Lemma split_at_SOH (a a' r r' : string) :
  go_strings.Contains a SOH = false →
  go_strings.Contains a' SOH = false →
  a +:+ SOH +:+ r = a' +:+ SOH +:+ r' → a = a' ∧ r = r'.
Proof.
  assert (HS : ∀ x, SOH +:+ x = String (ascii_of_nat 1) x) by reflexivity.
  revert a'. induction a as [|c a IH]; intros [|c' a'] Ha Ha';
    cbn [String.append].
  - rewrite !HS. intros [= ->]. auto.
  - rewrite (HS r). intros [= <- _].
    now apply Contains_SOH_cons in Ha' as [? _].
  - rewrite (HS r'). intros [= -> _].
    now apply Contains_SOH_cons in Ha as [? _].
  - intros [= -> E].
    apply Contains_SOH_cons in Ha as [_ Ha].
    apply Contains_SOH_cons in Ha' as [_ Ha'].
    destruct (IH a' Ha Ha' E) as [-> ->]. auto.
Qed.

(** X27.  The signed payload frames its fields only as long as the
    identifiers are free of the separator.  For sender and target ids
    without the byte 0x01, the payload determines sender id, target id and
    sending time; but a separator inside an identifier moves the boundary:
    sender [x SOH y] with target [z] is signed exactly as sender [x] with
    target [y SOH z]. *)
Theorem logon_payload_framing (senderCompID targetCompID sendingTime
    senderCompID' targetCompID' sendingTime' : string) :
  go_strings.Contains senderCompID SOH = false →
  go_strings.Contains targetCompID SOH = false →
  go_strings.Contains senderCompID' SOH = false →
  go_strings.Contains targetCompID' SOH = false →
  (go_strings.Join
     [enum.MsgType_LOGON; senderCompID; targetCompID; "1"; sendingTime] SOH
   = go_strings.Join
       [enum.MsgType_LOGON; senderCompID'; targetCompID'; "1"; sendingTime']
       SOH →
   senderCompID = senderCompID' ∧ targetCompID = targetCompID'
   ∧ sendingTime = sendingTime')
  ∧ (∀ (privateKey : PrivateKey) (x y z : string),
       GetLogonRawData ed25519_Sign privateKey (x +:+ SOH +:+ y) z
         sendingTime
       = GetLogonRawData ed25519_Sign privateKey x (y +:+ SOH +:+ z)
           sendingTime).
Proof.
  intros Hs Ht Hs' Ht'. split.
  - rewrite !Join_five. intros E.
    apply split_at_SOH in E as [_ E]; [|reflexivity|reflexivity].
    apply split_at_SOH in E as [-> E]; [|assumption|assumption].
    apply split_at_SOH in E as [-> E]; [|assumption|assumption].
    apply split_at_SOH in E as [_ ->]; [|reflexivity|reflexivity].
    auto.
  - intros k x y z. unfold GetLogonRawData. rewrite !Join_five.
    now rewrite !append_assoc.
Qed.

(** X28.  The raw data of a logon is 88 characters long.  An Ed25519
    signature has 64 bytes, and the encoder writes four characters for
    every three bytes begun. *)
Theorem GetLogonRawData_length (privateKey : PrivateKey)
    (senderCompID targetCompID sendingTime : string) :
  (∀ message, length (ed25519_Sign (key_bytes privateKey) message) = 64%nat) →
  String.length
    (GetLogonRawData ed25519_Sign privateKey senderCompID targetCompID
       sendingTime) = 88%nat.
Proof.
  intros Hsig. unfold GetLogonRawData.
  now rewrite EncodeToString_length, Hsig.
Qed.

End MoreLogonFacts.

(** * The further properties at concrete inputs *)

Section MoreInstances.
Import examples handlers client.

Lemma DecodeExecutionReport_required_tags_witness :
  ∃ f39 f55 f37 f40 f54,
    Body minimal_report !! tagOrdStatus = Some f39
    ∧ Body minimal_report !! tagSymbol = Some f55
    ∧ Body minimal_report !! tagOrderID = Some f37
    ∧ Body minimal_report !! tagOrdType = Some f40
    ∧ Body minimal_report !! tagSide = Some f54
    ∧ Status minimal_order = index_map mappedOrderStatus (tv_value f39.1)
    ∧ Symbol minimal_order = tv_value f55.1
    ∧ strconv.ParseInt (tv_value f37.1) = Ok (OrderID minimal_order)
    ∧ Type_ minimal_order = index_map mappedOrderType (tv_value f40.1)
    ∧ Side minimal_order = index_map mappedSideType (tv_value f54.1).
Proof.
  apply (DecodeExecutionReport_required_tags (RT := integer_runtime)
           minimal_report minimal_order).
  reflexivity.
Defined.

Lemma DecodeExecutionReport_required_tags_suffice_witness :
  DecodeExecutionReport minimal_report = Ok minimal_order.
Proof.
  apply (DecodeExecutionReport_required_tags_suffice
           (RT := integer_runtime) minimal_report
           (single 39 "0") (single 55 "BTCUSDT") (single 37 "12345")
           (single 40 "2") (single 54 "1") 12345);
    try (reflexivity).
  repeat constructor.
Defined.

Lemma DecodeExecutionReport_status_first_witness :
  DecodeExecutionReport report_without_status =
    Err (ConditionallyRequiredFieldMissing tagOrdStatus).
Proof.
  apply (DecodeExecutionReport_status_first (RT := integer_runtime)).
  reflexivity.
Defined.

Lemma DecodeExecutionReport_needs_order_id_witness :
  DecodeExecutionReport report_without_order_id =
    Err (NumError "ParseInt" "" false).
Proof.
  destruct (DecodeExecutionReport_needs_order_id (RT := integer_runtime)
              report_without_order_id) as [_ H].
  - reflexivity.
  - apply (H "NEW" "BTCUSDT"); reflexivity.
Defined.

Lemma DecodeExecutionReport_text_ignored_witness :
  DecodeExecutionReport (Body_Set minimal_report tagText "filled at once") =
  DecodeExecutionReport minimal_report.
Proof.
  apply (DecodeExecutionReport_text_ignored (RT := integer_runtime)
           minimal_report "NEW").
  - reflexivity.
  - discriminate.
Defined.

Lemma DecodeExecutionReport_zero_enum_iff_unknown_witness :
  Status unknown_enums_order = zero_string ↔
  ∃ f, Body unknown_enums_report !! tagOrdStatus = Some f
       ∧ mappedOrderStatus !! tv_value f.1 = None.
Proof.
  apply (DecodeExecutionReport_zero_enum_iff_unknown
           (RT := integer_runtime) unknown_enums_report unknown_enums_order).
  reflexivity.
Defined.

Lemma identifiers_round_trip_witness :
  getOrderID (Body_Set NewMessage tagOrderID "-9223372036854775808") =
  Ok (-9223372036854775808).
Proof.
  destruct (identifiers_round_trip NewMessage (-9223372036854775808))
    as [H _].
  - unfold strconv.MinInt64, strconv.MaxInt64. lia.
  - exact H.
Defined.

Lemma DecodeTradeMessage_venue_tags_witness :
  DecodeTradeMessage (Body_Set trade_fallback 6010 "99999999999999999999x") =
    Ok (with_venue_fields decoded_fallback strconv.MaxInt64 0 false)
  ∧ DecodeTradeMessage (Body_Set trade_fallback 6011 "12x") =
    Ok decoded_fallback
  ∧ (strconv.ParseInt2 "99999999999999999999x").1 = strconv.MaxInt64.
Proof.
  destruct (DecodeTradeMessage_venue_tags (RT := integer_runtime)
              trade_fallback "99999999999999999999x")
    as (Hb & _ & _ & _ & _ & Ho).
  destruct (DecodeTradeMessage_venue_tags (RT := integer_runtime)
              trade_fallback "12x") as (_ & Hs & _).
  split; [|split].
  - rewrite Hb. reflexivity.
  - rewrite Hs. reflexivity.
  - apply (Ho "9"%char "9999999999999999999" "x" 99999999999999999999);
      [reflexivity|unfold strconv.MaxUint64; lia].
Defined.

Lemma Subscribe_then_HandleTradeMessage_witness :
  HandleTradeMessage (Subscribe one_subscriber "BTCUSDT" 2%nat)
    trade_primary =
  (None, [(1%nat, decoded_primary); (2%nat, decoded_primary)]).
Proof.
  rewrite (Subscribe_then_HandleTradeMessage (RT := integer_runtime)
             one_subscriber "BTCUSDT" 2%nat trade_primary decoded_primary).
  - reflexivity.
  - reflexivity.
Defined.

Lemma Unsubscribe_then_HandleTradeMessage_witness :
  HandleTradeMessage (Unsubscribe one_subscriber "BTCUSDT") trade_primary =
  (None, []).
Proof.
  destruct (Unsubscribe_then_HandleTradeMessage (RT := integer_runtime)
              one_subscriber "BTCUSDT" 7%nat trade_primary decoded_primary)
    as [H _].
  - reflexivity.
  - rewrite H. reflexivity.
Defined.

Lemma send_registers_call_witness :
  pending (the_client (send accept_all noon "r1" NewMessage idle_state).2)
    !! "r1" =
  Some {| request := addCommonHeaders md_client noon NewMessage;
          response := None; done := make_chan 1 |}.
Proof.
  destruct (send_registers_call (RT := integer_runtime) accept_all noon
              "r1" NewMessage idle_state) as (_ & H & _).
  - reflexivity.
  - reflexivity.
  - exact H.
Defined.

Lemma wait_delivers_once_witness :
  wait {| waiter_call := resolved_call |} background =
    [(Ok (response resolved_call), received resolved_call [])]
  ∧ wait {| waiter_call := received resolved_call [] |} background = [].
Proof.
  destruct (wait_delivers_once {| waiter_call := resolved_call |} background)
    as (H1 & _ & H2 & _).
  - reflexivity.
  - split.
    + apply H1. reflexivity.
    + apply (H2 None); reflexivity.
Defined.

Lemma wait_race_witness :
  wait {| waiter_call := resolved_call |} expired =
    [(Ok (response resolved_call), received resolved_call []);
     (Err DeadlineExceeded, resolved_call)].
Proof.
  apply (wait_race {| waiter_call := resolved_call |} expired None []
           DeadlineExceeded); reflexivity.
Defined.

Lemma request_ids_distinct_witness :
  Body (subscribeRequest 1 ["BTCUSDT"]) !! tagMDReqID
  ≠ Body (unsubscribeRequest 1 ["BTCUSDT"]) !! tagMDReqID.
Proof.
  apply (request_ids_distinct 1 1 ["BTCUSDT"] ["BTCUSDT"]);
    unfold strconv.MinInt64, strconv.MaxInt64; lia.
Defined.

Lemma UnsubscribeFromTrades_symbols_round_trip_witness :
  readSymbolGroup (Body (unsubscribeRequest 7 ["BTCUSDT"; "ETHUSDT"])) =
  Ok ["BTCUSDT"; "ETHUSDT"].
Proof.
  apply UnsubscribeFromTrades_symbols_round_trip.
  vm_compute. discriminate.
Defined.

Lemma default_identity_reconnect_witness :
  reconnect_needed_event
    ∈ drop (length (emitter md_client))
        (emitter (handleNewsMessage ascii_ToLower maintenance_notice
                    md_client))
  ↔ go_strings.Contains (ascii_ToLower (newsHeadline maintenance_notice))
      "maintenance"
    || go_strings.Contains (ascii_ToLower (newsBody maintenance_notice))
         "maintenance"
    || go_strings.Contains (ascii_ToLower (newsBody maintenance_notice))
         "reconnect" = true
    ∧ "MD" = config.MarketDataEndpoint.
Proof.
  apply (default_identity_reconnect ascii_ToLower "MD" market_data_defaults
           maintenance_notice md_client).
  - reflexivity.
  - reflexivity.
Defined.

Lemma logon_payload_framing_witness :
  crypto.GetLogonRawData sized_signer zero_key
    ("BOE" +:+ crypto.SOH +:+ "TRADE") "SPOT" "20240101-12:00:00.000"
  = crypto.GetLogonRawData sized_signer zero_key
      "BOE" ("TRADE" +:+ crypto.SOH +:+ "SPOT") "20240101-12:00:00.000".
Proof.
  destruct (logon_payload_framing sized_signer "BOETRADE" "SPOT"
              "20240101-12:00:00.000" "BOETRADE" "SPOT"
              "20240101-12:00:00.000") as [_ H];
    [reflexivity|reflexivity|reflexivity|reflexivity|].
  exact (H zero_key "BOE" "TRADE" "SPOT").
Defined.

Lemma GetLogonRawData_length_witness :
  String.length
    (crypto.GetLogonRawData sized_signer zero_key "BOETRADE" "SPOT"
       "20240101-12:00:00.000") = 88%nat.
Proof.
  apply (GetLogonRawData_length sized_signer zero_key).
  intros message. unfold sized_signer.
  rewrite length_take, !length_app, !repeat_length. lia.
Defined.

End MoreInstances.

(** ** Required tags of a trade tick *)

Section TradeTagFacts.
Context `{RT : Runtime}.
Import handlers.

(** X29.  A primary tag that is present decides alone.  When tag 270 holds
    a value [ParseFloat] refuses, the price getter returns that error and
    the message does not decode, however good the fallback tag 31 is;
    likewise tag 271 against 32, and tag 1003 against 571 with
    [ParseInt]. *)
Theorem DecodeTradeMessage_no_fallback_on_bad_primary (msg : Message) :
  (∀ f e, Body msg !! 270 = Some f → ParseFloat (tv_value f.1) = Err e →
     getTradePrice msg = Err e ∧ ∀ t, DecodeTradeMessage msg ≠ Ok t)
  ∧ (∀ f e, Body msg !! 271 = Some f → ParseFloat (tv_value f.1) = Err e →
       getTradeQuantity msg = Err e ∧ ∀ t, DecodeTradeMessage msg ≠ Ok t)
  ∧ (∀ f e, Body msg !! 1003 = Some f →
       strconv.ParseInt (tv_value f.1) = Err e →
       getTradeID msg = Err e ∧ ∀ t, DecodeTradeMessage msg ≠ Ok t).
Proof.
  destruct (getTradePrice_cases msg) as (P1 & _).
  destruct (getTradeQuantity_cases msg) as (Q1 & _).
  destruct (getTradeID_cases msg) as (I1 & _).
  split; [|split]; intros f e Hf He.
  - assert (Hg : getTradePrice msg = Err e) by (now rewrite (P1 f Hf)).
    split; [exact Hg|]. intros t Ht.
    apply DecodeTradeMessage_Ok_inv in Ht as (_ & _ & Ht & _). congruence.
  - assert (Hg : getTradeQuantity msg = Err e) by (now rewrite (Q1 f Hf)).
    split; [exact Hg|]. intros t Ht.
    apply DecodeTradeMessage_Ok_inv in Ht as (_ & _ & _ & Ht & _). congruence.
  - assert (Hg : getTradeID msg = Err e) by (now rewrite (I1 f Hf)).
    split; [exact Hg|]. intros t Ht.
    apply DecodeTradeMessage_Ok_inv in Ht as (_ & Ht & _). congruence.
Qed.

(** X30.  A decoded Trade comes from a message that carries the symbol
    (55), the trade time (60), a trade id (1003 or 571), a price (270 or
    31) and a quantity (271 or 32); its symbol is the value of tag 55 as it
    stands. *)
Theorem DecodeTradeMessage_required_tags (msg : Message) (t : Trade) :
  DecodeTradeMessage msg = Ok t →
  (∃ f, Body msg !! tagSymbol = Some f ∧ Trade_Symbol t = tv_value f.1)
  ∧ is_Some (Body msg !! tagTransactTime)
  ∧ (is_Some (Body msg !! 1003) ∨ is_Some (Body msg !! 571))
  ∧ (is_Some (Body msg !! 270) ∨ is_Some (Body msg !! 31))
  ∧ (is_Some (Body msg !! 271) ∨ is_Some (Body msg !! 32)).
Proof.
  intros Ht. apply DecodeTradeMessage_Ok_inv in Ht.
  destruct Ht as (Hs & Hi & Hp & Hq & Htm).
  destruct (getTradePrice_cases msg) as (_ & _ & P3).
  destruct (getTradeQuantity_cases msg) as (_ & _ & Q3).
  destruct (getTradeID_cases msg) as (_ & _ & I3).
  split; [|split; [|split; [|split]]].
  - apply GetString_Ok_inv in Hs as (f & Hf & <-). eauto.
  - destruct (Body msg !! tagTransactTime) eqn:E; [eauto|].
    rewrite (getTradeTime_absent msg E) in Htm. discriminate.
  - destruct (Body msg !! 1003) eqn:E1; [eauto|].
    destruct (Body msg !! 571) eqn:E2; [eauto|].
    rewrite (I3 eq_refl eq_refl) in Hi. discriminate.
  - destruct (Body msg !! 270) eqn:E1; [eauto|].
    destruct (Body msg !! 31) eqn:E2; [eauto|].
    rewrite (P3 eq_refl E2) in Hp. discriminate.
  - destruct (Body msg !! 271) eqn:E1; [eauto|].
    destruct (Body msg !! 32) eqn:E2; [eauto|].
    rewrite (Q3 eq_refl E2) in Hq. discriminate.
Qed.

End TradeTagFacts.

Section TradeTagInstances.
Import examples handlers.

Lemma DecodeTradeMessage_no_fallback_on_bad_primary_witness :
  getTradePrice trade_bad_primary = Err (NumError "ParseInt" "abc" false).
Proof.
  destruct (DecodeTradeMessage_no_fallback_on_bad_primary
              (RT := integer_runtime) trade_bad_primary) as [H _].
  apply (H (single 270 "abc")); reflexivity.
Defined.

Lemma DecodeTradeMessage_required_tags_witness :
  ∃ f, Body trade_primary !! tagSymbol = Some f
       ∧ Trade_Symbol decoded_primary = tv_value f.1.
Proof.
  apply (DecodeTradeMessage_required_tags (RT := integer_runtime)
           trade_primary decoded_primary).
  reflexivity.
Defined.

End TradeTagInstances.
